(** * pdf-formbot: normalisation, comparison and batch analysis

    A shallow embedding of the TypeScript sources [src/analyze.ts] (the
    analyzer) and the evaluation script (the comparator), followed by the
    theorems that settle the specification's claims about them.

    Strings.  A JavaScript string is a sequence of UTF-16 code units.  The
    model uses [string] and reads an [ascii] as a code unit in the range
    U+0000..U+00FF (Basic Latin and Latin-1 Supplement).  On that range
    [toLowerCase] and [trim] below are the ECMAScript functions: a lower-cased
    Latin-1 string stays in Latin-1, and the white space of [trim] in the range
    is TAB, LF, VT, FF, CR, SP and NBSP. *)

From Stdlib Require Import Bool Arith ZArith Lia List Ascii String DecimalString.
Import ListNotations.
Local Open Scope string_scope.

(** ** JavaScript string primitives *)
Module JS.

(** [WhiteSpace] and [LineTerminator] code units below U+0100. *)
Definition isWhiteSpace (c : ascii) : bool :=
  let n := nat_of_ascii c in
  (Nat.leb 9 n && Nat.leb n 13) || Nat.eqb n 32 || Nat.eqb n 160.

(** Simple lower-case mapping of one code unit: A-Z, and U+00C0..U+00DE
    except the multiplication sign U+00D7. *)
Definition lowerChar (c : ascii) : ascii :=
  let n := nat_of_ascii c in
  if (Nat.leb 65 n && Nat.leb n 90)
     || (Nat.leb 192 n && Nat.leb n 222 && negb (Nat.eqb n 215))
  then ascii_of_nat (n + 32) else c.

(** [String.prototype.toLowerCase] *)
Fixpoint toLowerCase (s : string) : string :=
  match s with
  | EmptyString => EmptyString
  | String c s' => String (lowerChar c) (toLowerCase s')
  end.

(** [String.prototype.trimStart] *)
Fixpoint trimStart (s : string) : string :=
  match s with
  | EmptyString => EmptyString
  | String c s' => if isWhiteSpace c then trimStart s' else s
  end.

(** [String.prototype.trimEnd] *)
Fixpoint trimEnd (s : string) : string :=
  match s with
  | EmptyString => EmptyString
  | String c s' =>
      match trimEnd s' with
      | EmptyString => if isWhiteSpace c then EmptyString else String c EmptyString
      | t => String c t
      end
  end.

(** [String.prototype.trim] *)
Definition trim (s : string) : string := trimEnd (trimStart s).

(** [s.startsWith(p)] *)
Fixpoint startsWith (s p : string) : bool :=
  match p, s with
  | EmptyString, _ => true
  | String _ _, EmptyString => false
  | String a p', String b s' => Ascii.eqb a b && startsWith s' p'
  end.

(** [s.includes(sub)]: [sub] starts at some position of [s]. *)
Fixpoint includes (s sub : string) : bool :=
  startsWith s sub ||
  match s with
  | EmptyString => false
  | String _ s' => includes s' sub
  end.

(** [s.endsWith(p)] *)
Fixpoint endsWith (s p : string) : bool :=
  String.eqb s p ||
  match s with
  | EmptyString => false
  | String _ s' => endsWith s' p
  end.

(** [s.split(sep)] for a separator of one code unit. *)
Fixpoint split (sep : ascii) (s : string) : list string :=
  match s with
  | EmptyString => [EmptyString]
  | String c s' =>
      if Ascii.eqb c sep then EmptyString :: split sep s'
      else match split sep s' with
           | [] => [String c EmptyString]
           | w :: ws => String c w :: ws
           end
  end.

(** [items.join(sep)] *)
Fixpoint join (sep : string) (items : list string) : string :=
  match items with
  | [] => EmptyString
  | [x] => x
  | x :: rest => x ++ sep ++ join sep rest
  end.

(** [s.replace(/c/g, r)] for a pattern of one code unit. *)
Fixpoint replaceAll (c : ascii) (r : string) (s : string) : string :=
  match s with
  | EmptyString => EmptyString
  | String a s' =>
      if Ascii.eqb a c then r ++ replaceAll c r s'
      else String a (replaceAll c r s')
  end.

(** Truthiness of a string: [!s] holds of the empty string only. *)
Definition truthy (s : string) : bool :=
  match s with EmptyString => false | _ => true end.

End JS.

Definition LF : ascii := ascii_of_nat 10.
Definition CR : ascii := ascii_of_nat 13.
Definition DQUOTE : ascii := ascii_of_nat 34.
Definition COMMA : ascii := ascii_of_nat 44.

Definition quote : string := String DQUOTE EmptyString.
Definition newline : string := String LF EmptyString.

(** ** Exceptions

    A computation either returns or throws an [Error] with a message; the
    [catch] block of [analyzePdf] only looks at the message. *)
Inductive result (A : Type) : Type :=
| Ok (a : A)
| Throw (message : string).
Arguments Ok {A} a.
Arguments Throw {A} message.

Definition bind {A B : Type} (m : result A) (k : A -> result B) : result B :=
  match m with
  | Ok a => k a
  | Throw e => Throw e
  end.

Notation "x <- m ;; k" := (bind m (fun x => k))
  (at level 61, m at next level, right associativity).
Notation "' pat <- m ;; k" := (bind m (fun x => match x with pat => k end))
  (at level 61, pat pattern, m at next level, right associativity).

(** ** JSON values

    IEEE doubles are kept behind an interface: the normalizer only tests a
    number for truthiness, copies it, or replaces it by the literal [0] or
    [0.5]. *)
Class JSNumber : Type := {
  number : Type;
  isZeroOrNaN : number -> bool;
  num_0 : number;
  num_0_5 : number
}.

Section Json.
Context {NUM : JSNumber}.

(** What [JSON.parse] returns.  An object is its list of own properties. *)
#[local] Set Warnings "-register-all".
Inductive value : Type :=
| JNull
| JBool (b : bool)
| JNum (n : number)
| JStr (s : string)
| JArr (items : list value)
| JObj (props : list (string * value)).

Fixpoint lookup (k : string) (props : list (string * value)) : option value :=
  match props with
  | [] => None
  | (k', v) :: rest => if String.eqb k k' then Some v else lookup k rest
  end.

(** [v.k] for a parsed value [v] and one of the property names the sources
    read (none of them exists on a prototype): [None] is [undefined];
    reading a property of [null] throws. *)
Definition getProp (v : value) (k : string) : result (option value) :=
  match v with
  | JNull => Throw ("Cannot read properties of null (reading '" ++ k ++ "')")
  | JObj props => Ok (lookup k props)
  | _ => Ok None
  end.

(** [v?.k] where [v] may be [undefined] *)
Definition getOptional (v : option value) (k : string) : option value :=
  match v with
  | Some (JObj props) => lookup k props
  | _ => None
  end.

(** [Boolean(v)] *)
Definition Boolean (v : option value) : bool :=
  match v with
  | None | Some JNull => false
  | Some (JBool b) => b
  | Some (JNum n) => negb (isZeroOrNaN n)
  | Some (JStr s) => JS.truthy s
  | Some (JArr _) | Some (JObj _) => true
  end.

End Json.

(** The five sensitivity flags, shared by both scripts. *)
Record SensitiveInfo : Type := mkSensitiveInfo {
  ssn : bool;
  driversLicense : bool;
  financial : bool;
  health : bool;
  criminalHistory : bool
}.

Definition noSensitiveInfo : SensitiveInfo :=
  mkSensitiveInfo false false false false false.

(** [if (flag) items.push(label)] *)
Definition pushIf (flag : bool) (label : string) (items : list string) : list string :=
  if flag then items ++ [label] else items.

Definition sensitiveItems (info : SensitiveInfo) : list string :=
  let items := [] in
  let items := pushIf (ssn info) "SSN" items in
  let items := pushIf (driversLicense info) "DL#" items in
  let items := pushIf (financial info) "Financial" items in
  let items := pushIf (health info) "Health" items in
  let items := pushIf (criminalHistory info) "Criminal" items in
  items.

(** ** The analyzer, [src/analyze.ts] *)
Module Analyze.

(** [FormAnalysis["formType"]]: the canonical vocabulary. *)
Definition FORM_TYPE_VALUES : list string :=
  [ "Fillable PDF"; "Non-Fillable PDF"; "Google form"; "MS Office form";
    "MS Word document"; "Airtable form"; "Phone"; "Email"; "N/A"; "Unknown" ].

(** [FormAnalyzer.normalizeFormType], on a string argument. *)
Definition normalizeFormType (type : string) : string :=
  if negb (JS.truthy type) then "N/A" else
  let normalized := JS.trim (JS.toLowerCase type) in
  if JS.includes normalized "fillable" && JS.includes normalized "pdf"
  then "Fillable PDF"
  else if JS.includes normalized "non-fillable" || JS.includes normalized "nonfillable"
  then "Non-Fillable PDF"
  else if JS.includes normalized "google" then "Google form"
  else if JS.includes normalized "airtable" then "Airtable form"
  else if JS.includes normalized "office" || JS.includes normalized "excel"
  then "MS Office form"
  else if JS.includes normalized "word" then "MS Word document"
  else if JS.includes normalized "phone" then "Phone"
  else if JS.includes normalized "email" then "Email"
  else if JS.includes normalized "digital" || JS.includes normalized "printable"
  then "Non-Fillable PDF"
  else if String.eqb normalized "n/a" || String.eqb normalized "not a form" then "N/A"
  else if JS.includes normalized "pdf" then "Non-Fillable PDF"
  else "Unknown".

Section WithNumbers.
Context {NUM : JSNumber}.

(** [this.normalizeFormType(parsed.formType)] on whatever the reply holds:
    a falsy value takes the [!type] exit, a string is normalized, and any
    other value has no [toLowerCase] method. *)
Definition normalizeFormTypeOf (type : option value) : result string :=
  if negb (Boolean type) then Ok "N/A" else
  match type with
  | Some (JStr s) => Ok (normalizeFormType s)
  | _ => Throw "type.toLowerCase is not a function"
  end.

(** [Partial<FormAnalysis>] as returned by [normalizeResponse].  [notes] is
    declared a string, but holds whatever truthy value the reply carried. *)
Record Fragment : Type := mkFragment {
  f_isForm : string;
  f_formType : string;
  f_sensitiveInfo : SensitiveInfo;
  f_sensitiveInfoSummary : string;
  f_confidence : number;
  f_pageCount : number;
  f_notes : value
}.

(** [typeof v === "number" ? v : d] *)
Definition numberOr (v : option value) (d : number) : number :=
  match v with
  | Some (JNum n) => n
  | _ => d
  end.

(** [v || d] *)
Definition orElse (v : option value) (d : value) : value :=
  match v with
  | Some x => if Boolean v then x else d
  | None => d
  end.

(** [v === "Yes"] *)
Definition isYes (v : option value) : bool :=
  match v with
  | Some (JStr s) => String.eqb s "Yes"
  | _ => false
  end.

(** [FormAnalyzer.normalizeResponse] *)
Definition normalizeResponse (parsed : value) : result Fragment :=
  si <- getProp parsed "sensitiveInfo" ;;
  let sensitiveInfo :=
    {| ssn := Boolean (getOptional si "ssn");
       driversLicense := Boolean (getOptional si "driversLicense");
       financial := Boolean (getOptional si "financial");
       health := Boolean (getOptional si "health");
       criminalHistory := Boolean (getOptional si "criminalHistory") |} in
  let items := sensitiveItems sensitiveInfo in
  isForm <- getProp parsed "isForm" ;;
  rawType <- getProp parsed "formType" ;;
  formType <- normalizeFormTypeOf rawType ;;
  confidence <- getProp parsed "confidence" ;;
  pageCount <- getProp parsed "pageCount" ;;
  notes <- getProp parsed "notes" ;;
  Ok {| f_isForm := if isYes isForm then "Yes" else "No";
        f_formType := formType;
        f_sensitiveInfo := sensitiveInfo;
        f_sensitiveInfoSummary :=
          if Nat.ltb 0 (List.length items) then JS.join ", " items else "None";
        f_confidence := numberOr confidence num_0_5;
        f_pageCount := numberOr pageCount num_0;
        f_notes := orElse notes (JStr EmptyString) |}.

(** An already normalized fragment read back as a reply object. *)
Definition asReply (f : Fragment) : value :=
  JObj [ ("isForm", JStr (f_isForm f));
         ("formType", JStr (f_formType f));
         ("sensitiveInfo",
            JObj [ ("ssn", JBool (ssn (f_sensitiveInfo f)));
                   ("driversLicense", JBool (driversLicense (f_sensitiveInfo f)));
                   ("financial", JBool (financial (f_sensitiveInfo f)));
                   ("health", JBool (health (f_sensitiveInfo f)));
                   ("criminalHistory", JBool (criminalHistory (f_sensitiveInfo f))) ]);
         ("sensitiveInfoSummary", JStr (f_sensitiveInfoSummary f));
         ("confidence", JNum (f_confidence f));
         ("pageCount", JNum (f_pageCount f));
         ("notes", f_notes f) ].


(** *** The external world of one document

    [fetch], the [URL] parser, the Files API, the model call and [JSON.parse]
    are outside the repository: each is a function that returns or throws.
    [files_get] is called repeatedly, so it also receives the number of the
    call within the run (0 for the first). *)
Record Response : Type := mkResponse {
  ok : bool;
  status : nat;
  statusText : string;
  arrayBuffer : result nat          (* the byte length of the body *)
}.

(** The fields of the SDK's [File] the analyzer reads; all are optional. *)
Record File : Type := mkFile {
  name : option string;
  uri : option string;
  mimeType : option string;
  state : option string
}.

Record Service : Type := mkService {
  fetch : string -> result Response;
  URL_pathname : string -> result string;
  files_upload : nat -> string -> result File;
  files_get : nat -> option string -> result File;
  models_generateContent : string -> string -> string -> string -> result (option string);
  JSON_parse : string -> result value;
  files_delete : option string -> result unit;
  elapsedMs : Z
}.

Definition stringOfNat (n : nat) : string :=
  NilEmpty.string_of_uint (Nat.to_uint n).

(** [x === "PROCESSING"] and the like on an optional string *)
Definition strictEq (x : option string) (lit : string) : bool :=
  match x with
  | Some s => String.eqb s lit
  | None => false
  end.

(** [!x] on an optional string *)
Definition missing (x : option string) : bool :=
  match x with
  | Some s => negb (JS.truthy s)
  | None => true
  end.

Definition MAX_ATTEMPTS : nat := 30.

(** The polling loop of [uploadPdfFromUrl]:
    [while (getFile.state === "PROCESSING" && attempts < 30)].
    [remaining] is [30 - attempts], so [attempts < 30] reads [remaining <> 0].
    Returns the last polled file and the final value of [attempts]. *)
Fixpoint waitForProcessing (svc : Service) (fileName : option string)
    (remaining attempts : nat) (getFile : File) : result (File * nat) :=
  match remaining with
  | O => Ok (getFile, attempts)
  | S remaining' =>
      if strictEq (state getFile) "PROCESSING" then
        getFile' <- files_get svc (S attempts) fileName ;;
        waitForProcessing svc fileName remaining' (S attempts) getFile'
      else Ok (getFile, attempts)
  end.

(** [urlPath.split("/").pop() || "document.pdf"] *)
Definition displayNameOf (urlPath : string) : string :=
  let last := List.last (JS.split "/"%char urlPath) EmptyString in
  if JS.truthy last then last else "document.pdf".

(** The download, the upload and the first poll, then the polling loop. *)
Definition uploadAndPoll (svc : Service) (url : string) : result (File * nat * nat) :=
  response <- fetch svc url ;;
  if negb (ok response) then
    Throw ("Failed to download: " ++ stringOfNat (status response) ++ " "
           ++ statusText response)
  else
    byteLength <- arrayBuffer response ;;
    let fileSizeKB := ((byteLength + 512) / 1024)%nat in
    urlPath <- URL_pathname svc url ;;
    let displayName := displayNameOf urlPath in
    file <- files_upload svc byteLength displayName ;;
    getFile <- files_get svc 0 (name file) ;;
    '(getFile, attempts) <- waitForProcessing svc (name file) MAX_ATTEMPTS 0 getFile ;;
    Ok (getFile, fileSizeKB, attempts).

(** [FormAnalyzer.uploadPdfFromUrl] *)
Definition uploadPdfFromUrl (svc : Service) (url : string) : result (File * nat) :=
  '(getFile, fileSizeKB, _) <- uploadAndPoll svc url ;;
  if strictEq (state getFile) "FAILED" then Throw "Gemini file processing failed"
  else Ok (getFile, fileSizeKB).

(** [splitAtFirst s sub]: the text before and after the first occurrence
    of [sub] in [s]. *)
Fixpoint dropN (n : nat) (s : string) : string :=
  match n, s with
  | S n', String _ s' => dropN n' s'
  | _, _ => s
  end.

Fixpoint splitAtFirst (s sub : string) : option (string * string) :=
  if JS.startsWith s sub then Some (EmptyString, dropN (String.length sub) s)
  else match s with
       | EmptyString => None
       | String c s' =>
           match splitAtFirst s' sub with
           | Some (before, after) => Some (String c before, after)
           | None => None
           end
       end.

Definition FENCE : string := "```".

(** [text.match(/```json\s*([\s\S]*?)\s*```/)], group 1: the text between
    the first "```json" and the next "```", without the white space the two
    [\s*] take at either end. *)
Definition matchFence (text : string) : option string :=
  match splitAtFirst text (FENCE ++ "json") with
  | None => None
  | Some (_, after) =>
      match splitAtFirst after FENCE with
      | None => None
      | Some (inner, _) => Some (JS.trim inner)
      end
  end.

(** The prefix of [s] that ends with the last [c]. *)
Fixpoint uptoLast (c : ascii) (s : string) : option string :=
  match s with
  | EmptyString => None
  | String a s' =>
      match uptoLast c s' with
      | Some t => Some (String a t)
      | None => if Ascii.eqb a c then Some (String a EmptyString) else None
      end
  end.

(** [text.match(/\{[\s\S]*\}/)], group 0: from the first opening brace to
    the last closing brace after it. *)
Definition matchBraces (text : string) : option string :=
  match splitAtFirst text "{" with
  | None => None
  | Some (_, after) =>
      match uptoLast "}"%char after with
      | Some body => Some ("{" ++ body)
      | None => None
      end
  end.

Record FormAnalysis : Type := mkFormAnalysis {
  url : string;
  isForm : string;
  formType : string;
  sensitiveInfo : SensitiveInfo;
  sensitiveInfoSummary : string;
  confidence : number;
  pageCount : number;
  fileSizeKB : nat;
  processingTimeSec : Z;
  notes : value;
  error : option string
}.

(** The record [analyzePdf] starts from. *)
Definition initialResult (u : string) : FormAnalysis :=
  {| url := u;
     isForm := EmptyString;
     formType := "N/A";
     sensitiveInfo := noSensitiveInfo;
     sensitiveInfoSummary := EmptyString;
     confidence := num_0;
     pageCount := num_0;
     fileSizeKB := 0;
     processingTimeSec := 0;
     notes := JStr EmptyString;
     error := None |}.

(** [Object.assign(result, fragment)] *)
Definition assign (r : FormAnalysis) (f : Fragment) : FormAnalysis :=
  {| url := url r;
     isForm := f_isForm f;
     formType := f_formType f;
     sensitiveInfo := f_sensitiveInfo f;
     sensitiveInfoSummary := f_sensitiveInfoSummary f;
     confidence := f_confidence f;
     pageCount := f_pageCount f;
     fileSizeKB := fileSizeKB r;
     processingTimeSec := processingTimeSec r;
     notes := f_notes f;
     error := error r |}.

Definition setFileSizeKB (r : FormAnalysis) (kb : nat) : FormAnalysis :=
  {| url := url r; isForm := isForm r; formType := formType r;
     sensitiveInfo := sensitiveInfo r;
     sensitiveInfoSummary := sensitiveInfoSummary r;
     confidence := confidence r; pageCount := pageCount r;
     fileSizeKB := kb;
     processingTimeSec := processingTimeSec r;
     notes := notes r; error := error r |}.

(** The [catch] block: [result.error] and [result.notes]. *)
Definition setError (r : FormAnalysis) (message : string) : FormAnalysis :=
  {| url := url r; isForm := isForm r; formType := formType r;
     sensitiveInfo := sensitiveInfo r;
     sensitiveInfoSummary := sensitiveInfoSummary r;
     confidence := confidence r; pageCount := pageCount r;
     fileSizeKB := fileSizeKB r;
     processingTimeSec := processingTimeSec r;
     notes := JStr ("Error: " ++ message);
     error := Some message |}.

Definition setProcessingTimeSec (r : FormAnalysis) (sec : Z) : FormAnalysis :=
  {| url := url r; isForm := isForm r; formType := formType r;
     sensitiveInfo := sensitiveInfo r;
     sensitiveInfoSummary := sensitiveInfoSummary r;
     confidence := confidence r; pageCount := pageCount r;
     fileSizeKB := fileSizeKB r;
     processingTimeSec := sec;
     notes := notes r; error := error r |}.

Definition MODEL : string := "gemini-2.5-flash".

(** [x] or, when it is undefined, the empty string; past the [!x] check
    it is [x]. *)
Definition orEmpty (x : option string) : string :=
  match x with
  | Some t => t
  | None => EmptyString
  end.

(** From the upload check to [normalizeResponse]: the part of the [try]
    block between the two assignments to [result]. *)
Definition askModel (svc : Service) (prompt : string) (file : File) : result Fragment :=
  if missing (uri file) || missing (mimeType file) then
    Throw "File upload succeeded but missing URI or mimeType"
  else
    responseText <-
      models_generateContent svc MODEL (orEmpty (uri file)) (orEmpty (mimeType file))
        prompt ;;
    let text := orEmpty responseText in
    match matchFence text with
    | None =>
        match matchBraces text with
        | None => Throw "Could not parse JSON from response"
        | Some direct =>
            parsed <- JSON_parse svc direct ;;
            normalizeResponse parsed
        end
    | Some fenced =>
        parsed <- JSON_parse svc fenced ;;
        normalizeResponse parsed
    end.

(** The [try] block of [analyzePdf]: the record as the block leaves it, and
    whether the block completed or threw.  The deletion of the uploaded file
    sits in a [try]/[catch] of its own that ignores the error. *)
Definition tryBlock (svc : Service) (prompt u : string) (r : FormAnalysis)
  : FormAnalysis * result unit :=
  match uploadPdfFromUrl svc u with
  | Throw e => (r, Throw e)
  | Ok (file, kb) =>
      let r := setFileSizeKB r kb in
      match askModel svc prompt file with
      | Throw e => (r, Throw e)
      | Ok fragment =>
          let r := assign r fragment in
          match files_delete svc (name file) with
          | Ok _ => (r, Ok tt)
          | Throw _ => (r, Ok tt)
          end
      end
  end.

(** [FormAnalyzer.analyzePdf] *)
Definition analyzePdf (svc : Service) (prompt u : string) : FormAnalysis :=
  let '(r, outcome) := tryBlock svc prompt u (initialResult u) in
  let r := match outcome with
           | Ok _ => r
           | Throw message => setError r message
           end in
  setProcessingTimeSec r ((elapsedMs svc + 500) / 1000)%Z.

(** [result.notes.substring(0, 100)] under [if (result.notes)], the one
    statement of the batch loop that can throw. *)
Definition logNotes (r : FormAnalysis) : result unit :=
  if Boolean (Some (notes r)) then
    match notes r with
    | JStr _ => Ok tt
    | _ => Throw "result.notes.substring is not a function"
    end
  else Ok tt.

(** The loop of [FormAnalyzer.analyzeAll] from index [i] on; [world i] is the
    external world while document [i] is in flight. *)
Fixpoint analyzeAllFrom (world : nat -> Service) (prompt : string) (i : nat)
    (urls : list string) (results : list FormAnalysis) : result (list FormAnalysis) :=
  match urls with
  | [] => Ok results
  | raw :: rest =>
      let u := JS.trim raw in
      if negb (JS.truthy u) then analyzeAllFrom world prompt (S i) rest results
      else
        let r := analyzePdf (world i) prompt u in
        let results := (results ++ [r])%list in
        _ <- logNotes r ;;
        analyzeAllFrom world prompt (S i) rest results
  end.

(** [FormAnalyzer.analyzeAll] *)
Definition analyzeAll (world : nat -> Service) (prompt : string) (urls : list string)
  : result (list FormAnalysis) :=
  analyzeAllFrom world prompt 0 urls [].

End WithNumbers.

(** [new Set(urls)] keeps insertion order; adding a member again is a no-op. *)
Definition setHas (set : list string) (x : string) : bool :=
  existsb (String.eqb x) set.

Definition setAdd (set : list string) (x : string) : list string :=
  if setHas set x then set else (set ++ [x])%list.

Section ReadUrls.
(** [line.match(urlPattern) || []] for the PDF-URL regular expression of the
    CSV branch; the regular-expression engine is not modelled. *)
Variable matchPdfUrls : string -> list string.

(** The body of the [.txt] loop. *)
Definition txtStep (urls : list string) (line : string) : list string :=
  let trimmed := JS.trim line in
  if JS.truthy trimmed && negb (JS.startsWith trimmed "#")
  then (urls ++ [trimmed])%list else urls.

(** The body of the CSV loop. *)
Definition csvStep (urls : list string) (line : string) : list string :=
  (urls ++ matchPdfUrls line)%list.

(** [readUrlsFromFile], given the text [readFileSync] returned. *)
Definition readUrlsFromFile (filePath content : string) : list string :=
  let lines := JS.split LF content in
  let isTxt := JS.endsWith (JS.toLowerCase filePath) ".txt" in
  let urls :=
    if isTxt then fold_left txtStep lines []
    else fold_left csvStep lines [] in
  fold_left setAdd urls [].

End ReadUrls.

(** [escapeField] of [writeResultsCsv] *)
Definition escapeField (value : string) : string :=
  if JS.includes value "," || JS.includes value quote
     || JS.includes value newline || JS.includes value (String CR EmptyString)
  then quote ++ JS.replaceAll DQUOTE (quote ++ quote) value ++ quote
  else value.

(** *** The report writer, [writeResultsCsv]

    [toFixed2], [numberToString] and [below0_7] stand for [n.toFixed(2)],
    [n.toString()] and [n < 0.7] on doubles.  The byte-order mark U+FEFF lies
    outside the code units of the model and is a parameter. *)
Section Report.
Context {NUM : JSNumber}.
Variable toFixed2 : number -> string.
Variable numberToString : number -> string.
Variable below0_7 : number -> bool.
Variable BOM : string.

Definition HEADERS : list string :=
  [ "url";
    "Review: Is this a form";
    "Reviewer: Form Type";
    "Reviewer: Does this form ask for SSN, DL#, financial, health info or criminal history?";
    "Reviewer: Revisit for further review (optional)";
    "Reviewer: Notes (optional)";
    "Review: Reviewed by";
    "Confidence";
    "Page Count";
    "File Size (KB)";
    "Processing Time (sec)";
    "SSN";
    "Driver's License";
    "Financial";
    "Health";
    "Criminal History";
    "Sensitive Info Summary";
    "Error" ].

(** [flag ? "Yes" : "No"] *)
Definition yesNo (flag : bool) : string := if flag then "Yes" else "No".

Definition stringOfZ (z : Z) : string := NilZero.string_of_int (Z.to_int z).

(** [r.notes || ""] for notes that are a string, as the record type declares
    them; the records of a completed batch hold no other notes. *)
Definition notesText (r : FormAnalysis) : option string :=
  match notes r with
  | JStr s => Some s
  | _ => None
  end.

(** One element of [rows]: the cells of a record, as they are joined. *)
Definition csvRow (modelName : string) (r : FormAnalysis) : option (list string) :=
  match notesText r with
  | None => None
  | Some notesOrEmpty =>
      Some [ escapeField (url r);
             isForm r;
             formType r;
             (if negb (String.eqb (sensitiveInfoSummary r) "None") then "Yes" else "No");
             (if below0_7 (confidence r) then "checked" else EmptyString);
             escapeField notesOrEmpty;
             modelName;
             toFixed2 (confidence r);
             numberToString (pageCount r);
             stringOfNat (fileSizeKB r);
             stringOfZ (processingTimeSec r);
             yesNo (ssn (sensitiveInfo r));
             yesNo (driversLicense (sensitiveInfo r));
             yesNo (financial (sensitiveInfo r));
             yesNo (health (sensitiveInfo r));
             yesNo (criminalHistory (sensitiveInfo r));
             escapeField (sensitiveInfoSummary r);
             escapeField (orEmpty (error r)) ]
  end.

(** [results.map(...)], defined when every record has string notes. *)
Fixpoint csvRows (modelName : string) (results : list FormAnalysis)
  : option (list (list string)) :=
  match results with
  | [] => Some []
  | r :: rest =>
      match csvRow modelName r, csvRows modelName rest with
      | Some row, Some rows => Some (row :: rows)
      | _, _ => None
      end
  end.

(** The text [writeResultsCsv] writes. *)
Definition writeResultsCsv (results : list FormAnalysis) (modelName : string)
  : option string :=
  match csvRows modelName results with
  | None => None
  | Some rows =>
      let escapedHeaders := map escapeField HEADERS in
      Some (BOM ++ JS.join newline
                     (JS.join "," escapedHeaders :: map (JS.join ",") rows))
  end.

(** The counts of the summary [main] prints. *)
Definition formsFound (results : list FormAnalysis) : nat :=
  List.length (filter (fun r => String.eqb (isForm r) "Yes") results).

Definition errorCount (results : list FormAnalysis) : nat :=
  List.length (filter (fun r => negb (missing (error r))) results).

Definition withSensitive (results : list FormAnalysis) : nat :=
  List.length
    (filter (fun r => ssn (sensitiveInfo r) || driversLicense (sensitiveInfo r)
                      || financial (sensitiveInfo r) || health (sensitiveInfo r)
                      || criminalHistory (sensitiveInfo r)) results).

End Report.

End Analyze.

(** ** The first revision of the analyzer, at the head of [src/analyze.ts] *)
Module AnalyzeV1.

(** [FormAnalysis["formType"]] of that revision *)
Definition FORM_TYPE_VALUES : list string :=
  [ "Fillable PDF"; "Digital form"; "Google form"; "MS Office form";
    "MS Word document"; "Airtable form"; "Phone"; "Email"; "N/A"; "Unknown" ].

(** [FormAnalyzer.normalizeFormType] of that revision *)
Definition normalizeFormType (type : string) : string :=
  if negb (JS.truthy type) then "N/A" else
  let normalized := JS.trim (JS.toLowerCase type) in
  if JS.includes normalized "fillable" && JS.includes normalized "pdf"
  then "Fillable PDF"
  else if JS.includes normalized "google" then "Google form"
  else if JS.includes normalized "airtable" then "Airtable form"
  else if JS.includes normalized "office" || JS.includes normalized "excel"
  then "MS Office form"
  else if JS.includes normalized "word" then "MS Word document"
  else if JS.includes normalized "phone" then "Phone"
  else if JS.includes normalized "email" then "Email"
  else if JS.includes normalized "digital" || JS.includes normalized "printable"
  then "Digital form"
  else if String.eqb normalized "n/a" || String.eqb normalized "not a form" then "N/A"
  else if JS.includes normalized "pdf" then "Digital form"
  else "Unknown".

End AnalyzeV1.

(** ** The evaluation script (comparator) *)
Module Eval.

Record HumanReview : Type := mkHumanReview {
  h_url : string;
  h_isForm : string;
  h_formType : string;
  h_sensitiveInfo : string;
  h_reviewer : string;
  h_notes : string
}.

Record LLMAnalysis : Type := mkLLMAnalysis {
  l_url : string;
  l_isForm : string;
  l_formType : string;
  l_sensitiveInfo : SensitiveInfo;
  l_notes : string;
  l_error : option string
}.

Record ComparisonResult : Type := mkComparisonResult {
  c_url : string;
  humanIsForm : string;
  llmIsForm : string;
  isFormMatch : bool;
  humanFormType : string;
  llmFormType : string;
  formTypeMatch : bool;
  humanSensitive : string;
  llmSensitive : string;
  sensitiveMatch : bool;
  allMatch : bool;
  humanReviewer : string;
  humanNotes : string;
  llmNotes : string
}.

(** [normalizeFormType] of the evaluation script *)
Definition normalizeFormType (type : string) : string :=
  if negb (JS.truthy type) then EmptyString else
  let t := JS.trim (JS.toLowerCase type) in
  if JS.includes t "fillable" then "Fillable PDF"
  else if JS.includes t "non-fillable" || JS.includes t "nonfillable"
  then "Non-Fillable PDF"
  else if String.eqb t "n/a" || String.eqb t "na" then "N/A"
  else type.

(** [formatSensitiveInfo] *)
Definition formatSensitiveInfo (info : SensitiveInfo) : string :=
  let items := sensitiveItems info in
  if Nat.ltb 0 (List.length items) then JS.join ", " items else "No".

(** [normalizeSensitiveForComparison] *)
Definition normalizeSensitiveForComparison (human llm : string) : bool :=
  let humanLower := JS.trim (JS.toLowerCase human) in
  let llmLower := JS.trim (JS.toLowerCase llm) in
  if String.eqb humanLower "no" || String.eqb humanLower EmptyString then
    String.eqb llmLower "no" || String.eqb llmLower EmptyString
  else if String.eqb humanLower "yes" || JS.includes humanLower "ssn"
          || JS.includes humanLower "dl" then
    negb (String.eqb llmLower "no") && negb (String.eqb llmLower EmptyString)
  else String.eqb humanLower llmLower.

(** [compare] *)
Definition compare (human : HumanReview) (llm : LLMAnalysis) : ComparisonResult :=
  let humanFormType := normalizeFormType (h_formType human) in
  let llmFormType := normalizeFormType (l_formType llm) in
  let llmSensitive := formatSensitiveInfo (l_sensitiveInfo llm) in
  let isFormMatch :=
    String.eqb (JS.toLowerCase (h_isForm human)) (JS.toLowerCase (l_isForm llm)) in
  let formTypeMatch :=
    String.eqb (JS.toLowerCase humanFormType) (JS.toLowerCase llmFormType)
    || (String.eqb (JS.toLowerCase (h_isForm human)) "no"
        && String.eqb (l_isForm llm) "No") in
  let sensitiveMatch :=
    normalizeSensitiveForComparison (h_sensitiveInfo human) llmSensitive in
  {| c_url := h_url human;
     humanIsForm := h_isForm human;
     llmIsForm := l_isForm llm;
     isFormMatch := isFormMatch;
     humanFormType := h_formType human;
     llmFormType := l_formType llm;
     formTypeMatch := formTypeMatch;
     humanSensitive := h_sensitiveInfo human;
     llmSensitive := llmSensitive;
     sensitiveMatch := sensitiveMatch;
     allMatch := isFormMatch && formTypeMatch && sensitiveMatch;
     humanReviewer := h_reviewer human;
     humanNotes := h_notes human;
     llmNotes := l_notes llm |}.

(** [escapeField] of [writeComparisonCsv], the same text as the analyzer's *)
Definition escapeField (value : string) : string :=
  if JS.includes value "," || JS.includes value quote
     || JS.includes value newline || JS.includes value (String CR EmptyString)
  then quote ++ JS.replaceAll DQUOTE (quote ++ quote) value ++ quote
  else value.

(** *** Reading the reviewers' sheet, [parseHumanReviews]

    A record of the CSV parser: the cells of a row under their column names.
    A column the row does not reach is absent. *)
Definition Row : Type := list (string * string).

Fixpoint column (name : string) (record : Row) : option string :=
  match record with
  | [] => None
  | (k, v) :: rest => if String.eqb name k then Some v else column name rest
  end.

(** [record[name]?.trim() || ""] *)
Definition cell (name : string) (record : Row) : string :=
  match column name record with
  | Some v => JS.trim v
  | None => EmptyString
  end.

Definition COL_SENSITIVE : string :=
  "Reviewer: Does this form ask for SSN, DL#, financial, health info or criminal history?".

(** The loop of [parseHumanReviews] over the parsed records.  For the URL the
    source has no fallback to the empty string: a missing column leaves it
    [undefined], which the test [!url] treats like the empty string. *)
Fixpoint parseHumanReviews (records : list Row) : list HumanReview :=
  match records with
  | [] => []
  | record :: rest =>
      let url := cell "url" record in
      if negb (JS.truthy url) || negb (JS.endsWith url ".pdf")
      then parseHumanReviews rest
      else
        {| h_url := url;
           h_isForm := cell "Review: Is this a form" record;
           h_formType := cell "Reviewer: Form Type" record;
           h_sensitiveInfo := cell COL_SENSITIVE record;
           h_reviewer := cell "Review: Reviewed by" record;
           h_notes := cell "Reviewer: Notes (optional)" record |}
        :: parseHumanReviews rest
  end.

(** *** The comparison writer, [writeComparisonCsv]

    The check mark and the ballot cross lie outside the code units of the
    model and are parameters, like the byte-order mark. *)
Section ComparisonReport.
Variables CHECK CROSS BOM : string.

Definition glyph (flag : bool) : string := if flag then CHECK else CROSS.

Definition COMPARISON_HEADERS : list string :=
  [ "URL"; "All Match"; "Human: Is Form"; "LLM: Is Form"; "Is Form Match";
    "Human: Form Type"; "LLM: Form Type"; "Form Type Match";
    "Human: Sensitive"; "LLM: Sensitive"; "Sensitive Match";
    "Human Reviewer"; "Human Notes"; "LLM Notes" ].

Definition comparisonRow (r : ComparisonResult) : list string :=
  [ escapeField (c_url r);
    glyph (allMatch r);
    humanIsForm r;
    llmIsForm r;
    glyph (isFormMatch r);
    escapeField (humanFormType r);
    escapeField (llmFormType r);
    glyph (formTypeMatch r);
    escapeField (humanSensitive r);
    escapeField (llmSensitive r);
    glyph (sensitiveMatch r);
    escapeField (humanReviewer r);
    escapeField (humanNotes r);
    escapeField (llmNotes r) ].

Definition writeComparisonCsv (results : list ComparisonResult) : string :=
  BOM ++ JS.join newline
           (JS.join "," COMPARISON_HEADERS
            :: map (fun r => JS.join "," (comparisonRow r)) results).

End ComparisonReport.

(** The counts of the evaluation summary [main] prints. *)
Definition countWhere (flag : ComparisonResult -> bool) (cs : list ComparisonResult) : nat :=
  List.length (filter flag cs).

(** *** The evaluation script's own adapter

    Its [uploadPdfFromUrl] has the statements of the analyzer's, without the
    file size; its [normalizeResponse] keeps the form type as the reply gave
    it. *)
Section Adapter.
Context {NUM : JSNumber}.
Variable ANALYSIS_PROMPT : string.

(** [Partial<LLMAnalysis>] as returned by [normalizeResponse]; the form type
    and the notes are declared strings but hold what the reply carried. *)
Record Normalized : Type := mkNormalized {
  n_isForm : string;
  n_formType : value;
  n_sensitiveInfo : SensitiveInfo;
  n_notes : value
}.

(** [FormAnalyzer.normalizeResponse] of the evaluation script *)
Definition normalizeResponse (parsed : value) : result Normalized :=
  isForm <- getProp parsed "isForm" ;;
  formType <- getProp parsed "formType" ;;
  si <- getProp parsed "sensitiveInfo" ;;
  notes <- getProp parsed "notes" ;;
  Ok {| n_isForm := if Analyze.isYes isForm then "Yes" else "No";
        n_formType := Analyze.orElse formType (JStr "N/A");
        n_sensitiveInfo :=
          {| ssn := Boolean (getOptional si "ssn");
             driversLicense := Boolean (getOptional si "driversLicense");
             financial := Boolean (getOptional si "financial");
             health := Boolean (getOptional si "health");
             criminalHistory := Boolean (getOptional si "criminalHistory") |};
        n_notes := Analyze.orElse notes (JStr EmptyString) |}.

(** The record [analyzePdf] of the evaluation script builds. *)
Record LLMRecord : Type := mkLLMRecord {
  r_url : string;
  r_isForm : string;
  r_formType : value;
  r_sensitiveInfo : SensitiveInfo;
  r_notes : value;
  r_error : option string
}.

Definition initialRecord (u : string) : LLMRecord :=
  {| r_url := u;
     r_isForm := "Error";
     r_formType := JStr "N/A";
     r_sensitiveInfo := noSensitiveInfo;
     r_notes := JStr EmptyString;
     r_error := None |}.

(** [FormAnalyzer.uploadPdfFromUrl] of the evaluation script *)
Definition uploadPdfFromUrl (svc : Analyze.Service) (u : string) : result Analyze.File :=
  '(getFile, _) <- Analyze.uploadPdfFromUrl svc u ;;
  Ok getFile.

Definition askModel (svc : Analyze.Service) (file : Analyze.File) : result Normalized :=
  if Analyze.missing (Analyze.uri file) || Analyze.missing (Analyze.mimeType file) then
    Throw "File upload succeeded but missing URI or mimeType"
  else
    responseText <-
      Analyze.models_generateContent svc Analyze.MODEL (Analyze.orEmpty (Analyze.uri file))
        (Analyze.orEmpty (Analyze.mimeType file)) ANALYSIS_PROMPT ;;
    let text := Analyze.orEmpty responseText in
    match Analyze.matchFence text with
    | None =>
        match Analyze.matchBraces text with
        | None => Throw "Could not parse JSON from response"
        | Some direct =>
            parsed <- Analyze.JSON_parse svc direct ;;
            normalizeResponse parsed
        end
    | Some fenced =>
        parsed <- Analyze.JSON_parse svc fenced ;;
        normalizeResponse parsed
    end.

(** The [try] block of the script's [analyzePdf]; the deletion of the upload
    ignores its own failure. *)
Definition tryBlock (svc : Analyze.Service) (u : string) (r : LLMRecord)
  : LLMRecord * result unit :=
  match uploadPdfFromUrl svc u with
  | Throw e => (r, Throw e)
  | Ok file =>
      match askModel svc file with
      | Throw e => (r, Throw e)
      | Ok n =>
          let r := {| r_url := r_url r;
                      r_isForm := n_isForm n;
                      r_formType := n_formType n;
                      r_sensitiveInfo := n_sensitiveInfo n;
                      r_notes := n_notes n;
                      r_error := r_error r |} in
          match Analyze.files_delete svc (Analyze.name file) with
          | Ok _ => (r, Ok tt)
          | Throw _ => (r, Ok tt)
          end
      end
  end.

(** [FormAnalyzer.analyzePdf] of the evaluation script *)
Definition analyzePdf (svc : Analyze.Service) (u : string) : LLMRecord :=
  let '(r, outcome) := tryBlock svc u (initialRecord u) in
  match outcome with
  | Ok _ => r
  | Throw message =>
      {| r_url := r_url r;
         r_isForm := r_isForm r;
         r_formType := r_formType r;
         r_sensitiveInfo := r_sensitiveInfo r;
         r_notes := JStr ("Error: " ++ message);
         r_error := Some message |}
  end.

(** The record read at its declared type, when its form type and notes are
    strings. *)
Definition typed (r : LLMRecord) : option LLMAnalysis :=
  match r_formType r, r_notes r with
  | JStr t, JStr n =>
      Some {| l_url := r_url r;
              l_isForm := r_isForm r;
              l_formType := t;
              l_sensitiveInfo := r_sensitiveInfo r;
              l_notes := n;
              l_error := r_error r |}
  | _, _ => None
  end.

End Adapter.

End Eval.

(** ** Reference definitions that follow the specification's wording *)

(** Standard CSV unescaping, as the escaping law words it: strip the
    enclosing quotes, halve the doubled quotes.  A field that is not enclosed
    in quotes is taken as it is. *)
Fixpoint halveQuotes (s : string) : string :=
  match s with
  | EmptyString => EmptyString
  | String a rest =>
      match rest with
      | String b rest' =>
          if Ascii.eqb a DQUOTE && Ascii.eqb b DQUOTE
          then String DQUOTE (halveQuotes rest')
          else String a (halveQuotes rest)
      | EmptyString => String a EmptyString
      end
  end.

(** [s] without its last code unit, when that is a quote. *)
Fixpoint stripClosingQuote (s : string) : option string :=
  match s with
  | EmptyString => None
  | String a EmptyString => if Ascii.eqb a DQUOTE then Some EmptyString else None
  | String a rest =>
      match stripClosingQuote rest with
      | Some t => Some (String a t)
      | None => None
      end
  end.

Definition csvUnescape (field : string) : string :=
  match field with
  | String a rest =>
      if Ascii.eqb a DQUOTE then
        match stripClosingQuote rest with
        | Some inner => halveQuotes inner
        | None => field
        end
      else field
  | EmptyString => field
  end.

(** The lines a line-oriented input keeps, as the specification words it:
    trimmed, non-empty, not starting with a hash sign. *)
Definition keptLines (content : string) : list string :=
  filter (fun l => JS.truthy l && negb (JS.startsWith l "#"))
         (map JS.trim (JS.split LF content)).

(** First occurrences only, in order of first appearance. *)
Fixpoint firstOccurrences (seen l : list string) : list string :=
  match l with
  | [] => []
  | x :: rest =>
      if existsb (String.eqb x) seen then firstOccurrences seen rest
      else x :: firstOccurrences (x :: seen) rest
  end.

(** The labels of the flags that are set, in the fixed order. *)
Definition labelsOf (info : SensitiveInfo) : list string :=
  map snd (filter fst
    [ (ssn info, "SSN"); (driversLicense info, "DL#");
      (financial info, "Financial"); (health info, "Health");
      (criminalHistory info, "Criminal") ]).

Definition allFlagsFalse (info : SensitiveInfo) : Prop :=
  ssn info = false /\ driversLicense info = false /\ financial info = false
  /\ health info = false /\ criminalHistory info = false.

(** The summary that matches a set of flags: "None" when no flag is set,
    else the labels of the set flags joined by a comma and a space. *)
Definition summaryOfFlags (info : SensitiveInfo) : string :=
  match labelsOf info with
  | [] => "None"
  | labels => JS.join ", " labels
  end.

(** An already-canonical fragment: [isForm] is "Yes" or "No", [formType] is a
    member of the canonical vocabulary, the summary matches the flags, and the
    notes are a string. *)
Definition canonical {NUM : JSNumber} (f : Analyze.Fragment) : Prop :=
  (Analyze.f_isForm f = "Yes" \/ Analyze.f_isForm f = "No")
  /\ In (Analyze.f_formType f) Analyze.FORM_TYPE_VALUES
  /\ Analyze.f_sensitiveInfoSummary f = summaryOfFlags (Analyze.f_sensitiveInfo f)
  /\ (exists s, Analyze.f_notes f = JStr s).

(** A field that contains a comma, a double quote, a line feed or a carriage
    return. *)
Definition needsQuoting (field : string) : Prop :=
  In COMMA (list_ascii_of_string field) \/ In DQUOTE (list_ascii_of_string field)
  \/ In LF (list_ascii_of_string field) \/ In CR (list_ascii_of_string field).

(** The [try] block of [analyzePdf] throws an error with message [e]. *)
Definition throws {NUM : JSNumber} (svc : Analyze.Service) (prompt u e : string) : Prop :=
  snd (Analyze.tryBlock svc prompt u (Analyze.initialResult u)) = Throw e.

(** A CSV record read back into its fields: a field that opens with a
    quote runs to the closing quote, a doubled quote inside it is one quote,
    and a comma outside quotes ends the field. *)
Inductive CsvMode : Type :=
| FieldStart
| Unquoted
| Quoted
| QuoteSeen.

Fixpoint csvFields (mode : CsvMode) (field : string) (s : string) : list string :=
  match s with
  | EmptyString => [field]
  | String c rest =>
      match mode with
      | FieldStart =>
          if Ascii.eqb c DQUOTE then csvFields Quoted EmptyString rest
          else if Ascii.eqb c COMMA then field :: csvFields FieldStart EmptyString rest
          else csvFields Unquoted (String c EmptyString) rest
      | Unquoted =>
          if Ascii.eqb c COMMA then field :: csvFields FieldStart EmptyString rest
          else csvFields Unquoted (field ++ String c EmptyString) rest
      | Quoted =>
          if Ascii.eqb c DQUOTE then csvFields QuoteSeen field rest
          else csvFields Quoted (field ++ String c EmptyString) rest
      | QuoteSeen =>
          if Ascii.eqb c DQUOTE then csvFields Quoted (field ++ quote) rest
          else if Ascii.eqb c COMMA then field :: csvFields FieldStart EmptyString rest
          else csvFields Unquoted (field ++ String c EmptyString) rest
      end
  end.

Definition csvReadRecord (line : string) : list string :=
  csvFields FieldStart EmptyString line.

(** What follows a field: the end of the record, or a comma and more. *)
Definition afterField (tail : string) : list string :=
  match tail with
  | EmptyString => []
  | String _ more => csvFields FieldStart EmptyString more
  end.

(** The cells of a result row before escaping. *)
Definition rawCells {NUM : JSNumber} (toFixed2 numberToString : number -> string)
    (below0_7 : number -> bool) (modelName notesOrEmpty : string)
    (r : Analyze.FormAnalysis) : list string :=
  [ Analyze.url r;
    Analyze.isForm r;
    Analyze.formType r;
    (if negb (String.eqb (Analyze.sensitiveInfoSummary r) "None") then "Yes" else "No");
    (if below0_7 (Analyze.confidence r) then "checked" else EmptyString);
    notesOrEmpty;
    modelName;
    toFixed2 (Analyze.confidence r);
    numberToString (Analyze.pageCount r);
    Analyze.stringOfNat (Analyze.fileSizeKB r);
    Analyze.stringOfZ (Analyze.processingTimeSec r);
    Analyze.yesNo (ssn (Analyze.sensitiveInfo r));
    Analyze.yesNo (driversLicense (Analyze.sensitiveInfo r));
    Analyze.yesNo (financial (Analyze.sensitiveInfo r));
    Analyze.yesNo (health (Analyze.sensitiveInfo r));
    Analyze.yesNo (criminalHistory (Analyze.sensitiveInfo r));
    Analyze.sensitiveInfoSummary r;
    Analyze.orEmpty (Analyze.error r) ].

(** The cells of a comparison row before escaping. *)
Definition rawComparisonCells (CHECK CROSS : string) (r : Eval.ComparisonResult)
  : list string :=
  [ Eval.c_url r;
    Eval.glyph CHECK CROSS (Eval.allMatch r);
    Eval.humanIsForm r;
    Eval.llmIsForm r;
    Eval.glyph CHECK CROSS (Eval.isFormMatch r);
    Eval.humanFormType r;
    Eval.llmFormType r;
    Eval.glyph CHECK CROSS (Eval.formTypeMatch r);
    Eval.humanSensitive r;
    Eval.llmSensitive r;
    Eval.glyph CHECK CROSS (Eval.sensitiveMatch r);
    Eval.humanReviewer r;
    Eval.humanNotes r;
    Eval.llmNotes r ].

(** A string with no leading and no trailing white space. *)
Definition isTrimmed (s : string) : Prop := JS.trim s = s.

(** The fragment of a reply that holds none of the fields. *)
Definition defaultFragment {NUM : JSNumber} : Analyze.Fragment :=
  {| Analyze.f_isForm := "No";
     Analyze.f_formType := "N/A";
     Analyze.f_sensitiveInfo := noSensitiveInfo;
     Analyze.f_sensitiveInfoSummary := "None";
     Analyze.f_confidence := num_0_5;
     Analyze.f_pageCount := num_0;
     Analyze.f_notes := JStr EmptyString |}.

(** A form type the analyzer's normalizer cannot lower-case: a truthy value
    that is not a string. *)
Definition unusableFormType {NUM : JSNumber} (parsed : value) : Prop :=
  exists props v,
    parsed = JObj props /\ lookup "formType" props = Some v
    /\ Boolean (Some v) = true /\ (forall s, v <> JStr s).

(** An IEEE-free instance of the number interface for closed examples:
    numbers in thousandths. *)
#[local] Instance milliNumber : JSNumber :=
  {| number := Z;
     isZeroOrNaN := Z.eqb 0;
     num_0 := 0%Z;
     num_0_5 := 500%Z |}.

(** The line-oriented input of the end-to-end scenario. *)
Definition exampleLines : string :=
  "https://x.test/a.pdf" ++ newline ++ "# comment" ++ newline ++ newline
  ++ "https://x.test/b.pdf".

(** ** Example worlds for closed statements *)

(** A file the Files API still reports as processing. *)
Definition processingFile : Analyze.File :=
  Analyze.mkFile (Some "files/abc") (Some "https://files.test/abc")
    (Some "application/pdf") (Some "PROCESSING").

Definition failedFile : Analyze.File :=
  Analyze.mkFile (Some "files/abc") (Some "https://files.test/abc")
    (Some "application/pdf") (Some "FAILED").

(** [JSON.parse] on the one text the example worlds use, the empty object. *)
Definition parseEmptyObject (text : string) : result value :=
  if String.eqb text "{}" then Ok (JObj [])
  else Throw "Unexpected token in JSON".

(** Every poll says "PROCESSING"; the model call nevertheless answers, with
    an empty object. *)
Definition stuckWorld : Analyze.Service :=
  {| Analyze.fetch := fun _ => Ok (Analyze.mkResponse true 200 "OK" (Ok 2048));
     Analyze.URL_pathname := fun _ => Ok "/a.pdf";
     Analyze.files_upload := fun _ _ => Ok processingFile;
     Analyze.files_get := fun _ _ => Ok processingFile;
     Analyze.models_generateContent := fun _ _ _ _ => Ok (Some "{}");
     Analyze.JSON_parse := parseEmptyObject;
     Analyze.files_delete := fun _ => Ok tt;
     Analyze.elapsedMs := 61000%Z |}.

(** The file is reported as failed at the third poll. *)
Definition failingWorld : Analyze.Service :=
  {| Analyze.fetch := fun _ => Ok (Analyze.mkResponse true 200 "OK" (Ok 2048));
     Analyze.URL_pathname := fun _ => Ok "/a.pdf";
     Analyze.files_upload := fun _ _ => Ok processingFile;
     Analyze.files_get := fun n _ => Ok (if Nat.ltb n 2 then processingFile else failedFile);
     Analyze.models_generateContent := fun _ _ _ _ => Ok (Some "{}");
     Analyze.JSON_parse := parseEmptyObject;
     Analyze.files_delete := fun _ => Ok tt;
     Analyze.elapsedMs := 5000%Z |}.

(** The download answers 404. *)
Definition notFoundWorld : Analyze.Service :=
  {| Analyze.fetch := fun _ => Ok (Analyze.mkResponse false 404 "Not Found" (Ok 0));
     Analyze.URL_pathname := fun _ => Ok "/a.pdf";
     Analyze.files_upload := fun _ _ => Ok processingFile;
     Analyze.files_get := fun _ _ => Ok processingFile;
     Analyze.models_generateContent := fun _ _ _ _ => Ok (Some "{}");
     Analyze.JSON_parse := parseEmptyObject;
     Analyze.files_delete := fun _ => Ok tt;
     Analyze.elapsedMs := 300%Z |}.

(** The same external world with another outcome for the deletion of the
    uploaded file. *)
Definition withDelete {NUM : JSNumber} (svc : Analyze.Service)
    (delete : option string -> result unit) : Analyze.Service :=
  {| Analyze.fetch := Analyze.fetch svc;
     Analyze.URL_pathname := Analyze.URL_pathname svc;
     Analyze.files_upload := Analyze.files_upload svc;
     Analyze.files_get := Analyze.files_get svc;
     Analyze.models_generateContent := Analyze.models_generateContent svc;
     Analyze.JSON_parse := Analyze.JSON_parse svc;
     Analyze.files_delete := delete;
     Analyze.elapsedMs := Analyze.elapsedMs svc |}.

(** A download of 1536 bytes, an upload that is active at once, a fenced
    reply; the deletion of the upload fails. *)
Definition activeFile : Analyze.File :=
  Analyze.mkFile (Some "files/abc") (Some "https://files.test/abc")
    (Some "application/pdf") (Some "ACTIVE").

Definition happyWorld : Analyze.Service :=
  {| Analyze.fetch := fun _ => Ok (Analyze.mkResponse true 200 "OK" (Ok 1536));
     Analyze.URL_pathname := fun _ => Ok "/forms/a.pdf";
     Analyze.files_upload := fun _ _ => Ok activeFile;
     Analyze.files_get := fun _ _ => Ok activeFile;
     Analyze.models_generateContent :=
       fun _ _ _ _ => Ok (Some ("Here it is: " ++ Analyze.FENCE ++ "json" ++ newline
                                ++ "{}" ++ newline ++ Analyze.FENCE));
     Analyze.JSON_parse := parseEmptyObject;
     Analyze.files_delete := fun _ => Throw "403 Forbidden";
     Analyze.elapsedMs := 4200%Z |}.

(** The records of a batch: one for each URL that is not blank, analysed in
    the world of its position. *)
Fixpoint batchRecords {NUM : JSNumber} (world : nat -> Analyze.Service)
    (prompt : string) (i : nat) (urls : list string) : list Analyze.FormAnalysis :=
  match urls with
  | [] => []
  | raw :: rest =>
      if JS.truthy (JS.trim raw)
      then Analyze.analyzePdf (world i) prompt (JS.trim raw)
           :: batchRecords world prompt (S i) rest
      else batchRecords world prompt (S i) rest
  end.

Definition hasStringNotes {NUM : JSNumber} (r : Analyze.FormAnalysis) : bool :=
  match Analyze.notes r with
  | JStr _ => true
  | _ => false
  end.

(** A cell that can be written without quotes. *)
Definition plain (cell : string) : Prop := ~ needsQuoting cell.

(** The comparison key both normalizers compute: lower-cased, then trimmed. *)
Definition lowerTrimmed (s : string) : string := JS.trim (JS.toLowerCase s).

(** * Theorems *)

(** ** Facts about the string primitives *)

Lemma includes_unfold (s sub : string) :
  JS.includes s sub =
  JS.startsWith s sub
  || match s with
     | EmptyString => false
     | String _ s' => JS.includes s' sub
     end.
Proof. destruct s; reflexivity. Qed.

Lemma startsWith_spec (s p : string) :
  JS.startsWith s p = true <-> exists rest, s = p ++ rest.
Proof.
  revert s; induction p as [|a p IH]; intros s; simpl.
  - split; [intros _; now exists s | intros _; destruct s; reflexivity].
  - destruct s as [|b s]; simpl.
    + split; [discriminate | intros [rest H]; discriminate].
    + rewrite andb_true_iff, IH. split.
      * intros [Hab [rest ->]]. apply Ascii.eqb_eq in Hab; subst. now exists rest.
      * intros [rest H]. injection H as -> ->. split.
        -- apply Ascii.eqb_refl.
        -- now exists rest.
Qed.

(** [includes] is the substring relation. *)
Lemma includes_spec (s sub : string) :
  JS.includes s sub = true <-> exists before after, s = before ++ sub ++ after.
Proof.
  split.
  - induction s as [|c s IH]; rewrite includes_unfold, orb_true_iff.
    + intros [H | H]; [|discriminate].
      apply startsWith_spec in H as [rest ->]. now exists EmptyString, rest.
    + intros [H | H].
      * apply startsWith_spec in H as [rest ->]. now exists EmptyString, rest.
      * destruct (IH H) as (before & after & ->).
        now exists (String c before), after.
  - intros (before & after & ->).
    induction before as [|c before IH]; rewrite includes_unfold; simpl.
    + apply orb_true_iff; left. apply startsWith_spec. now exists after.
    + rewrite IH. apply orb_true_r.
Qed.

Lemma append_assoc (a b c : string) : (a ++ b) ++ c = a ++ (b ++ c).
Proof. induction a as [|x a IH]; simpl; [reflexivity | now rewrite IH]. Qed.

(** A string that includes [p ++ q] includes [q]. *)
Lemma includes_suffix_of_needle (s p q : string) :
  JS.includes s (p ++ q) = true -> JS.includes s q = true.
Proof.
  rewrite !includes_spec. intros (before & after & ->).
  exists (before ++ p), after. now rewrite !append_assoc.
Qed.

Lemma includes_char (s : string) (c : ascii) :
  JS.includes s (String c EmptyString) = true <-> In c (list_ascii_of_string s).
Proof.
  induction s as [|a s IH]; rewrite includes_unfold; simpl.
  - split; [discriminate | tauto].
  - destruct s as [|b s'].
    + simpl in *. rewrite orb_true_iff, andb_true_iff, Ascii.eqb_eq. intuition congruence.
    + rewrite orb_true_iff, IH, andb_true_iff, Ascii.eqb_eq. simpl. intuition.
Qed.

Lemma lowerTrimmed_empty_includes (s sub : string) :
  JS.includes (lowerTrimmed s) sub = true -> sub <> EmptyString -> JS.truthy s = true.
Proof.
  intros H Hsub. destruct s; [|reflexivity].
  destruct sub; [congruence | discriminate].
Qed.

(** ** The comparator *)

Lemma says_no_iff (x : string) :
  String.eqb x "no" || String.eqb x EmptyString = true
  <-> (x = EmptyString \/ x = "no").
Proof. rewrite orb_true_iff, !String.eqb_eq. tauto. Qed.

Lemma says_yes_iff (x : string) :
  String.eqb x "yes" || JS.includes x "ssn" || JS.includes x "dl" = true
  <-> (x = "yes" \/ JS.includes x "ssn" = true \/ JS.includes x "dl" = true).
Proof. rewrite !orb_true_iff, String.eqb_eq. tauto. Qed.

Lemma says_something_iff (x : string) :
  negb (String.eqb x "no") && negb (String.eqb x EmptyString) = true
  <-> (x <> EmptyString /\ x <> "no").
Proof. rewrite andb_true_iff, !negb_true_iff, !String.eqb_neq. tauto. Qed.

(** C1. The sensitivity match of the comparator is the tiered rule.  With
    [h] and [m] lower-cased and trimmed: when [h] is empty or "no", the match
    holds iff [m] is empty or "no"; otherwise, when [h] is "yes" or contains
    "ssn" or "dl", it holds iff [m] is neither empty nor "no"; otherwise it
    holds iff the two are equal.  "Yes" matches "SSN, Financial", "Yes" does
    not match the empty summary, and two empty strings match. *)
Theorem sensitivity_match_is_tiered (h m : string) :
  ((lowerTrimmed h = EmptyString \/ lowerTrimmed h = "no") ->
     (Eval.normalizeSensitiveForComparison h m = true <->
      (lowerTrimmed m = EmptyString \/ lowerTrimmed m = "no")))
  /\ (~ (lowerTrimmed h = EmptyString \/ lowerTrimmed h = "no") ->
      (lowerTrimmed h = "yes" \/ JS.includes (lowerTrimmed h) "ssn" = true
       \/ JS.includes (lowerTrimmed h) "dl" = true) ->
      (Eval.normalizeSensitiveForComparison h m = true <->
       (lowerTrimmed m <> EmptyString /\ lowerTrimmed m <> "no")))
  /\ (~ (lowerTrimmed h = EmptyString \/ lowerTrimmed h = "no") ->
      ~ (lowerTrimmed h = "yes" \/ JS.includes (lowerTrimmed h) "ssn" = true
         \/ JS.includes (lowerTrimmed h) "dl" = true) ->
      (Eval.normalizeSensitiveForComparison h m = true <->
       lowerTrimmed h = lowerTrimmed m))
  /\ Eval.normalizeSensitiveForComparison "Yes" "SSN, Financial" = true
  /\ Eval.normalizeSensitiveForComparison "Yes" EmptyString = false
  /\ Eval.normalizeSensitiveForComparison EmptyString EmptyString = true.
Proof.
  unfold Eval.normalizeSensitiveForComparison.
  fold (lowerTrimmed h) (lowerTrimmed m).
  rewrite <- !says_no_iff, <- says_yes_iff, <- says_something_iff.
  destruct (String.eqb (lowerTrimmed h) "no" || String.eqb (lowerTrimmed h) EmptyString);
    destruct (String.eqb (lowerTrimmed h) "yes" || JS.includes (lowerTrimmed h) "ssn"
              || JS.includes (lowerTrimmed h) "dl");
    repeat split; try reflexivity; try tauto; try congruence;
    intros; try (exfalso; auto; fail); now apply String.eqb_eq.
Qed.

Lemma sensitivity_match_is_tiered_witness :
  Eval.normalizeSensitiveForComparison "SSN and DL#" "SSN, DL#" = true
  /\ Eval.normalizeSensitiveForComparison " NO " "no" = true
  /\ Eval.normalizeSensitiveForComparison "Health" " health" = true.
Proof.
  split; [|split].
  - apply (proj1 (proj2 (sensitivity_match_is_tiered "SSN and DL#" "SSN, DL#"))).
    + vm_compute. intros [H | H]; discriminate H.
    + right; left. vm_compute. reflexivity.
    + vm_compute. split; intros H; discriminate H.
  - apply (proj1 (sensitivity_match_is_tiered " NO " "no")).
    + right. vm_compute. reflexivity.
    + right. vm_compute. reflexivity.
  - apply (proj1 (proj2 (proj2 (sensitivity_match_is_tiered "Health" " health")))).
    + vm_compute. intros [H | H]; discriminate H.
    + vm_compute. intros [H | [H | H]]; discriminate H.
    + vm_compute. reflexivity.
Defined.

(** C2. When the human record says "No" (in any case) and the machine record
    says No, the form-type flag of the comparison is true whatever the two
    form-type strings are, "Unknown" included; and [allMatch] is the
    conjunction of the three flags. *)
Theorem both_not_a_form_is_a_type_match (human : Eval.HumanReview) (llm : Eval.LLMAnalysis) :
  (JS.toLowerCase (Eval.h_isForm human) = "no" ->
   Eval.l_isForm llm = "No" ->
   Eval.formTypeMatch (Eval.compare human llm) = true)
  /\ Eval.allMatch (Eval.compare human llm) =
     Eval.isFormMatch (Eval.compare human llm)
     && Eval.formTypeMatch (Eval.compare human llm)
     && Eval.sensitiveMatch (Eval.compare human llm).
Proof.
  split; [|reflexivity].
  intros Hh Hl. unfold Eval.compare; simpl.
  rewrite Hh, Hl. apply orb_true_r.
Qed.

Lemma both_not_a_form_is_a_type_match_witness :
  Eval.formTypeMatch
    (Eval.compare
       (Eval.mkHumanReview "https://x.test/a.pdf" "NO" "Google form" "No" "ann" EmptyString)
       (Eval.mkLLMAnalysis "https://x.test/a.pdf" "No" "Unknown" noSensitiveInfo
          EmptyString None)) = true.
Proof.
  apply (proj1 (both_not_a_form_is_a_type_match _ _)); vm_compute; reflexivity.
Defined.

(** The second rule of the comparator's form-type normalizer asks for a key
    that contains "fillable", which the first rule has already taken. *)
Lemma eval_second_rule_is_shadowed (t : string) :
  JS.includes t "non-fillable" || JS.includes t "nonfillable" = true ->
  JS.includes t "fillable" = true.
Proof.
  intros H. apply orb_true_iff in H as [H | H].
  - apply (includes_suffix_of_needle t "non-" "fillable" H).
  - apply (includes_suffix_of_needle t "non" "fillable" H).
Qed.

(** C3. The comparator's form-type normalizer tests "fillable" before
    "non-fillable" and "nonfillable", so no input is normalized to
    "Non-Fillable PDF": a string that contains "non-fillable" or "nonfillable"
    (in any case) becomes "Fillable PDF". *)
Theorem eval_normalizeFormType_never_non_fillable (type : string) :
  Eval.normalizeFormType type <> "Non-Fillable PDF"
  /\ (JS.includes (lowerTrimmed type) "non-fillable"
      || JS.includes (lowerTrimmed type) "nonfillable" = true ->
      Eval.normalizeFormType type = "Fillable PDF").
Proof.
  unfold Eval.normalizeFormType. fold (lowerTrimmed type).
  split.
  - destruct (JS.truthy type); simpl; [|discriminate].
    destruct (JS.includes (lowerTrimmed type) "fillable") eqn:Hf; [discriminate|].
    destruct (JS.includes (lowerTrimmed type) "non-fillable"
              || JS.includes (lowerTrimmed type) "nonfillable") eqn:Hn.
    { apply eval_second_rule_is_shadowed in Hn. congruence. }
    destruct (String.eqb (lowerTrimmed type) "n/a" || String.eqb (lowerTrimmed type) "na");
      [discriminate|].
    intros ->. vm_compute in Hf. discriminate.
  - intros Hn.
    assert (Hf := eval_second_rule_is_shadowed _ Hn).
    rewrite (lowerTrimmed_empty_includes type "fillable" Hf) by discriminate.
    simpl. now rewrite Hf.
Qed.

Lemma eval_normalizeFormType_never_non_fillable_witness :
  Eval.normalizeFormType "Non-Fillable PDF" = "Fillable PDF".
Proof.
  apply (proj2 (eval_normalizeFormType_never_non_fillable "Non-Fillable PDF")).
  vm_compute. reflexivity.
Defined.

(** ** The response normalizer *)

(** C5. A raw form type whose lower-cased, trimmed text contains both
    "fillable" and "pdf" is normalized to "Fillable PDF", whatever later rule
    it would also match; the empty string gives "N/A"; a non-empty string that
    matches no rule gives "Unknown", also when it contains "fillable" without
    "pdf"; and "Unknown" is given to no other string. *)
Theorem fillable_pdf_rule_comes_first (type : string) :
  (JS.includes (lowerTrimmed type) "fillable" = true ->
   JS.includes (lowerTrimmed type) "pdf" = true ->
   Analyze.normalizeFormType type = "Fillable PDF")
  /\ Analyze.normalizeFormType EmptyString = "N/A"
  /\ (type <> EmptyString ->
      (forall key,
         In key [ "pdf"; "non-fillable"; "nonfillable"; "google";
                  "airtable"; "office"; "excel"; "word"; "phone"; "email";
                  "digital"; "printable" ] ->
         JS.includes (lowerTrimmed type) key = false) ->
      lowerTrimmed type <> "n/a" ->
      lowerTrimmed type <> "not a form" ->
      Analyze.normalizeFormType type = "Unknown")
  /\ (Analyze.normalizeFormType type = "Unknown" ->
      type <> EmptyString
      /\ (forall key,
            In key [ "pdf"; "non-fillable"; "nonfillable"; "google";
                     "airtable"; "office"; "excel"; "word"; "phone"; "email";
                     "digital"; "printable" ] ->
            JS.includes (lowerTrimmed type) key = false)
      /\ lowerTrimmed type <> "n/a"
      /\ lowerTrimmed type <> "not a form").
Proof.
  unfold Analyze.normalizeFormType. fold (lowerTrimmed type).
  split; [|split; [reflexivity|split]].
  - intros Hf Hp.
    rewrite (lowerTrimmed_empty_includes type "fillable" Hf) by discriminate.
    simpl. now rewrite Hf, Hp.
  - intros Hne Hkeys Hna Hnf.
    assert (Htruthy : JS.truthy type = true) by (destruct type; [congruence | reflexivity]).
    rewrite Htruthy. cbn [negb].
    rewrite (Hkeys "pdf") by (simpl; tauto). rewrite andb_false_r.
    rewrite (Hkeys "non-fillable"), (Hkeys "nonfillable"), (Hkeys "google"),
      (Hkeys "airtable"), (Hkeys "office"), (Hkeys "excel"), (Hkeys "word"),
      (Hkeys "phone"), (Hkeys "email"), (Hkeys "digital"), (Hkeys "printable")
      by (simpl; tauto).
    apply String.eqb_neq in Hna, Hnf. rewrite Hna, Hnf. reflexivity.
  - destruct (JS.truthy type) eqn:Htruthy; cbn [negb]; [|discriminate].
    destruct (JS.includes (lowerTrimmed type) "pdf") eqn:Hpdf.
    { rewrite andb_true_r.
      repeat match goal with
             | |- context [if ?b then _ else _] => destruct b
             end; discriminate. }
    rewrite andb_false_r.
    destruct (JS.includes (lowerTrimmed type) "non-fillable") eqn:H1; [discriminate|].
    destruct (JS.includes (lowerTrimmed type) "nonfillable") eqn:H2; [discriminate|].
    destruct (JS.includes (lowerTrimmed type) "google") eqn:H3; [discriminate|].
    destruct (JS.includes (lowerTrimmed type) "airtable") eqn:H4; [discriminate|].
    destruct (JS.includes (lowerTrimmed type) "office") eqn:H5; [discriminate|].
    destruct (JS.includes (lowerTrimmed type) "excel") eqn:H6; [discriminate|].
    destruct (JS.includes (lowerTrimmed type) "word") eqn:H7; [discriminate|].
    destruct (JS.includes (lowerTrimmed type) "phone") eqn:H8; [discriminate|].
    destruct (JS.includes (lowerTrimmed type) "email") eqn:H9; [discriminate|].
    destruct (JS.includes (lowerTrimmed type) "digital") eqn:H10; [discriminate|].
    destruct (JS.includes (lowerTrimmed type) "printable") eqn:H11; [discriminate|].
    cbn [orb].
    destruct (String.eqb_spec (lowerTrimmed type) "n/a") as [|Hna]; [discriminate|].
    destruct (String.eqb_spec (lowerTrimmed type) "not a form") as [|Hnf]; [discriminate|].
    intros _. repeat split; try assumption.
    + intros ->. discriminate Htruthy.
    + intros key Hin. simpl in Hin.
      repeat (destruct Hin as [<- | Hin]; [assumption|]). contradiction.
Qed.

Lemma fillable_pdf_rule_comes_first_witness :
  Analyze.normalizeFormType "  PDF (Non-Fillable, printable) " = "Fillable PDF"
  /\ Analyze.normalizeFormType "web page" = "Unknown"
  /\ Analyze.normalizeFormType "Fillable form" = "Unknown".
Proof.
  split; [|split].
  - apply (proj1 (fillable_pdf_rule_comes_first _)); vm_compute; reflexivity.
  - apply (proj1 (proj2 (proj2 (fillable_pdf_rule_comes_first _)))).
    + discriminate.
    + intros key Hin. simpl in Hin.
      repeat (destruct Hin as [<- | Hin]; [vm_compute; reflexivity|]).
      contradiction.
    + vm_compute. discriminate.
    + vm_compute. discriminate.
  - apply (proj1 (proj2 (proj2 (fillable_pdf_rule_comes_first _)))).
    + discriminate.
    + intros key Hin. simpl in Hin.
      repeat (destruct Hin as [<- | Hin]; [vm_compute; reflexivity|]).
      contradiction.
    + vm_compute. discriminate.
    + vm_compute. discriminate.
Defined.

(** The summary the normalizer builds by pushing labels is the summary of
    the flags. *)
Lemma pushed_summary_is_summaryOfFlags (info : SensitiveInfo) :
  (if Nat.ltb 0 (List.length (sensitiveItems info))
   then JS.join ", " (sensitiveItems info) else "None")
  = summaryOfFlags info.
Proof. destruct info as [[] [] [] [] []]; reflexivity. Qed.

Lemma summaryOfFlags_None (info : SensitiveInfo) :
  summaryOfFlags info = "None" <-> allFlagsFalse info.
Proof.
  unfold allFlagsFalse.
  destruct info as [[] [] [] [] []]; simpl; split;
    try discriminate; try tauto; intros; intuition discriminate.
Qed.

Section Normalizer.
Context {NUM : JSNumber}.

(** What [normalizeResponse] returns, when it returns. *)
Lemma normalizeResponse_Ok (parsed : value) (f : Analyze.Fragment) :
  Analyze.normalizeResponse parsed = Ok f ->
  Analyze.f_sensitiveInfoSummary f = summaryOfFlags (Analyze.f_sensitiveInfo f)
  /\ (Analyze.f_isForm f = "Yes" \/ Analyze.f_isForm f = "No").
Proof.
  unfold Analyze.normalizeResponse.
  destruct (getProp parsed "sensitiveInfo") as [si|e] eqn:Hsi; simpl; [|discriminate].
  destruct (getProp parsed "isForm") as [isForm|e]; simpl; [|discriminate].
  destruct (getProp parsed "formType") as [rawType|e]; simpl; [|discriminate].
  destruct (Analyze.normalizeFormTypeOf rawType) as [formType|e]; simpl; [|discriminate].
  destruct (getProp parsed "confidence") as [confidence|e]; simpl; [|discriminate].
  destruct (getProp parsed "pageCount") as [pageCount|e]; simpl; [|discriminate].
  destruct (getProp parsed "notes") as [notes|e]; simpl; [|discriminate].
  intros H. injection H as <-. simpl. split.
  - apply pushed_summary_is_summaryOfFlags.
  - destruct (Analyze.isYes isForm); auto.
Qed.

(** [normalizeResponse] returns on every reply object whose form type is
    falsy, absent or a string. *)
Lemma normalizeResponse_returns (props : list (string * value)) :
  (forall v, lookup "formType" props = Some v ->
             Boolean (Some v) = true -> exists s, v = JStr s) ->
  exists f, Analyze.normalizeResponse (JObj props) = Ok f.
Proof.
  intros Htype. unfold Analyze.normalizeResponse. simpl.
  unfold Analyze.normalizeFormTypeOf.
  destruct (lookup "formType" props) as [v|] eqn:Hv.
  - destruct (Boolean (Some v)) eqn:Hb; simpl.
    + destruct (Htype v eq_refl Hb) as [s ->]. simpl. eexists; reflexivity.
    + eexists; reflexivity.
  - simpl. eexists; reflexivity.
Qed.

(** C10. The fragment the normalizer produces keeps the summary consistent
    with the flags: the summary is "None" exactly when all five flags are
    false, and otherwise it is the labels of the true flags, in the order SSN,
    DL#, Financial, Health, Criminal, joined by a comma and a space.  A
    fragment is produced for every reply object whose form type is falsy,
    absent or a string. *)
Theorem summary_consistent_with_flags (parsed : value) :
  (forall f, Analyze.normalizeResponse parsed = Ok f ->
     (Analyze.f_sensitiveInfoSummary f = "None" <->
      allFlagsFalse (Analyze.f_sensitiveInfo f))
     /\ (~ allFlagsFalse (Analyze.f_sensitiveInfo f) ->
         Analyze.f_sensitiveInfoSummary f =
         JS.join ", " (labelsOf (Analyze.f_sensitiveInfo f))))
  /\ (forall props, parsed = JObj props ->
        (forall v, lookup "formType" props = Some v ->
                   Boolean (Some v) = true -> exists s, v = JStr s) ->
        exists f, Analyze.normalizeResponse parsed = Ok f).
Proof.
  split.
  - intros f Hf. apply normalizeResponse_Ok in Hf as [Hs _]. rewrite Hs. split.
    + apply summaryOfFlags_None.
    + intros Hnot. unfold summaryOfFlags.
      destruct (labelsOf (Analyze.f_sensitiveInfo f)) eqn:Hl; [|reflexivity].
      exfalso. apply Hnot. apply summaryOfFlags_None.
      unfold summaryOfFlags. now rewrite Hl.
  - intros props -> Htype. now apply normalizeResponse_returns.
Qed.

End Normalizer.

Lemma summary_consistent_with_flags_witness :
  exists f : Analyze.Fragment,
    Analyze.f_sensitiveInfoSummary f = "SSN, Health"
    /\ Analyze.f_sensitiveInfoSummary f =
       JS.join ", " (labelsOf (Analyze.f_sensitiveInfo f)).
Proof.
  pose (reply := JObj [ ("isForm", JStr "Yes"); ("formType", JStr "fillable pdf");
                        ("sensitiveInfo",
                           JObj [ ("ssn", JBool true); ("health", JNum 1%Z);
                                  ("financial", JNull) ]) ]).
  destruct (Analyze.normalizeResponse reply) as [f|e] eqn:Hf; [|discriminate Hf].
  exists f. split.
  - vm_compute in Hf. injection Hf as <-. reflexivity.
  - apply (proj1 (summary_consistent_with_flags reply) f Hf).
    vm_compute in Hf. injection Hf as <-. vm_compute.
    intros [H _]. discriminate H.
Defined.

Section Idempotence.
Context {NUM : JSNumber}.

(** Normalizing a fragment that is read back as a reply: every field is
    copied except the form type, which goes through [normalizeFormType]
    again. *)
Lemma normalizeResponse_asReply (f : Analyze.Fragment) :
  canonical f ->
  Analyze.normalizeResponse (Analyze.asReply f) =
  Ok {| Analyze.f_isForm := Analyze.f_isForm f;
        Analyze.f_formType := Analyze.normalizeFormType (Analyze.f_formType f);
        Analyze.f_sensitiveInfo := Analyze.f_sensitiveInfo f;
        Analyze.f_sensitiveInfoSummary := Analyze.f_sensitiveInfoSummary f;
        Analyze.f_confidence := Analyze.f_confidence f;
        Analyze.f_pageCount := Analyze.f_pageCount f;
        Analyze.f_notes := Analyze.f_notes f |}.
Proof.
  destruct f as [isForm formType info summary conf pages notes].
  unfold canonical; simpl. intros (HisForm & _ & -> & [s ->]).
  unfold Analyze.normalizeResponse, Analyze.asReply; simpl.
  rewrite pushed_summary_is_summaryOfFlags.
  assert (Htype : Analyze.normalizeFormTypeOf (Some (JStr formType))
                  = Ok (Analyze.normalizeFormType formType)).
  { unfold Analyze.normalizeFormTypeOf. simpl. destruct formType; reflexivity. }
  rewrite Htype. simpl.
  destruct info as [b1 b2 b3 b4 b5]; simpl.
  assert (HisForm' : (if String.eqb isForm "Yes" then "Yes" else "No") = isForm).
  { destruct HisForm as [-> | ->]; reflexivity. }
  rewrite HisForm'.
  destruct s; reflexivity.
Qed.

(** C4. Normalizing an already-canonical fragment again returns it unchanged
    for every canonical form type but one: "Non-Fillable PDF" contains both
    "fillable" and "pdf", so the first rule of [normalizeFormType] turns it
    into "Fillable PDF". *)
Theorem renormalizing_canonical_fragment (f : Analyze.Fragment) :
  canonical f ->
  (Analyze.normalizeResponse (Analyze.asReply f) = Ok f <->
   Analyze.f_formType f <> "Non-Fillable PDF")
  /\ (Analyze.f_formType f = "Non-Fillable PDF" ->
      exists f', Analyze.normalizeResponse (Analyze.asReply f) = Ok f'
                 /\ Analyze.f_formType f' = "Fillable PDF").
Proof.
  intros Hc. rewrite (normalizeResponse_asReply f Hc).
  destruct Hc as (_ & Hvocabulary & _).
  destruct f as [isForm formType info summary conf pages notes]; simpl in *.
  split.
  - split.
    + intros H E. injection H as H. rewrite E in H. vm_compute in H. discriminate.
    + intros Hne.
      repeat (destruct Hvocabulary as [<- | Hvocabulary];
              [first [reflexivity | congruence]|]).
      contradiction.
  - intros ->. eexists. split; reflexivity.
Qed.

End Idempotence.

Lemma renormalizing_canonical_fragment_witness :
  Analyze.normalizeResponse
    (Analyze.asReply
       (Analyze.mkFragment "Yes" "Non-Fillable PDF"
          (mkSensitiveInfo true false false false false) "SSN" 900%Z 2%Z
          (JStr "A printable form.")))
  <> Ok (Analyze.mkFragment "Yes" "Non-Fillable PDF"
           (mkSensitiveInfo true false false false false) "SSN" 900%Z 2%Z
           (JStr "A printable form.")).
Proof.
  intros H.
  refine (proj1 (proj1 (renormalizing_canonical_fragment _ _)) H eq_refl).
  unfold canonical; simpl.
  split; [now left | split; [tauto | split; [reflexivity | now eexists]]].
Defined.

(** ** The report writer *)

Lemma halveQuotes_doubled (s : string) :
  halveQuotes (JS.replaceAll DQUOTE (quote ++ quote) s) = s.
Proof.
  induction s as [|a s IH]; [reflexivity|].
  cbn [JS.replaceAll]. destruct (Ascii.eqb a DQUOTE) eqn:Ha.
  - apply Ascii.eqb_eq in Ha; subst a.
    change (halveQuotes (String DQUOTE (String DQUOTE
              (JS.replaceAll DQUOTE (quote ++ quote) s))) = String DQUOTE s).
    cbn [halveQuotes]. rewrite Ascii.eqb_refl. cbn [andb]. now rewrite IH.
  - cbn [halveQuotes]. rewrite Ha. cbn [andb].
    destruct (JS.replaceAll DQUOTE (quote ++ quote) s) as [|b t] eqn:Hr.
    + rewrite <- IH. reflexivity.
    + now rewrite IH.
Qed.

Lemma replaceAll_doubles_quotes (s : string) :
  list_ascii_of_string (JS.replaceAll DQUOTE (quote ++ quote) s)
  = flat_map (fun c => if Ascii.eqb c DQUOTE then [DQUOTE; DQUOTE] else [c])
             (list_ascii_of_string s).
Proof.
  induction s as [|a s IH]; [reflexivity|].
  cbn [JS.replaceAll list_ascii_of_string flat_map].
  destruct (Ascii.eqb a DQUOTE); unfold quote; simpl; now rewrite <- IH.
Qed.

Lemma stripClosingQuote_app (s : string) :
  stripClosingQuote (s ++ quote) = Some s.
Proof.
  induction s as [|a s IH]; [reflexivity|].
  change (String a s ++ quote) with (String a (s ++ quote)).
  cbn [stripClosingQuote]. rewrite IH.
  destruct (s ++ quote) eqn:E; [|reflexivity].
  destruct s; discriminate.
Qed.

Lemma needsQuoting_test (field : string) :
  JS.includes field "," || JS.includes field quote
  || JS.includes field newline || JS.includes field (String CR EmptyString) = true
  <-> needsQuoting field.
Proof.
  unfold needsQuoting, quote, newline.
  rewrite !orb_true_iff, <- !includes_char. tauto.
Qed.

(** C8. [escapeField] is total and reversible: a field that contains a comma,
    a double quote, a line feed or a carriage return is wrapped in double
    quotes with each of its double quotes doubled, any other field is returned
    as it is, and CSV unescaping (strip the enclosing quotes, halve the
    doubled quotes) gives the original field back.  The comparison writer's
    copy is the same function. *)
Theorem escapeField_is_reversible (field : string) :
  (needsQuoting field ->
   Analyze.escapeField field
   = quote ++ JS.replaceAll DQUOTE (quote ++ quote) field ++ quote)
  /\ (~ needsQuoting field -> Analyze.escapeField field = field)
  /\ csvUnescape (Analyze.escapeField field) = field
  /\ Eval.escapeField field = Analyze.escapeField field.
Proof.
  assert (Hyes : needsQuoting field ->
                 Analyze.escapeField field
                 = quote ++ JS.replaceAll DQUOTE (quote ++ quote) field ++ quote).
  { intros H. apply needsQuoting_test in H. unfold Analyze.escapeField. now rewrite H. }
  assert (Hno : ~ needsQuoting field -> Analyze.escapeField field = field).
  { intros H. unfold Analyze.escapeField.
    destruct (JS.includes field "," || JS.includes field quote
              || JS.includes field newline
              || JS.includes field (String CR EmptyString)) eqn:E; [|reflexivity].
    exfalso. apply H. now apply needsQuoting_test. }
  repeat split; auto.
  unfold Analyze.escapeField.
  destruct (JS.includes field "," || JS.includes field quote
            || JS.includes field newline
            || JS.includes field (String CR EmptyString)) eqn:E.
  - change (quote ++ JS.replaceAll DQUOTE (quote ++ quote) field ++ quote)
      with (String DQUOTE (JS.replaceAll DQUOTE (quote ++ quote) field ++ quote)).
    cbn [csvUnescape]. rewrite Ascii.eqb_refl, stripClosingQuote_app.
    apply halveQuotes_doubled.
  - destruct field as [|a rest]; [reflexivity|].
    cbn [csvUnescape].
    destruct (Ascii.eqb a DQUOTE) eqn:Ha; [|reflexivity].
    apply Ascii.eqb_eq in Ha; subst a.
    exfalso.
    assert (Hq : needsQuoting (String DQUOTE rest)).
    { unfold needsQuoting. right; left. simpl. now left. }
    apply needsQuoting_test in Hq. congruence.
Qed.

Lemma escapeField_is_reversible_witness :
  Analyze.escapeField ("say " ++ quote ++ "hi" ++ quote ++ ", then stop")
  = quote ++ "say " ++ quote ++ quote ++ "hi" ++ quote ++ quote
    ++ ", then stop" ++ quote
  /\ Analyze.escapeField "https://x.test/a.pdf" = "https://x.test/a.pdf".
Proof.
  split.
  - set (field := "say " ++ quote ++ "hi" ++ quote ++ ", then stop").
    change (Analyze.escapeField field
            = quote ++ JS.replaceAll DQUOTE (quote ++ quote) field ++ quote).
    apply (proj1 (escapeField_is_reversible field)).
    unfold needsQuoting. left. vm_compute. tauto.
  - apply (proj1 (proj2 (escapeField_is_reversible _))).
    unfold needsQuoting. vm_compute. intuition discriminate.
Defined.

(** ** The input reader *)

Lemma setHas_In (set : list string) (x : string) :
  Analyze.setHas set x = true <-> In x set.
Proof.
  unfold Analyze.setHas. rewrite existsb_exists. split.
  - intros (y & Hy & E). apply String.eqb_eq in E. now subst.
  - intros H. exists x. split; [assumption | apply String.eqb_refl].
Qed.

Lemma firstOccurrences_ext (seen seen' l : list string) :
  (forall x, In x seen <-> In x seen') ->
  firstOccurrences seen l = firstOccurrences seen' l.
Proof.
  revert seen seen'. induction l as [|x l IH]; intros seen seen' Hsame; [reflexivity|].
  simpl. fold (Analyze.setHas seen x). fold (Analyze.setHas seen' x).
  assert (E : Analyze.setHas seen x = Analyze.setHas seen' x).
  { apply eq_true_iff_eq. now rewrite !setHas_In. }
  rewrite E. destruct (Analyze.setHas seen' x).
  - now apply IH.
  - f_equal. apply IH. intros y; simpl. now rewrite Hsame.
Qed.

Lemma firstOccurrences_In (seen l : list string) (x : string) :
  In x (firstOccurrences seen l) <-> In x l /\ ~ In x seen.
Proof.
  revert seen. induction l as [|y l IH]; intros seen; simpl; [tauto|].
  fold (Analyze.setHas seen y).
  destruct (Analyze.setHas seen y) eqn:E.
  - apply setHas_In in E. rewrite IH. split.
    + tauto.
    + intros [[-> | H] Hn]; tauto.
  - assert (Hy : ~ In y seen) by (rewrite <- setHas_In; congruence).
    simpl. rewrite IH. simpl. split.
    + intros [-> | [H Hn]]; [tauto|]. split; [tauto|]. intros Hs; apply Hn; tauto.
    + intros [[-> | H] Hn]; [tauto|].
      destruct (String.eqb_spec y x) as [-> | Hne]; [tauto|].
      right. split; [assumption|]. intros [E' | Hs]; [congruence | tauto].
Qed.

Lemma firstOccurrences_NoDup (seen l : list string) :
  NoDup (firstOccurrences seen l).
Proof.
  revert seen. induction l as [|y l IH]; intros seen; simpl; [constructor|].
  destruct (existsb (String.eqb y) seen); [apply IH|].
  constructor; [|apply IH].
  rewrite firstOccurrences_In. simpl. tauto.
Qed.

Lemma firstOccurrences_of_NoDup (seen l : list string) :
  NoDup l -> (forall x, In x l -> ~ In x seen) -> firstOccurrences seen l = l.
Proof.
  revert seen. induction l as [|y l IH]; intros seen Hnd Hfresh; [reflexivity|].
  simpl. fold (Analyze.setHas seen y).
  destruct (Analyze.setHas seen y) eqn:E.
  - apply setHas_In in E. exfalso. apply (Hfresh y); simpl; auto.
  - inversion Hnd as [|? ? Hy Hnd']; subst. f_equal. apply IH; [assumption|].
    intros x Hx [<- | Hs]; [contradiction|]. apply (Hfresh x); simpl; auto.
Qed.

(** The [Set] built from an array holds its first occurrences. *)
Lemma fold_setAdd (l set : list string) :
  fold_left Analyze.setAdd l set = (set ++ firstOccurrences set l)%list.
Proof.
  revert set. induction l as [|x l IH]; intros set; simpl.
  - now rewrite app_nil_r.
  - rewrite IH. unfold Analyze.setAdd. fold (Analyze.setHas set x).
    destruct (Analyze.setHas set x); [reflexivity|].
    rewrite <- app_assoc. simpl. do 2 f_equal.
    apply firstOccurrences_ext. intros y. rewrite in_app_iff. simpl. tauto.
Qed.

(** The [.txt] loop pushes the kept lines in order. *)
Lemma fold_txtStep (lines urls : list string) :
  fold_left Analyze.txtStep lines urls
  = (urls ++ filter (fun l => JS.truthy l && negb (JS.startsWith l "#"))
                    (map JS.trim lines))%list.
Proof.
  revert urls. induction lines as [|line lines IH]; intros urls; simpl.
  - now rewrite app_nil_r.
  - rewrite IH. unfold Analyze.txtStep.
    destruct (JS.truthy (JS.trim line) && negb (JS.startsWith (JS.trim line) "#"));
      [|reflexivity].
    now rewrite <- app_assoc.
Qed.

(** C9, as amended.  For a [.txt] input the reader returns the trimmed lines
    that are non-empty and do not start with a hash sign, in order of
    appearance and with every repeated line removed after its first
    occurrence; when no kept line repeats, that is exactly the kept lines.
    The example input yields a.pdf then b.pdf. *)
Theorem readUrlsFromFile_txt (matchPdfUrls : string -> list string)
    (filePath content : string) :
  JS.endsWith (JS.toLowerCase filePath) ".txt" = true ->
  Analyze.readUrlsFromFile matchPdfUrls filePath content
  = firstOccurrences [] (keptLines content)
  /\ NoDup (Analyze.readUrlsFromFile matchPdfUrls filePath content)
  /\ (forall u, In u (Analyze.readUrlsFromFile matchPdfUrls filePath content)
                <-> In u (keptLines content))
  /\ (NoDup (keptLines content) ->
      Analyze.readUrlsFromFile matchPdfUrls filePath content = keptLines content)
  /\ Analyze.readUrlsFromFile matchPdfUrls "urls.txt" exampleLines
     = [ "https://x.test/a.pdf"; "https://x.test/b.pdf" ].
Proof.
  intros Htxt.
  assert (E : Analyze.readUrlsFromFile matchPdfUrls filePath content
              = firstOccurrences [] (keptLines content)).
  { unfold Analyze.readUrlsFromFile. rewrite Htxt, fold_txtStep, fold_setAdd.
    reflexivity. }
  rewrite E. repeat split.
  - apply firstOccurrences_NoDup.
  - intros H. now apply firstOccurrences_In in H.
  - intros H. apply firstOccurrences_In. simpl. tauto.
  - intros Hnd. apply firstOccurrences_of_NoDup; [assumption | simpl; tauto].
Qed.

Lemma readUrlsFromFile_txt_witness :
  Analyze.readUrlsFromFile (fun _ => []) "list.TXT"
    ("  a.pdf " ++ newline ++ "#b.pdf" ++ newline ++ "a.pdf")
  = firstOccurrences [] (keptLines ("  a.pdf " ++ newline ++ "#b.pdf" ++ newline ++ "a.pdf")).
Proof.
  apply (proj1 (readUrlsFromFile_txt (fun _ => []) "list.TXT" _ eq_refl)).
Defined.

(** C9 as stated fails on a repeated line: the reader returns it once. *)
Lemma readUrlsFromFile_drops_repeated_lines :
  Analyze.readUrlsFromFile (fun _ => []) "urls.txt" ("a.pdf" ++ newline ++ "a.pdf")
  = [ "a.pdf" ]
  /\ keptLines ("a.pdf" ++ newline ++ "a.pdf") = [ "a.pdf"; "a.pdf" ]
  /\ ~ (forall content,
          Analyze.readUrlsFromFile (fun _ => []) "urls.txt" content = keptLines content).
Proof.
  split; [reflexivity | split; [reflexivity|]].
  intros H. specialize (H ("a.pdf" ++ newline ++ "a.pdf")).
  vm_compute in H. discriminate H.
Qed.

(** ** The oracle adapter *)

Section Polling.
Context {NUM : JSNumber}.
Variable svc : Analyze.Service.

(** The loop runs its body at most [remaining] times, stops early only on a
    state other than "PROCESSING", and returns the answer of the last poll. *)
Lemma waitForProcessing_bounded (fileName : option string)
    (remaining attempts : nat) (getFile last : Analyze.File) (n : nat) :
  Analyze.waitForProcessing svc fileName remaining attempts getFile = Ok (last, n) ->
  attempts <= n <= attempts + remaining
  /\ (Analyze.strictEq (Analyze.state last) "PROCESSING" = true ->
      n = attempts + remaining)
  /\ (n = attempts -> last = getFile)
  /\ (attempts < n -> Analyze.files_get svc n fileName = Ok last).
Proof.
  revert attempts getFile.
  induction remaining as [|remaining IH]; intros attempts getFile; simpl.
  - intros H. injection H as <- <-. repeat split; lia.
  - destruct (Analyze.strictEq (Analyze.state getFile) "PROCESSING") eqn:Hstate.
    + destruct (Analyze.files_get svc (S attempts) fileName) as [next|e] eqn:Hget;
        simpl; [|discriminate].
      intros H. destruct (IH _ _ H) as (Hrange & Hproc & Hsame & Hlast).
      repeat split; try lia.
      * intros Hp. specialize (Hproc Hp). lia.
      * intros _. destruct (Nat.eq_dec n (S attempts)) as [E | Hne].
        -- rewrite (Hsame E), E. exact Hget.
        -- apply Hlast. lia.
    + intros H. injection H as <- <-. repeat split; try lia.
      intros Hp. congruence.
Qed.

(** Every poll the loop makes before the last one was answered
    "PROCESSING", and so was the poll the loop started from. *)
Lemma waitForProcessing_trace (fileName : option string)
    (remaining attempts : nat) (getFile last : Analyze.File) (n : nat) :
  Analyze.waitForProcessing svc fileName remaining attempts getFile = Ok (last, n) ->
  (attempts < n -> Analyze.strictEq (Analyze.state getFile) "PROCESSING" = true)
  /\ (forall k, attempts < k < n ->
        exists polled,
          Analyze.files_get svc k fileName = Ok polled
          /\ Analyze.strictEq (Analyze.state polled) "PROCESSING" = true).
Proof.
  revert attempts getFile.
  induction remaining as [|remaining IH]; intros attempts getFile; simpl.
  - intros H. injection H as <- <-. split; intros; lia.
  - destruct (Analyze.strictEq (Analyze.state getFile) "PROCESSING") eqn:Hstate.
    + destruct (Analyze.files_get svc (S attempts) fileName) as [next|e] eqn:Hget;
        simpl; [|discriminate].
      intros H. destruct (IH _ _ H) as (Hnext & Hrest).
      split; [reflexivity|].
      intros k Hk. destruct (Nat.eq_dec k (S attempts)) as [-> | Hne].
      * exists next. split; [exact Hget | apply Hnext; lia].
      * apply Hrest. lia.
    + intros H. injection H as <- <-. split; intros; lia.
Qed.

(** C7, as amended.  After the first poll the step polls again only while
    the state is "PROCESSING", at most 30 more times: every poll but the last
    was answered "PROCESSING", the last poll gave the file the step ends with,
    and when fewer than 30 further polls were made that file is no longer
    "PROCESSING".  A final "FAILED" state makes the step throw.  When the 30
    attempts are used up and the state is still "PROCESSING", the step throws
    nothing: it returns the last polled file, and the analysis goes on with
    it. *)
Theorem polling_is_bounded (u : string) :
  (forall file kb attempts,
     Analyze.uploadAndPoll svc u = Ok (file, kb, attempts) ->
     attempts <= Analyze.MAX_ATTEMPTS
     /\ (Analyze.strictEq (Analyze.state file) "FAILED" = true ->
         Analyze.uploadPdfFromUrl svc u = Throw "Gemini file processing failed")
     /\ (Analyze.strictEq (Analyze.state file) "PROCESSING" = true ->
         attempts = Analyze.MAX_ATTEMPTS
         /\ Analyze.uploadPdfFromUrl svc u = Ok (file, kb))
     /\ (attempts < Analyze.MAX_ATTEMPTS ->
         Analyze.strictEq (Analyze.state file) "PROCESSING" = false)
     /\ exists byteLength urlPath uploaded,
          Analyze.files_upload svc byteLength (Analyze.displayNameOf urlPath) = Ok uploaded
          /\ Analyze.files_get svc attempts (Analyze.name uploaded) = Ok file
          /\ forall k, k < attempts ->
               exists polled,
                 Analyze.files_get svc k (Analyze.name uploaded) = Ok polled
                 /\ Analyze.strictEq (Analyze.state polled) "PROCESSING" = true)
  /\ (forall e, Analyze.uploadAndPoll svc u = Throw e ->
                Analyze.uploadPdfFromUrl svc u = Throw e).
Proof.
  split.
  - intros file kb attempts Hup.
    assert (Hfacts :
              attempts <= Analyze.MAX_ATTEMPTS
              /\ (Analyze.strictEq (Analyze.state file) "PROCESSING" = true ->
                  attempts = Analyze.MAX_ATTEMPTS)
              /\ exists byteLength urlPath uploaded,
                   Analyze.files_upload svc byteLength (Analyze.displayNameOf urlPath)
                   = Ok uploaded
                   /\ Analyze.files_get svc attempts (Analyze.name uploaded) = Ok file
                   /\ forall k, k < attempts ->
                        exists polled,
                          Analyze.files_get svc k (Analyze.name uploaded) = Ok polled
                          /\ Analyze.strictEq (Analyze.state polled) "PROCESSING" = true).
    { revert Hup. unfold Analyze.uploadAndPoll.
      destruct (Analyze.fetch svc u) as [response|e]; cbn [bind negb]; [|discriminate].
      destruct (Analyze.ok response); cbn [bind negb]; [|discriminate].
      destruct (Analyze.arrayBuffer response) as [len|e]; cbn [bind negb]; [|discriminate].
      destruct (Analyze.URL_pathname svc u) as [path|e]; cbn [bind negb]; [|discriminate].
      destruct (Analyze.files_upload svc len (Analyze.displayNameOf path)) as [up|e]
        eqn:Hupload; cbn [bind negb]; [|discriminate].
      destruct (Analyze.files_get svc 0 (Analyze.name up)) as [first|e] eqn:Hfirst;
        cbn [bind negb]; [|discriminate].
      destruct (Analyze.waitForProcessing svc (Analyze.name up) Analyze.MAX_ATTEMPTS 0 first)
        as [[last n]|e] eqn:Hwait; cbn [bind negb]; [|discriminate].
      intros H. injection H as <- _ <-.
      destruct (waitForProcessing_bounded _ _ _ _ _ _ Hwait)
        as (Hrange & Hproc & Hsame & Hlast).
      destruct (waitForProcessing_trace _ _ _ _ _ _ Hwait) as (Hstart & Hmiddle).
      split; [lia | split; [exact Hproc|]].
      exists len, path, up. split; [exact Hupload | split].
      - destruct n as [|n]; [rewrite (Hsame eq_refl); exact Hfirst | apply Hlast; lia].
      - intros k Hk. destruct k as [|k].
        + exists first. split; [exact Hfirst | apply Hstart; lia].
        + apply Hmiddle. lia. }
    destruct Hfacts as (Hle & Hproc & Htrace).
    unfold Analyze.uploadPdfFromUrl. rewrite Hup. cbn [bind].
    split; [exact Hle|]. split; [|split; [|split; [|exact Htrace]]].
    + intros Hfailed. now rewrite Hfailed.
    + intros Hp. split; [now apply Hproc|].
      destruct (Analyze.state file) as [s|]; [|discriminate].
      simpl in *. apply String.eqb_eq in Hp; subst s. reflexivity.
    + intros Hlt.
      destruct (Analyze.strictEq (Analyze.state file) "PROCESSING") eqn:Hp; [|reflexivity].
      specialize (Hproc eq_refl). lia.
  - intros e Hup. unfold Analyze.uploadPdfFromUrl. now rewrite Hup.
Qed.

End Polling.

Lemma polling_is_bounded_witness :
  Analyze.uploadPdfFromUrl failingWorld "https://x.test/a.pdf"
  = Throw "Gemini file processing failed"
  /\ Analyze.uploadPdfFromUrl stuckWorld "https://x.test/a.pdf"
     = Ok (processingFile, 2)
  /\ Analyze.strictEq (Analyze.state failedFile) "PROCESSING" = false
  /\ exists byteLength urlPath uploaded,
       Analyze.files_upload failingWorld byteLength (Analyze.displayNameOf urlPath)
       = Ok uploaded
       /\ Analyze.files_get failingWorld 2 (Analyze.name uploaded) = Ok failedFile
       /\ forall k, k < 2 ->
            exists polled,
              Analyze.files_get failingWorld k (Analyze.name uploaded) = Ok polled
              /\ Analyze.strictEq (Analyze.state polled) "PROCESSING" = true.
Proof.
  pose proof (proj1 (polling_is_bounded failingWorld "https://x.test/a.pdf")
                failedFile 2 2 eq_refl) as (_ & Hfailed & _ & Hearly & Htrace).
  pose proof (proj1 (polling_is_bounded stuckWorld "https://x.test/a.pdf")
                processingFile 2 30 eq_refl) as (_ & _ & Hstuck & _).
  split; [apply Hfailed; reflexivity|].
  split; [apply Hstuck; reflexivity|].
  split; [apply Hearly; apply Nat.ltb_lt; reflexivity | exact Htrace].
Defined.

(** C7 as stated fails when every poll says "PROCESSING": after the last
    attempt the step returns the file, and the document is analysed with no
    error recorded. *)
Lemma polling_exhaustion_is_not_an_error :
  (forall n fileName, Analyze.files_get stuckWorld n fileName = Ok processingFile)
  /\ Analyze.uploadAndPoll stuckWorld "https://x.test/a.pdf" = Ok (processingFile, 2, 30)
  /\ Analyze.uploadPdfFromUrl stuckWorld "https://x.test/a.pdf" = Ok (processingFile, 2)
  /\ Analyze.error (Analyze.analyzePdf stuckWorld "prompt" "https://x.test/a.pdf") = None
  /\ Analyze.isForm (Analyze.analyzePdf stuckWorld "prompt" "https://x.test/a.pdf") = "No"
  /\ ~ (forall svc : Analyze.Service,
          (forall n fileName, Analyze.files_get svc n fileName = Ok processingFile) ->
          exists e, Analyze.uploadPdfFromUrl svc "https://x.test/a.pdf" = Throw e).
Proof.
  repeat split.
  intros H. destruct (H stuckWorld (fun _ _ => eq_refl)) as [e He].
  vm_compute in He. discriminate He.
Qed.

Section Adapter.
Context {NUM : JSNumber}.
Variable svc : Analyze.Service.
Variables prompt u : string.

(** The [try] block leaves [url] and [error] alone, and when it throws it
    has not touched [isForm] or the flags: the only assignment before
    [Object.assign] is the one to [fileSizeKB]. *)
Lemma tryBlock_preserves (r0 r : Analyze.FormAnalysis) (outcome : result unit) :
  Analyze.tryBlock svc prompt u r0 = (r, outcome) ->
  Analyze.error r = Analyze.error r0
  /\ Analyze.url r = Analyze.url r0
  /\ (forall e, outcome = Throw e ->
        Analyze.isForm r = Analyze.isForm r0
        /\ Analyze.sensitiveInfo r = Analyze.sensitiveInfo r0).
Proof.
  unfold Analyze.tryBlock.
  destruct (Analyze.uploadPdfFromUrl svc u) as [[file kb]|e0].
  - destruct (Analyze.askModel svc prompt file) as [fragment|e1].
    + destruct (Analyze.files_delete svc (Analyze.name file));
        intros H; injection H as <- <-; repeat split; discriminate.
    + intros H; injection H as <- <-. repeat split.
  - intros H; injection H as <- <-. repeat split.
Qed.

Lemma analyzePdf_on_failure (e : string) :
  throws svc prompt u e ->
  Analyze.error (Analyze.analyzePdf svc prompt u) = Some e
  /\ Analyze.isForm (Analyze.analyzePdf svc prompt u) = EmptyString
  /\ Analyze.sensitiveInfo (Analyze.analyzePdf svc prompt u) = noSensitiveInfo
  /\ Analyze.notes (Analyze.analyzePdf svc prompt u) = JStr ("Error: " ++ e)
  /\ Analyze.url (Analyze.analyzePdf svc prompt u) = u.
Proof.
  unfold throws, Analyze.analyzePdf.
  destruct (Analyze.tryBlock svc prompt u (Analyze.initialResult u)) as [r outcome] eqn:Htry.
  simpl. intros ->.
  destruct (tryBlock_preserves _ _ _ Htry) as (_ & Hurl & Hkept).
  destruct (Hkept e eq_refl) as [HisForm Hflags].
  simpl. repeat split; assumption.
Qed.




End Adapter.

(** A failed document never makes the batch loop throw: its notes are the
    error text. *)
Lemma logNotes_of_failed {NUM : JSNumber} (svc : Analyze.Service) (prompt u : string) :
  Analyze.error (Analyze.analyzePdf svc prompt u) <> None ->
  Analyze.logNotes (Analyze.analyzePdf svc prompt u) = Ok tt.
Proof.
  intros Herr.
  destruct (Analyze.error (Analyze.analyzePdf svc prompt u)) as [e|] eqn:He; [|congruence].
  assert (Hthrows : throws svc prompt u e).
  { unfold throws. revert He. unfold Analyze.analyzePdf.
    destruct (Analyze.tryBlock svc prompt u (Analyze.initialResult u))
      as [r outcome] eqn:Htry.
    destruct (tryBlock_preserves _ _ _ _ _ _ Htry) as (Hsame & _ & _).
    destruct outcome as [[]|e']; simpl.
    - rewrite Hsame. discriminate.
    - now intros [= ->]. }
  destruct (analyzePdf_on_failure svc prompt u e Hthrows) as (_ & _ & _ & Hnotes & _).
  unfold Analyze.logNotes. rewrite Hnotes. simpl. reflexivity.
Qed.

Lemma analyzePdf_url {NUM : JSNumber} (svc : Analyze.Service) (prompt u : string) :
  Analyze.url (Analyze.analyzePdf svc prompt u) = u.
Proof.
  unfold Analyze.analyzePdf.
  destruct (Analyze.tryBlock svc prompt u (Analyze.initialResult u))
    as [r outcome] eqn:Htry.
  destruct (tryBlock_preserves _ _ _ _ _ _ Htry) as (_ & Hurl & _).
  destruct outcome; simpl; exact Hurl.
Qed.




(** * Further properties of the sources *)

(** ** Trimming *)

Lemma trimStart_head (s : string) (c : ascii) (rest : string) :
  JS.trimStart s = String c rest -> JS.isWhiteSpace c = false.
Proof.
  induction s as [|a s IH]; simpl; [discriminate|].
  destruct (JS.isWhiteSpace a) eqn:Ha; [exact IH|].
  intros H. injection H as <- _. exact Ha.
Qed.

Lemma trimEnd_head (c : ascii) (rest : string) :
  JS.isWhiteSpace c = false ->
  exists rest', JS.trimEnd (String c rest) = String c rest'.
Proof.
  intros Hc. simpl. destruct (JS.trimEnd rest).
  - rewrite Hc. now eexists.
  - now eexists.
Qed.

Lemma trimEnd_idempotent (s : string) : JS.trimEnd (JS.trimEnd s) = JS.trimEnd s.
Proof.
  induction s as [|c s IH]; [reflexivity|].
  simpl. destruct (JS.trimEnd s) as [|a t] eqn:Ht.
  - destruct (JS.isWhiteSpace c) eqn:Hc; [reflexivity|].
    simpl. now rewrite Hc.
  - cbn [JS.trimEnd]. cbn [JS.trimEnd] in IH. rewrite IH. reflexivity.
Qed.

Lemma trim_idempotent (s : string) : JS.trim (JS.trim s) = JS.trim s.
Proof.
  unfold JS.trim. destruct (JS.trimStart s) as [|c rest] eqn:Hs; [reflexivity|].
  assert (Hc := trimStart_head _ _ _ Hs).
  destruct (trimEnd_head c rest Hc) as [rest' Hend].
  rewrite Hend. simpl JS.trimStart. rewrite Hc, <- Hend.
  apply trimEnd_idempotent.
Qed.

(** ** The form-type normalizers *)

Ltac split_rules :=
  repeat match goal with
         | |- context [if ?b then _ else _] => destruct b
         end.

Lemma normalizeFormType_in_vocabulary (type : string) :
  In (Analyze.normalizeFormType type) Analyze.FORM_TYPE_VALUES.
Proof.
  unfold Analyze.normalizeFormType, Analyze.FORM_TYPE_VALUES.
  split_rules; simpl; tauto.
Qed.

(** Every result of the analyzer's normalizer is a member of the canonical
    vocabulary.  The normalizer applied to its own result gives the result
    back, unless the result is "Non-Fillable PDF", which it turns into
    "Fillable PDF"; so no string is normalized to "Non-Fillable PDF" by two
    passes. *)
Theorem normalizeFormType_second_pass (type : string) :
  In (Analyze.normalizeFormType type) Analyze.FORM_TYPE_VALUES
  /\ (Analyze.normalizeFormType type <> "Non-Fillable PDF" ->
      Analyze.normalizeFormType (Analyze.normalizeFormType type)
      = Analyze.normalizeFormType type)
  /\ (Analyze.normalizeFormType type = "Non-Fillable PDF" ->
      Analyze.normalizeFormType (Analyze.normalizeFormType type) = "Fillable PDF")
  /\ Analyze.normalizeFormType (Analyze.normalizeFormType type) <> "Non-Fillable PDF".
Proof.
  pose proof (normalizeFormType_in_vocabulary type) as Hin.
  split; [exact Hin|].
  unfold Analyze.FORM_TYPE_VALUES in Hin. simpl in Hin.
  repeat (destruct Hin as [<- | Hin];
          [repeat split; intros; try reflexivity; try congruence; discriminate|]).
  contradiction.
Qed.

Lemma normalizeFormType_second_pass_witness :
  Analyze.normalizeFormType (Analyze.normalizeFormType "printable") = "Fillable PDF"
  /\ Analyze.normalizeFormType (Analyze.normalizeFormType "an Excel sheet")
     = Analyze.normalizeFormType "an Excel sheet".
Proof.
  split.
  - apply (proj1 (proj2 (proj2 (normalizeFormType_second_pass "printable")))). reflexivity.
  - apply (proj1 (proj2 (normalizeFormType_second_pass "an Excel sheet"))).
    vm_compute. discriminate.
Defined.

(** The first revision's normalizer lands in its vocabulary and is
    idempotent: every value it returns is a fixed point. *)
Theorem v1_normalizeFormType_idempotent (type : string) :
  In (AnalyzeV1.normalizeFormType type) AnalyzeV1.FORM_TYPE_VALUES
  /\ AnalyzeV1.normalizeFormType (AnalyzeV1.normalizeFormType type)
     = AnalyzeV1.normalizeFormType type.
Proof.
  assert (Hin : In (AnalyzeV1.normalizeFormType type) AnalyzeV1.FORM_TYPE_VALUES).
  { unfold AnalyzeV1.normalizeFormType, AnalyzeV1.FORM_TYPE_VALUES.
    split_rules; simpl; tauto. }
  split; [exact Hin|].
  unfold AnalyzeV1.FORM_TYPE_VALUES in Hin. simpl in Hin.
  repeat (destruct Hin as [<- | Hin]; [reflexivity|]).
  contradiction.
Qed.

(** The comparator's normalizer is idempotent. *)
Theorem eval_normalizeFormType_idempotent (type : string) :
  Eval.normalizeFormType (Eval.normalizeFormType type) = Eval.normalizeFormType type.
Proof.
  unfold Eval.normalizeFormType at 2 3.
  destruct (JS.truthy type) eqn:Htruthy; simpl; [|reflexivity].
  destruct (JS.includes (JS.trim (JS.toLowerCase type)) "fillable") eqn:Hf; [reflexivity|].
  destruct (JS.includes (JS.trim (JS.toLowerCase type)) "non-fillable"
            || JS.includes (JS.trim (JS.toLowerCase type)) "nonfillable") eqn:Hn.
  { apply eval_second_rule_is_shadowed in Hn. congruence. }
  destruct (String.eqb (JS.trim (JS.toLowerCase type)) "n/a"
            || String.eqb (JS.trim (JS.toLowerCase type)) "na") eqn:Hna; [reflexivity|].
  unfold Eval.normalizeFormType. rewrite Htruthy. simpl. now rewrite Hf, Hn, Hna.
Qed.

Section NormalizerEdges.
Context {NUM : JSNumber}.

(** [normalizeResponse] throws in two cases only: the reply is [null], or
    its form type is a truthy value that is not a string. *)
Theorem normalizeResponse_throws_iff (parsed : value) (e : string) :
  Analyze.normalizeResponse parsed = Throw e <->
  (parsed = JNull /\ e = "Cannot read properties of null (reading 'sensitiveInfo')")
  \/ (unusableFormType parsed /\ e = "type.toLowerCase is not a function").
Proof.
  unfold unusableFormType. split.
  - destruct parsed as [|b|n|s|items|props]; try (intros H; discriminate H).
    + intros H. left. split; [reflexivity|]. vm_compute in H. now injection H as <-.
    + intros H. right.
      unfold Analyze.normalizeResponse in H. simpl in H.
      unfold Analyze.normalizeFormTypeOf in H.
      destruct (lookup "formType" props) as [v|] eqn:Hv; [|discriminate H].
      destruct (Boolean (Some v)) eqn:Hb; [|discriminate H].
      destruct v; try discriminate H; simpl in H; injection H as <-;
        (split; [exists props; eexists; repeat split; [eassumption..|discriminate] | reflexivity]).
  - intros [[-> ->] | [(props & v & -> & Hv & Hb & Hns) ->]]; [reflexivity|].
    unfold Analyze.normalizeResponse. simpl.
    unfold Analyze.normalizeFormTypeOf. rewrite Hv, Hb. simpl.
    destruct v; try reflexivity. exfalso. now apply (Hns s).
Qed.

(** A reply that is not [null] and holds none of the fields read (an empty
    object, but also a number, a string or an array) is not rejected: it
    gives the record of a document that is not a form, with confidence 0.5. *)
Theorem normalizeResponse_of_fieldless_reply (parsed : value) :
  parsed <> JNull ->
  (forall props key, parsed = JObj props ->
     In key [ "isForm"; "formType"; "sensitiveInfo"; "confidence"; "pageCount"; "notes" ] ->
     lookup key props = None) ->
  Analyze.normalizeResponse parsed = Ok defaultFragment.
Proof.
  intros Hnull Hkeys.
  destruct parsed as [|b|n|s|items|props]; try reflexivity; [congruence|].
  unfold Analyze.normalizeResponse. simpl.
  rewrite !(Hkeys props _ eq_refl) by (simpl; tauto).
  reflexivity.
Qed.

(** The fragment of a reply object is well formed whatever the object
    holds: [isForm] is "Yes" for the exact string "Yes" and "No" otherwise,
    the form type is in the vocabulary, the flags are all false when
    [sensitiveInfo] is absent, [null] or not an object, and [confidence] and
    [pageCount] are the reply's only when they are numbers. *)
Theorem normalizeResponse_fragment (props : list (string * value)) (f : Analyze.Fragment) :
  Analyze.normalizeResponse (JObj props) = Ok f ->
  (Analyze.f_isForm f = "Yes" <-> lookup "isForm" props = Some (JStr "Yes"))
  /\ (Analyze.f_isForm f <> "Yes" -> Analyze.f_isForm f = "No")
  /\ In (Analyze.f_formType f) Analyze.FORM_TYPE_VALUES
  /\ ((forall fields, lookup "sensitiveInfo" props <> Some (JObj fields)) ->
      Analyze.f_sensitiveInfo f = noSensitiveInfo
      /\ Analyze.f_sensitiveInfoSummary f = "None")
  /\ ((forall n, lookup "confidence" props <> Some (JNum n)) ->
      Analyze.f_confidence f = num_0_5)
  /\ ((forall n, lookup "pageCount" props <> Some (JNum n)) ->
      Analyze.f_pageCount f = num_0).
Proof.
  unfold Analyze.normalizeResponse. simpl.
  destruct (Analyze.normalizeFormTypeOf (lookup "formType" props)) as [formType|e] eqn:Htype;
    simpl; [|discriminate].
  intros H. injection H as <-. simpl.
  split; [|split; [|split; [|split; [|split]]]].
  - unfold Analyze.isYes.
    destruct (lookup "isForm" props) as [[|b|n|s|items|ps]|]; try (split; discriminate).
    destruct (String.eqb_spec s "Yes") as [-> | Hne].
    + split; reflexivity.
    + split; [discriminate|]. intros H. injection H as H. contradiction.
  - destruct (Analyze.isYes (lookup "isForm" props)); [congruence | reflexivity].
  - unfold Analyze.normalizeFormTypeOf in Htype.
    destruct (Boolean (lookup "formType" props)); simpl in Htype.
    + destruct (lookup "formType" props) as [[|b|n|s|items|ps]|]; try discriminate Htype.
      injection Htype as <-. apply normalizeFormType_in_vocabulary.
    + injection Htype as <-. simpl. tauto.
  - intros Hsi.
    destruct (lookup "sensitiveInfo" props) as [[|b|n|s|items|ps]|]; simpl;
      try (split; reflexivity).
    exfalso. now apply (Hsi ps).
  - intros Hc.
    destruct (lookup "confidence" props) as [[|b|n|s|items|ps]|]; simpl; try reflexivity.
    exfalso. now apply (Hc n).
  - intros Hp.
    destruct (lookup "pageCount" props) as [[|b|n|s|items|ps]|]; simpl; try reflexivity.
    exfalso. now apply (Hp n).
Qed.

End NormalizerEdges.

Lemma normalizeResponse_throws_iff_witness :
  Analyze.normalizeResponse
    (JObj [ ("isForm", JStr "Yes"); ("formType", @JNum milliNumber 3%Z) ])
  = Throw "type.toLowerCase is not a function".
Proof.
  apply (proj2 (normalizeResponse_throws_iff _ _)). right. split; [|reflexivity].
  exists [ ("isForm", JStr "Yes"); ("formType", @JNum milliNumber 3%Z) ],
         (@JNum milliNumber 3%Z).
  repeat split. discriminate.
Defined.

Lemma normalizeResponse_of_fieldless_reply_witness :
  Analyze.normalizeResponse (JArr [ @JNum milliNumber 1%Z; JNum 2%Z ])
  = Ok defaultFragment
  /\ Analyze.normalizeResponse (JObj [ ("answer", JStr "Yes") ]) = Ok defaultFragment.
Proof.
  split.
  - apply normalizeResponse_of_fieldless_reply; [discriminate|].
    intros props key H. discriminate H.
  - apply normalizeResponse_of_fieldless_reply; [discriminate|].
    intros props key H Hin. injection H as <-. simpl in Hin.
    repeat (destruct Hin as [<- | Hin]; [reflexivity|]). contradiction.
Defined.

Lemma normalizeResponse_fragment_witness :
  Analyze.f_sensitiveInfo
    (Analyze.mkFragment "No" "MS Word document" noSensitiveInfo "None" 500%Z 0%Z
       (JStr EmptyString)) = noSensitiveInfo
  /\ Analyze.f_sensitiveInfoSummary
       (Analyze.mkFragment "No" "MS Word document" noSensitiveInfo "None" 500%Z 0%Z
          (JStr EmptyString)) = "None".
Proof.
  apply (proj1 (proj2 (proj2 (proj2
           (normalizeResponse_fragment
              [ ("isForm", JStr "yes"); ("formType", JStr "Word template");
                ("sensitiveInfo", JStr "none"); ("confidence", JStr "high") ]
              _ eq_refl))))).
  intros fields H. discriminate H.
Defined.

(** ** The oracle adapter, continued *)

Section AnalyzePdfFacts.
Context {NUM : JSNumber}.

Lemma normalizeResponse_formType (parsed : value) (f : Analyze.Fragment) :
  Analyze.normalizeResponse parsed = Ok f ->
  In (Analyze.f_formType f) Analyze.FORM_TYPE_VALUES.
Proof.
  destruct parsed as [|b|n|s|items|props];
    try (intros H; injection H as <-; simpl; tauto).
  - discriminate.
  - intros H. now apply (normalizeResponse_fragment props f H).
Qed.

(** The notes of a fragment are a truthy value of the reply or the empty
    string. *)
Lemma normalizeResponse_notes (parsed : value) (f : Analyze.Fragment) :
  Analyze.normalizeResponse parsed = Ok f ->
  Boolean (Some (Analyze.f_notes f)) = true \/ Analyze.f_notes f = JStr EmptyString.
Proof.
  destruct parsed as [|b|n|s|items|props];
    try (intros H; injection H as <-; simpl; tauto).
  - discriminate.
  - unfold Analyze.normalizeResponse. simpl.
    destruct (Analyze.normalizeFormTypeOf (lookup "formType" props)); simpl; [|discriminate].
    intros H. injection H as <-. simpl.
    unfold Analyze.orElse.
    destruct (lookup "notes" props) as [v|]; [|now right].
    destruct (Boolean (Some v)) eqn:Hb; [left; exact Hb | right; reflexivity].
Qed.

Lemma askModel_Ok (svc : Analyze.Service) (prompt : string) (file : Analyze.File)
    (f : Analyze.Fragment) :
  Analyze.askModel svc prompt file = Ok f ->
  exists parsed, Analyze.normalizeResponse parsed = Ok f.
Proof.
  unfold Analyze.askModel.
  destruct (Analyze.missing (Analyze.uri file) || Analyze.missing (Analyze.mimeType file));
    [discriminate|].
  destruct (Analyze.models_generateContent svc Analyze.MODEL _ _ prompt) as [text|e];
    cbn [bind]; [|discriminate].
  destruct (Analyze.matchFence (Analyze.orEmpty text)) as [fenced|].
  - destruct (Analyze.JSON_parse svc fenced) as [parsed|e]; cbn [bind]; [|discriminate].
    intros H. now exists parsed.
  - destruct (Analyze.matchBraces (Analyze.orEmpty text)) as [direct|]; [|discriminate].
    destruct (Analyze.JSON_parse svc direct) as [parsed|e]; cbn [bind]; [|discriminate].
    intros H. now exists parsed.
Qed.

(** What the [try] block leaves when it completes. *)
Lemma tryBlock_completes (svc : Analyze.Service) (prompt u : string)
    (r0 r : Analyze.FormAnalysis) :
  Analyze.tryBlock svc prompt u r0 = (r, Ok tt) ->
  exists file kb fragment,
    Analyze.uploadPdfFromUrl svc u = Ok (file, kb)
    /\ Analyze.askModel svc prompt file = Ok fragment
    /\ r = Analyze.assign (Analyze.setFileSizeKB r0 kb) fragment.
Proof.
  unfold Analyze.tryBlock.
  destruct (Analyze.uploadPdfFromUrl svc u) as [[file kb]|e]; [|discriminate].
  destruct (Analyze.askModel svc prompt file) as [fragment|e] eqn:Hask; [|discriminate].
  intros H. exists file, kb, fragment.
  split; [reflexivity | split; [exact Hask|]].
  destruct (Analyze.files_delete svc (Analyze.name file)); inversion H; reflexivity.
Qed.

(** The record of a document has [isForm] empty exactly when [error] is set;
    a record without an error says "Yes" or "No", has a form type of the
    vocabulary and a summary that matches its flags. *)
Theorem analyzePdf_sentinel_iff_error (svc : Analyze.Service) (prompt u : string) :
  (Analyze.isForm (Analyze.analyzePdf svc prompt u) = EmptyString <->
   Analyze.error (Analyze.analyzePdf svc prompt u) <> None)
  /\ (Analyze.error (Analyze.analyzePdf svc prompt u) = None ->
      (Analyze.isForm (Analyze.analyzePdf svc prompt u) = "Yes"
       \/ Analyze.isForm (Analyze.analyzePdf svc prompt u) = "No")
      /\ In (Analyze.formType (Analyze.analyzePdf svc prompt u)) Analyze.FORM_TYPE_VALUES
      /\ Analyze.sensitiveInfoSummary (Analyze.analyzePdf svc prompt u)
         = summaryOfFlags (Analyze.sensitiveInfo (Analyze.analyzePdf svc prompt u))).
Proof.
  unfold Analyze.analyzePdf.
  destruct (Analyze.tryBlock svc prompt u (Analyze.initialResult u)) as [r outcome] eqn:Htry.
  destruct outcome as [[]|e].
  - destruct (tryBlock_completes _ _ _ _ _ Htry) as (file & kb & fragment & _ & Hask & ->).
    destruct (askModel_Ok _ _ _ _ Hask) as [parsed Hparsed].
    destruct (normalizeResponse_Ok parsed fragment Hparsed) as [Hsummary HisForm].
    pose proof (normalizeResponse_formType parsed fragment Hparsed) as Htype.
    simpl. split.
    + split; [|congruence]. intros E. rewrite E in HisForm.
      destruct HisForm; discriminate.
    + intros _. repeat split; assumption.
  - destruct (tryBlock_preserves _ _ _ _ _ _ Htry) as (_ & _ & Hkept).
    destruct (Hkept e eq_refl) as [HisForm _]. simpl.
    split; [|discriminate]. split; [discriminate | intros _; exact HisForm].
Qed.

(** A failed record keeps the initial form type, summary, confidence and page
    count; its file size is the size the upload step reported when that step
    succeeded before the failure (which may itself be 0, for a small
    download), and the initial 0 when the upload step itself failed. *)
Theorem analyzePdf_failed_record_fields (svc : Analyze.Service) (prompt u e : string) :
  throws svc prompt u e ->
  Analyze.formType (Analyze.analyzePdf svc prompt u) = "N/A"
  /\ Analyze.sensitiveInfoSummary (Analyze.analyzePdf svc prompt u) = EmptyString
  /\ Analyze.confidence (Analyze.analyzePdf svc prompt u) = num_0
  /\ Analyze.pageCount (Analyze.analyzePdf svc prompt u) = num_0
  /\ (forall file kb, Analyze.uploadPdfFromUrl svc u = Ok (file, kb) ->
        Analyze.fileSizeKB (Analyze.analyzePdf svc prompt u) = kb)
  /\ (forall e', Analyze.uploadPdfFromUrl svc u = Throw e' ->
        e' = e /\ Analyze.fileSizeKB (Analyze.analyzePdf svc prompt u) = 0).
Proof.
  unfold throws, Analyze.analyzePdf, Analyze.tryBlock.
  destruct (Analyze.uploadPdfFromUrl svc u) as [[file kb]|e0].
  - destruct (Analyze.askModel svc prompt file) as [fragment|e1].
    + destruct (Analyze.files_delete svc (Analyze.name file)); discriminate.
    + simpl. intros H. injection H as <-. repeat split.
      * intros file' kb' H. now injection H as _ <-.
      * discriminate.
      * discriminate.
  - simpl. intros H. injection H as <-. repeat split; try discriminate; congruence.
Qed.

Lemma waitForProcessing_withDelete (svc : Analyze.Service)
    (delete : option string -> result unit) (fileName : option string)
    (remaining attempts : nat) (getFile : Analyze.File) :
  Analyze.waitForProcessing (withDelete svc delete) fileName remaining attempts getFile
  = Analyze.waitForProcessing svc fileName remaining attempts getFile.
Proof.
  revert attempts getFile. induction remaining as [|remaining IH]; intros; simpl;
    [reflexivity|].
  destruct (Analyze.strictEq (Analyze.state getFile) "PROCESSING"); [|reflexivity].
  destruct (Analyze.files_get svc (S attempts) fileName); simpl; [apply IH | reflexivity].
Qed.

(** The outcome of deleting the uploaded file never shows in the record. *)
Theorem analyzePdf_ignores_delete (svc : Analyze.Service)
    (delete : option string -> result unit) (prompt u : string) :
  Analyze.analyzePdf (withDelete svc delete) prompt u = Analyze.analyzePdf svc prompt u.
Proof.
  assert (Hup : Analyze.uploadPdfFromUrl (withDelete svc delete) u
                = Analyze.uploadPdfFromUrl svc u).
  { unfold Analyze.uploadPdfFromUrl, Analyze.uploadAndPoll.
    change (Analyze.fetch (withDelete svc delete)) with (Analyze.fetch svc).
    change (Analyze.URL_pathname (withDelete svc delete)) with (Analyze.URL_pathname svc).
    change (Analyze.files_upload (withDelete svc delete)) with (Analyze.files_upload svc).
    change (Analyze.files_get (withDelete svc delete)) with (Analyze.files_get svc).
    destruct (Analyze.fetch svc u) as [response|]; cbn [bind]; [|reflexivity].
    destruct (Analyze.ok response); cbn [negb]; [|reflexivity].
    destruct (Analyze.arrayBuffer response); cbn [bind]; [|reflexivity].
    destruct (Analyze.URL_pathname svc u); cbn [bind]; [|reflexivity].
    destruct (Analyze.files_upload svc _ _); cbn [bind]; [|reflexivity].
    destruct (Analyze.files_get svc 0 _); cbn [bind]; [|reflexivity].
    now rewrite waitForProcessing_withDelete. }
  unfold Analyze.analyzePdf, Analyze.tryBlock. rewrite Hup.
  destruct (Analyze.uploadPdfFromUrl svc u) as [[file kb]|e]; [|reflexivity].
  change (Analyze.askModel (withDelete svc delete) prompt file)
    with (Analyze.askModel svc prompt file).
  destruct (Analyze.askModel svc prompt file); [|reflexivity].
  simpl. destruct (delete (Analyze.name file));
    destruct (Analyze.files_delete svc (Analyze.name file)); reflexivity.
Qed.

(** When the upload step returns, the download had an OK status, the size
    reported is the byte length divided by 1024 and rounded to the nearest
    integer, and the file returned is not in state "FAILED". *)
Theorem uploadPdfFromUrl_returns (svc : Analyze.Service) (u : string)
    (file : Analyze.File) (kb : nat) :
  Analyze.uploadPdfFromUrl svc u = Ok (file, kb) ->
  exists response byteLength,
    Analyze.fetch svc u = Ok response
    /\ Analyze.ok response = true
    /\ Analyze.arrayBuffer response = Ok byteLength
    /\ 1024 * kb <= byteLength + 512 < 1024 * (kb + 1)
    /\ Analyze.strictEq (Analyze.state file) "FAILED" = false.
Proof.
  unfold Analyze.uploadPdfFromUrl, Analyze.uploadAndPoll.
  destruct (Analyze.fetch svc u) as [response|]; cbn [bind]; [|discriminate].
  destruct (Analyze.ok response) eqn:Hok; cbn [negb bind]; [|discriminate].
  destruct (Analyze.arrayBuffer response) as [len|] eqn:Hlen; cbn [bind]; [|discriminate].
  destruct (Analyze.URL_pathname svc u); cbn [bind]; [|discriminate].
  destruct (Analyze.files_upload svc _ _) as [up|]; cbn [bind]; [|discriminate].
  destruct (Analyze.files_get svc 0 _) as [first|]; cbn [bind]; [|discriminate].
  destruct (Analyze.waitForProcessing svc (Analyze.name up) Analyze.MAX_ATTEMPTS 0 first)
    as [[last n]|]; cbn [bind]; [|discriminate].
  destruct (Analyze.strictEq (Analyze.state last) "FAILED") eqn:Hstate; [discriminate|].
  intros H. injection H as <- <-.
  change (fst (Nat.divmod (len + 512) 1023 0 1023)) with ((len + 512) / 1024).
  exists response, len. repeat split; try assumption.
  - apply Nat.Div0.mul_div_le.
  - pose proof (Nat.mul_succ_div_gt (len + 512) 1024). lia.
Qed.

End AnalyzePdfFacts.

Lemma analyzePdf_failed_record_fields_witness :
  Analyze.formType (Analyze.analyzePdf notFoundWorld "prompt" "https://x.test/a.pdf") = "N/A"
  /\ Analyze.fileSizeKB (Analyze.analyzePdf notFoundWorld "prompt" "https://x.test/a.pdf") = 0.
Proof.
  destruct (analyzePdf_failed_record_fields notFoundWorld "prompt" "https://x.test/a.pdf"
              "Failed to download: 404 Not Found" eq_refl)
    as (Htype & _ & _ & _ & _ & Hsize).
  split; [exact Htype|].
  exact (proj2 (Hsize "Failed to download: 404 Not Found" eq_refl)).
Defined.

Lemma uploadPdfFromUrl_returns_witness :
  exists response byteLength,
    Analyze.fetch happyWorld "https://x.test/forms/a.pdf" = Ok response
    /\ Analyze.ok response = true
    /\ Analyze.arrayBuffer response = Ok byteLength
    /\ 1024 * 2 <= byteLength + 512 < 1024 * (2 + 1)
    /\ Analyze.strictEq (Analyze.state activeFile) "FAILED" = false.
Proof.
  apply (uploadPdfFromUrl_returns happyWorld "https://x.test/forms/a.pdf" activeFile 2).
  reflexivity.
Defined.

Lemma analyzePdf_sentinel_iff_error_witness :
  (Analyze.isForm (Analyze.analyzePdf happyWorld "prompt" "https://x.test/forms/a.pdf") = "Yes"
   \/ Analyze.isForm (Analyze.analyzePdf happyWorld "prompt" "https://x.test/forms/a.pdf") = "No")
  /\ In (Analyze.formType (Analyze.analyzePdf happyWorld "prompt" "https://x.test/forms/a.pdf"))
        Analyze.FORM_TYPE_VALUES
  /\ Analyze.sensitiveInfoSummary
       (Analyze.analyzePdf happyWorld "prompt" "https://x.test/forms/a.pdf")
     = summaryOfFlags
         (Analyze.sensitiveInfo
            (Analyze.analyzePdf happyWorld "prompt" "https://x.test/forms/a.pdf")).
Proof.
  apply (proj2 (analyzePdf_sentinel_iff_error happyWorld "prompt" "https://x.test/forms/a.pdf")).
  reflexivity.
Defined.

(** ** The batch loop *)

Section Batch.
Context {NUM : JSNumber}.

(** The notes of a record are a truthy value or the empty string. *)
Lemma analyzePdf_notes (svc : Analyze.Service) (prompt u : string) :
  Boolean (Some (Analyze.notes (Analyze.analyzePdf svc prompt u))) = true
  \/ Analyze.notes (Analyze.analyzePdf svc prompt u) = JStr EmptyString.
Proof.
  unfold Analyze.analyzePdf.
  destruct (Analyze.tryBlock svc prompt u (Analyze.initialResult u)) as [r outcome] eqn:Htry.
  destruct outcome as [[]|e]; simpl.
  - destruct (tryBlock_completes _ _ _ _ _ Htry) as (file & kb & fragment & _ & Hask & ->).
    destruct (askModel_Ok _ _ _ _ Hask) as [parsed Hparsed].
    simpl. exact (normalizeResponse_notes parsed fragment Hparsed).
  - left. reflexivity.
Qed.

Lemma logNotes_analyzePdf (svc : Analyze.Service) (prompt u : string) :
  Analyze.logNotes (Analyze.analyzePdf svc prompt u)
  = if hasStringNotes (Analyze.analyzePdf svc prompt u) then Ok tt
    else Throw "result.notes.substring is not a function".
Proof.
  unfold Analyze.logNotes, hasStringNotes.
  destruct (analyzePdf_notes svc prompt u) as [Htruthy | Hempty].
  - rewrite Htruthy.
    destruct (Analyze.notes (Analyze.analyzePdf svc prompt u)); reflexivity.
  - rewrite Hempty. reflexivity.
Qed.

Lemma analyzeAllFrom_outcome (world : nat -> Analyze.Service) (prompt : string)
    (urls : list string) (i : nat) (results : list Analyze.FormAnalysis) :
  Analyze.analyzeAllFrom world prompt i urls results
  = if forallb hasStringNotes (batchRecords world prompt i urls)
    then Ok (results ++ batchRecords world prompt i urls)%list
    else Throw "result.notes.substring is not a function".
Proof.
  revert i results. induction urls as [|raw rest IH]; intros i results.
  - simpl. now rewrite app_nil_r.
  - cbn [Analyze.analyzeAllFrom batchRecords].
    destruct (JS.truthy (JS.trim raw)); cbn [negb]; [|apply IH].
    rewrite logNotes_analyzePdf. cbn [forallb].
    destruct (hasStringNotes (Analyze.analyzePdf (world i) prompt (JS.trim raw)));
      cbn [bind andb]; [|reflexivity].
    rewrite IH, <- app_assoc. reflexivity.
Qed.

Lemma batchRecords_urls (world : nat -> Analyze.Service) (prompt : string)
    (urls : list string) (i : nat) :
  map Analyze.url (batchRecords world prompt i urls)
  = filter JS.truthy (map JS.trim urls).
Proof.
  revert i. induction urls as [|raw rest IH]; intros i; [reflexivity|].
  cbn [batchRecords map filter].
  destruct (JS.truthy (JS.trim raw)); [|apply IH].
  cbn [map]. now rewrite analyzePdf_url, IH.
Qed.

(** The batch has two outcomes.  It returns the records of all URLs that
    are not blank, in order and under the trimmed URL, when every record has
    string notes; failed documents always do.  It throws, and returns no
    record at all, as soon as one reply carried truthy notes that are not a
    string. *)
Theorem analyzeAll_outcome (world : nat -> Analyze.Service) (prompt : string)
    (urls : list string) :
  Analyze.analyzeAll world prompt urls
  = (if forallb hasStringNotes (batchRecords world prompt 0 urls)
     then Ok (batchRecords world prompt 0 urls)
     else Throw "result.notes.substring is not a function")
  /\ map Analyze.url (batchRecords world prompt 0 urls)
     = filter JS.truthy (map JS.trim urls)
  /\ (forall r, In r (batchRecords world prompt 0 urls) ->
        Analyze.error r <> None -> hasStringNotes r = true).
Proof.
  split; [|split].
  - unfold Analyze.analyzeAll. now rewrite analyzeAllFrom_outcome.
  - apply batchRecords_urls.
  - generalize 0. induction urls as [|raw rest IH]; intros i r Hin Herr; [contradiction|].
    cbn [batchRecords] in Hin.
    destruct (JS.truthy (JS.trim raw)); [|now apply (IH (S i))].
    destruct Hin as [<- | Hin]; [|now apply (IH (S i))].
    pose proof (logNotes_of_failed _ _ _ Herr) as Hlog.
    rewrite logNotes_analyzePdf in Hlog.
    destruct (hasStringNotes (Analyze.analyzePdf (world i) prompt (JS.trim raw)));
      [reflexivity | discriminate].
Qed.

End Batch.

(** ** The input reader, continued *)

Lemma fold_csvStep (matchPdfUrls : string -> list string) (lines urls : list string) :
  fold_left (Analyze.csvStep matchPdfUrls) lines urls
  = (urls ++ flat_map matchPdfUrls lines)%list.
Proof.
  revert urls. induction lines as [|line lines IH]; intros urls; simpl.
  - now rewrite app_nil_r.
  - rewrite IH. unfold Analyze.csvStep. now rewrite <- app_assoc.
Qed.

(** Whatever the file type, the reader returns no URL twice.  For a file
    that is not [.txt] it returns exactly the URLs the pattern finds in some
    line; for a [.txt] file every URL returned is non-empty, has no white
    space at either end and does not start with a hash sign. *)
Theorem readUrlsFromFile_result (matchPdfUrls : string -> list string)
    (filePath content : string) :
  NoDup (Analyze.readUrlsFromFile matchPdfUrls filePath content)
  /\ (JS.endsWith (JS.toLowerCase filePath) ".txt" = false ->
      forall u, In u (Analyze.readUrlsFromFile matchPdfUrls filePath content) <->
                exists line, In line (JS.split LF content) /\ In u (matchPdfUrls line))
  /\ (JS.endsWith (JS.toLowerCase filePath) ".txt" = true ->
      forall u, In u (Analyze.readUrlsFromFile matchPdfUrls filePath content) ->
                JS.truthy u = true /\ isTrimmed u /\ JS.startsWith u "#" = false).
Proof.
  unfold Analyze.readUrlsFromFile.
  destruct (JS.endsWith (JS.toLowerCase filePath) ".txt");
    rewrite fold_setAdd; simpl app.
  - split; [apply firstOccurrences_NoDup|]. split; [discriminate|].
    intros _ u Hu. apply firstOccurrences_In in Hu as [Hu _].
    rewrite fold_txtStep in Hu. simpl in Hu.
    apply filter_In in Hu as [Hline Hkeep].
    apply andb_true_iff in Hkeep as [Htruthy Hhash].
    apply in_map_iff in Hline as (line & <- & _).
    repeat split; [assumption | apply trim_idempotent | now apply negb_true_iff].
  - split; [apply firstOccurrences_NoDup|]. split; [|discriminate].
    intros _ u. rewrite firstOccurrences_In, fold_csvStep. simpl.
    rewrite in_flat_map. tauto.
Qed.

Lemma readUrlsFromFile_result_witness :
  forallb (fun u => JS.truthy u)
          (Analyze.readUrlsFromFile (fun _ => []) "in.txt"
             ("  a.pdf  " ++ newline ++ "#x" ++ newline ++ "   ")) = true.
Proof.
  apply forallb_forall. intros u Hu.
  apply (proj2 (proj2 (readUrlsFromFile_result (fun _ => []) "in.txt" _)) eq_refl u Hu).
Defined.

(** The URLs of a [.txt] file go through the batch loop unchanged: when the
    batch returns, each URL read has one record, under the URL as it was
    read. *)
Theorem batch_of_txt_file {NUM : JSNumber} (world : nat -> Analyze.Service)
    (prompt : string) (matchPdfUrls : string -> list string) (filePath content : string)
    (records : list Analyze.FormAnalysis) :
  JS.endsWith (JS.toLowerCase filePath) ".txt" = true ->
  Analyze.analyzeAll world prompt
    (Analyze.readUrlsFromFile matchPdfUrls filePath content) = Ok records ->
  map Analyze.url records = Analyze.readUrlsFromFile matchPdfUrls filePath content.
Proof.
  intros Htxt Hrun.
  rewrite (proj1 (analyzeAll_outcome world prompt _)) in Hrun.
  destruct (forallb hasStringNotes _) in Hrun; [|discriminate].
  injection Hrun as <-. rewrite batchRecords_urls.
  pose proof (proj2 (proj2 (readUrlsFromFile_result matchPdfUrls filePath content)) Htxt)
    as Hall.
  induction (Analyze.readUrlsFromFile matchPdfUrls filePath content) as [|u l IH];
    [reflexivity|].
  destruct (Hall u (or_introl eq_refl)) as (Htruthy & Htrim & _).
  cbn [map filter]. unfold isTrimmed in Htrim. rewrite Htrim, Htruthy.
  f_equal. apply IH. intros v Hv. apply Hall. now right.
Qed.

Lemma batch_of_txt_file_witness :
  map Analyze.url
    (batchRecords (fun _ => notFoundWorld) "prompt" 0
       (Analyze.readUrlsFromFile (fun _ => []) "in.txt" exampleLines))
  = Analyze.readUrlsFromFile (fun _ => []) "in.txt" exampleLines.
Proof.
  apply (batch_of_txt_file (fun _ => notFoundWorld) "prompt" (fun _ => []) "in.txt"
           exampleLines _ eq_refl).
  reflexivity.
Defined.

Lemma analyzeAll_outcome_witness :
  hasStringNotes (Analyze.analyzePdf notFoundWorld "prompt" "https://x.test/a.pdf") = true.
Proof.
  apply (proj2 (proj2 (analyzeAll_outcome (fun _ => notFoundWorld) "prompt"
                         [ " https://x.test/a.pdf"; " " ]))).
  - left. reflexivity.
  - discriminate.
Defined.

(** ** The report writers *)

Lemma append_empty_r (s : string) : s ++ EmptyString = s.
Proof. induction s as [|c s IH]; simpl; [reflexivity | now rewrite IH]. Qed.

Lemma append_char_assoc (a : string) (c : ascii) (b : string) :
  (a ++ String c EmptyString) ++ b = a ++ String c b.
Proof. now rewrite append_assoc. Qed.

Lemma escapeField_plain (cell : string) : plain cell -> Analyze.escapeField cell = cell.
Proof.
  unfold plain. intros H. unfold Analyze.escapeField.
  destruct (JS.includes cell "," || JS.includes cell quote
            || JS.includes cell newline
            || JS.includes cell (String CR EmptyString)) eqn:E; [|reflexivity].
  exfalso. apply H. now apply needsQuoting_test.
Qed.

Lemma escapeField_quoted (cell : string) :
  needsQuoting cell ->
  Analyze.escapeField cell
  = String DQUOTE (JS.replaceAll DQUOTE (quote ++ quote) cell ++ quote).
Proof.
  intros H. apply needsQuoting_test in H. unfold Analyze.escapeField. now rewrite H.
Qed.

Lemma needsQuoting_dec (cell : string) : needsQuoting cell \/ plain cell.
Proof.
  unfold plain.
  destruct (JS.includes cell "," || JS.includes cell quote
            || JS.includes cell newline
            || JS.includes cell (String CR EmptyString)) eqn:E.
  - left. now apply needsQuoting_test.
  - right. intros H. apply needsQuoting_test in H. congruence.
Qed.

(** Outside quotes the reader copies everything up to the next comma. *)
Lemma csvFields_unquoted (cell field tail : string) :
  ~ In COMMA (list_ascii_of_string cell) ->
  csvFields Unquoted field (cell ++ tail) = csvFields Unquoted (field ++ cell) tail.
Proof.
  revert field. induction cell as [|c cell IH]; intros field Hc.
  - simpl. now rewrite append_empty_r.
  - simpl in Hc. cbn [append csvFields].
    destruct (Ascii.eqb_spec c COMMA) as [-> | Hne]; [exfalso; apply Hc; now left|].
    rewrite IH by tauto. now rewrite append_char_assoc.
Qed.

(** Inside quotes it copies up to the closing quote, reading each doubled
    quote as one. *)
Lemma csvFields_quoted (cell field tail : string) :
  csvFields Quoted field (JS.replaceAll DQUOTE (quote ++ quote) cell ++ quote ++ tail)
  = csvFields QuoteSeen (field ++ cell) tail.
Proof.
  revert field. induction cell as [|c cell IH]; intros field.
  - cbn. now rewrite append_empty_r.
  - cbn [JS.replaceAll]. destruct (Ascii.eqb_spec c DQUOTE) as [-> | Hne].
    + change ((quote ++ quote) ++ JS.replaceAll DQUOTE (quote ++ quote) cell)
        with (String DQUOTE (String DQUOTE (JS.replaceAll DQUOTE (quote ++ quote) cell))).
      cbn [append csvFields]. rewrite !Ascii.eqb_refl.
      rewrite IH. unfold quote. now rewrite append_char_assoc.
    + cbn [append csvFields].
      apply Ascii.eqb_neq in Hne. rewrite Hne.
      rewrite IH. now rewrite append_char_assoc.
Qed.

Lemma csvFields_one_field (cell tail : string) :
  tail = EmptyString \/ (exists more, tail = String COMMA more) ->
  csvFields FieldStart EmptyString (Analyze.escapeField cell ++ tail)
  = cell :: afterField tail.
Proof.
  intros Htail.
  destruct (needsQuoting_dec cell) as [Hq | Hp].
  - rewrite (escapeField_quoted cell Hq).
    cbn [append csvFields]. rewrite Ascii.eqb_refl.
    rewrite append_assoc, csvFields_quoted. cbn [append].
    destruct Htail as [-> | [more ->]]; [reflexivity|].
    cbn [csvFields afterField]. reflexivity.
  - rewrite (escapeField_plain cell Hp).
    assert (Hcomma : ~ In COMMA (list_ascii_of_string cell)).
    { intros H. apply Hp. now left. }
    destruct cell as [|c cell].
    + cbn [append]. destruct Htail as [-> | [more ->]]; reflexivity.
    + cbn [append csvFields].
      destruct (Ascii.eqb_spec c DQUOTE) as [-> | _].
      { exfalso. apply Hp. right; left. simpl. now left. }
      destruct (Ascii.eqb_spec c COMMA) as [-> | _].
      { exfalso. apply Hcomma. simpl. now left. }
      rewrite csvFields_unquoted by (simpl in Hcomma; tauto).
      destruct Htail as [-> | [more ->]]; [reflexivity|].
      cbn [csvFields afterField]. reflexivity.
Qed.

(** A record written as escaped cells joined by commas reads back as the
    cells, whatever they contain: commas, quotes and line breaks included. *)
Theorem csv_record_round_trip (cells : list string) :
  cells <> [] ->
  csvReadRecord (JS.join "," (map Analyze.escapeField cells)) = cells.
Proof.
  unfold csvReadRecord.
  induction cells as [|cell rest IH]; [congruence|]. intros _.
  destruct rest as [|next rest].
  - cbn [map JS.join].
    rewrite <- (append_empty_r (Analyze.escapeField cell)).
    rewrite csvFields_one_field by now left. reflexivity.
  - change (JS.join "," (map Analyze.escapeField (cell :: next :: rest)))
      with (Analyze.escapeField cell
            ++ String COMMA (JS.join "," (map Analyze.escapeField (next :: rest)))).
    rewrite csvFields_one_field by (right; now eexists).
    cbn [afterField]. rewrite IH by discriminate. reflexivity.
Qed.

Lemma csv_record_round_trip_witness :
  csvReadRecord
    (JS.join "," (map Analyze.escapeField
                    [ "a,b"; EmptyString; "say " ++ quote ++ "hi" ++ quote; "x" ++ newline ]))
  = [ "a,b"; EmptyString; "say " ++ quote ++ "hi" ++ quote; "x" ++ newline ].
Proof. apply csv_record_round_trip. discriminate. Defined.

Lemma string_of_uint_plain (d : Decimal.uint) : plain (NilEmpty.string_of_uint d).
Proof.
  unfold plain, needsQuoting.
  induction d; simpl; intros H;
    repeat (destruct H as [H | H]);
    try discriminate H; try contradiction;
    apply IHd; tauto.
Qed.

Lemma stringOfNat_plain (n : nat) : plain (Analyze.stringOfNat n).
Proof. apply string_of_uint_plain. Qed.

Lemma stringOfZ_plain (z : Z) : plain (Analyze.stringOfZ z).
Proof.
  unfold Analyze.stringOfZ, NilZero.string_of_int, NilZero.string_of_uint.
  destruct (Z.to_int z) as [d|d].
  - destruct d; try apply string_of_uint_plain.
    unfold plain, needsQuoting. simpl. intuition discriminate.
  - assert (Hd : plain (match d with
                        | Decimal.Nil => "0"
                        | _ => NilEmpty.string_of_uint d
                        end)).
    { destruct d; try apply string_of_uint_plain.
      unfold plain, needsQuoting. simpl. intuition discriminate. }
    revert Hd. unfold plain, needsQuoting. simpl. intros Hd H. apply Hd.
    repeat (destruct H as [H | H]); try discriminate H; tauto.
Qed.

Lemma vocabulary_plain (t : string) : In t Analyze.FORM_TYPE_VALUES -> plain t.
Proof.
  unfold Analyze.FORM_TYPE_VALUES. simpl. intros H.
  repeat (destruct H as [<- | H];
          [unfold plain, needsQuoting; simpl; intuition discriminate|]).
  contradiction.
Qed.

Lemma analyzePdf_error_throws {NUM : JSNumber} (svc : Analyze.Service)
    (prompt u e : string) :
  Analyze.error (Analyze.analyzePdf svc prompt u) = Some e -> throws svc prompt u e.
Proof.
  unfold throws, Analyze.analyzePdf.
  destruct (Analyze.tryBlock svc prompt u (Analyze.initialResult u))
    as [r outcome] eqn:Htry.
  destruct (tryBlock_preserves _ _ _ _ _ _ Htry) as (Hsame & _ & _).
  destruct outcome as [[]|e']; simpl.
  - rewrite Hsame. discriminate.
  - now intros [= ->].
Qed.

Section ReportRows.
Context {NUM : JSNumber}.
Variables toFixed2 numberToString : number -> string.
Variable below0_7 : number -> bool.

(** A row whose unescaped cells hold no comma, quote or line break reads
    back as the cells of the record. *)
Lemma csvRow_reads_back (modelName notesOrEmpty : string) (r : Analyze.FormAnalysis) :
  Analyze.notes r = JStr notesOrEmpty ->
  plain (Analyze.isForm r) -> plain (Analyze.formType r) -> plain modelName ->
  plain (toFixed2 (Analyze.confidence r)) ->
  plain (numberToString (Analyze.pageCount r)) ->
  exists row,
    Analyze.csvRow toFixed2 numberToString below0_7 modelName r = Some row
    /\ csvReadRecord (JS.join "," row)
       = rawCells toFixed2 numberToString below0_7 modelName notesOrEmpty r.
Proof.
  intros Hnotes HisForm Htype Hmodel Hconf Hpages.
  unfold Analyze.csvRow, Analyze.notesText. rewrite Hnotes.
  eexists. split; [reflexivity|].
  rewrite <- (csv_record_round_trip
                (rawCells toFixed2 numberToString below0_7 modelName notesOrEmpty r))
    by discriminate.
  f_equal. unfold rawCells. cbn [map]. f_equal.
  rewrite !(escapeField_plain _ HisForm), !(escapeField_plain _ Htype),
          !(escapeField_plain _ Hmodel), !(escapeField_plain _ Hconf),
          !(escapeField_plain _ Hpages),
          !(escapeField_plain _ (stringOfNat_plain _)),
          !(escapeField_plain _ (stringOfZ_plain _)).
  assert (HyesNo : forall b, Analyze.escapeField (Analyze.yesNo b) = Analyze.yesNo b)
    by (intros []; reflexivity).
  rewrite !HyesNo.
  destruct (negb (String.eqb (Analyze.sensitiveInfoSummary r) "None"));
    destruct (below0_7 (Analyze.confidence r)); reflexivity.
Qed.

(** Every record [analyzePdf] returns with string notes gives a CSV row that
    reads back as its 18 cells, one for each header, provided the model name
    and the renderings of the two numbers hold no comma, quote or line
    break. *)
Theorem report_row_reads_back (svc : Analyze.Service) (prompt u modelName : string) :
  hasStringNotes (Analyze.analyzePdf svc prompt u) = true ->
  plain modelName ->
  (forall n, plain (toFixed2 n)) -> (forall n, plain (numberToString n)) ->
  exists row notesOrEmpty,
    Analyze.csvRow toFixed2 numberToString below0_7 modelName
      (Analyze.analyzePdf svc prompt u) = Some row
    /\ Analyze.notes (Analyze.analyzePdf svc prompt u) = JStr notesOrEmpty
    /\ csvReadRecord (JS.join "," row)
       = rawCells toFixed2 numberToString below0_7 modelName notesOrEmpty
           (Analyze.analyzePdf svc prompt u)
    /\ List.length (csvReadRecord (JS.join "," row)) = List.length Analyze.HEADERS.
Proof.
  intros Hnotes Hmodel Hfixed Hstring.
  set (r := Analyze.analyzePdf svc prompt u) in *.
  unfold hasStringNotes in Hnotes.
  destruct (Analyze.notes r) as [| | |notesOrEmpty| |] eqn:Hn; try discriminate Hnotes.
  assert (HisForm : plain (Analyze.isForm r)).
  { destruct (Analyze.error r) as [e|] eqn:He.
    - assert (Hne : Analyze.error r <> None) by congruence.
      apply (proj1 (analyzePdf_sentinel_iff_error svc prompt u)) in Hne.
      fold r in Hne. rewrite Hne. unfold plain, needsQuoting. simpl. tauto.
    - destruct (proj2 (analyzePdf_sentinel_iff_error svc prompt u) He) as ([H | H] & _);
        fold r in H; rewrite H; unfold plain, needsQuoting; simpl; intuition discriminate. }
  assert (Htype : plain (Analyze.formType r)).
  { destruct (Analyze.error r) as [e|] eqn:He.
    - assert (Hthrows := analyzePdf_error_throws svc prompt u e He).
      destruct (analyzePdf_failed_record_fields svc prompt u e Hthrows) as (H & _).
      fold r in H. rewrite H. unfold plain, needsQuoting. simpl. intuition discriminate.
    - apply vocabulary_plain.
      exact (proj1 (proj2 (proj2 (analyzePdf_sentinel_iff_error svc prompt u) He))). }
  destruct (csvRow_reads_back modelName notesOrEmpty r Hn HisForm Htype Hmodel
              (Hfixed _) (Hstring _)) as (row & Hrow & Hread).
  exists row, notesOrEmpty. repeat split; try assumption.
  rewrite Hread. reflexivity.
Qed.

(** The column that answers whether the form asks for sensitive data tests
    the summary against "None".  For a record without an error it says "Yes"
    exactly when some flag is set.  For a failed record the summary is still
    empty, so the column says "Yes" while the five flag columns all say
    "No". *)
Theorem report_sensitive_column (svc : Analyze.Service) (prompt u modelName : string)
    (row : list string) :
  Analyze.csvRow toFixed2 numberToString below0_7 modelName
    (Analyze.analyzePdf svc prompt u) = Some row ->
  (Analyze.error (Analyze.analyzePdf svc prompt u) = None ->
   (nth 3 row EmptyString = "Yes" <->
    ~ allFlagsFalse (Analyze.sensitiveInfo (Analyze.analyzePdf svc prompt u))))
  /\ (Analyze.error (Analyze.analyzePdf svc prompt u) <> None ->
      nth 3 row EmptyString = "Yes"
      /\ map (fun i => nth i row EmptyString) [11; 12; 13; 14; 15]
         = [ "No"; "No"; "No"; "No"; "No" ]).
Proof.
  set (r := Analyze.analyzePdf svc prompt u).
  unfold Analyze.csvRow. destruct (Analyze.notesText r); [|discriminate].
  intros H. injection H as <-. cbn [nth map]. split.
  - intros He.
    destruct (proj2 (analyzePdf_sentinel_iff_error svc prompt u) He) as (_ & _ & Hsummary).
    fold r in Hsummary. rewrite Hsummary.
    rewrite <- summaryOfFlags_None.
    destruct (String.eqb_spec (summaryOfFlags (Analyze.sensitiveInfo r)) "None") as [E | E];
      simpl; split; try congruence; try discriminate; tauto.
  - intros He.
    destruct (Analyze.error r) as [e|] eqn:Herr; [|congruence].
    assert (Hthrows := analyzePdf_error_throws svc prompt u e Herr).
    destruct (analyzePdf_failed_record_fields svc prompt u e Hthrows) as (_ & Hsum & _).
    destruct (analyzePdf_on_failure svc prompt u e Hthrows) as (_ & _ & Hflags & _).
    fold r in Hsum, Hflags. rewrite Hsum, Hflags. split; reflexivity.
Qed.

End ReportRows.

Lemma report_row_reads_back_witness :
  exists row notesOrEmpty,
    @Analyze.csvRow milliNumber Analyze.stringOfZ Analyze.stringOfZ (fun n => Z.ltb n 700)
      "gemini-2.5-flash" (Analyze.analyzePdf happyWorld "prompt" "https://x.test/forms/a.pdf")
    = Some row
    /\ Analyze.notes (Analyze.analyzePdf happyWorld "prompt" "https://x.test/forms/a.pdf")
       = JStr notesOrEmpty
    /\ csvReadRecord (JS.join "," row)
       = @rawCells milliNumber Analyze.stringOfZ Analyze.stringOfZ (fun n => Z.ltb n 700)
           "gemini-2.5-flash" notesOrEmpty
           (Analyze.analyzePdf happyWorld "prompt" "https://x.test/forms/a.pdf")
    /\ List.length (csvReadRecord (JS.join "," row)) = List.length Analyze.HEADERS.
Proof.
  apply (@report_row_reads_back milliNumber Analyze.stringOfZ Analyze.stringOfZ
           (fun n => Z.ltb n 700)
           happyWorld "prompt" "https://x.test/forms/a.pdf" "gemini-2.5-flash").
  - reflexivity.
  - unfold plain, needsQuoting. simpl. intuition discriminate.
  - intros n. apply stringOfZ_plain.
  - intros n. apply stringOfZ_plain.
Defined.

Lemma report_sensitive_column_witness :
  exists row,
    @Analyze.csvRow milliNumber Analyze.stringOfZ Analyze.stringOfZ (fun n => Z.ltb n 700)
      "gemini-2.5-flash" (Analyze.analyzePdf notFoundWorld "prompt" "https://x.test/a.pdf")
    = Some row
    /\ nth 3 row EmptyString = "Yes"
    /\ map (fun i => nth i row EmptyString) [11; 12; 13; 14; 15]
       = [ "No"; "No"; "No"; "No"; "No" ].
Proof.
  eexists. split; [vm_compute; reflexivity|].
  apply (proj2 (@report_sensitive_column milliNumber Analyze.stringOfZ Analyze.stringOfZ
                  (fun n => Z.ltb n 700) notFoundWorld "prompt" "https://x.test/a.pdf"
                  "gemini-2.5-flash" _ eq_refl)).
  discriminate.
Defined.

(** ** The comparator, continued *)

(** The comparator cannot tell a fillable from a non-fillable form: whenever
    both form types contain "fillable", in any case, the types match. *)
Theorem compare_matches_any_two_fillable (human : Eval.HumanReview) (llm : Eval.LLMAnalysis) :
  JS.includes (lowerTrimmed (Eval.h_formType human)) "fillable" = true ->
  JS.includes (lowerTrimmed (Eval.l_formType llm)) "fillable" = true ->
  Eval.formTypeMatch (Eval.compare human llm) = true.
Proof.
  intros Hh Hl. unfold Eval.compare; simpl.
  assert (Hnorm : forall t, JS.includes (lowerTrimmed t) "fillable" = true ->
                            Eval.normalizeFormType t = "Fillable PDF").
  { intros t Ht. unfold Eval.normalizeFormType. fold (lowerTrimmed t).
    rewrite (lowerTrimmed_empty_includes t "fillable" Ht) by discriminate.
    simpl. now rewrite Ht. }
  rewrite (Hnorm _ Hh), (Hnorm _ Hl). reflexivity.
Qed.

Lemma compare_matches_any_two_fillable_witness :
  Eval.formTypeMatch
    (Eval.compare
       (Eval.mkHumanReview "https://x.test/a.pdf" "Yes" "Non-Fillable PDF" "No" "ann"
          EmptyString)
       (Eval.mkLLMAnalysis "https://x.test/a.pdf" "Yes" "Fillable PDF" noSensitiveInfo
          EmptyString None)) = true.
Proof. apply compare_matches_any_two_fillable; reflexivity. Defined.

(** The machine summary of the comparator is "No" exactly when no flag is
    set, and is never empty. *)
Lemma formatSensitiveInfo_no (info : SensitiveInfo) :
  String.eqb (lowerTrimmed (Eval.formatSensitiveInfo info)) "no"
  || String.eqb (lowerTrimmed (Eval.formatSensitiveInfo info)) EmptyString = true
  <-> allFlagsFalse info.
Proof.
  unfold allFlagsFalse.
  destruct info as [[] [] [] [] []]; vm_compute; split;
    try discriminate; try tauto; intros; intuition discriminate.
Qed.

(** In a comparison the sensitivity flag depends on the machine's five flags
    only through whether any is set, as long as the reviewer wrote nothing,
    "no", "yes", or something that mentions "ssn" or "dl": for nothing or "no"
    the flag holds exactly when no machine flag is set, for the others exactly
    when some machine flag is set. *)
Theorem compare_sensitive_on_flags (human : Eval.HumanReview) (llm : Eval.LLMAnalysis) :
  ((lowerTrimmed (Eval.h_sensitiveInfo human) = EmptyString
    \/ lowerTrimmed (Eval.h_sensitiveInfo human) = "no") ->
   (Eval.sensitiveMatch (Eval.compare human llm) = true <->
    allFlagsFalse (Eval.l_sensitiveInfo llm)))
  /\ (~ (lowerTrimmed (Eval.h_sensitiveInfo human) = EmptyString
         \/ lowerTrimmed (Eval.h_sensitiveInfo human) = "no") ->
      (lowerTrimmed (Eval.h_sensitiveInfo human) = "yes"
       \/ JS.includes (lowerTrimmed (Eval.h_sensitiveInfo human)) "ssn" = true
       \/ JS.includes (lowerTrimmed (Eval.h_sensitiveInfo human)) "dl" = true) ->
      (Eval.sensitiveMatch (Eval.compare human llm) = true <->
       ~ allFlagsFalse (Eval.l_sensitiveInfo llm))).
Proof.
  unfold Eval.compare; simpl. unfold Eval.normalizeSensitiveForComparison.
  fold (lowerTrimmed (Eval.h_sensitiveInfo human)).
  fold (lowerTrimmed (Eval.formatSensitiveInfo (Eval.l_sensitiveInfo llm))).
  rewrite <- !says_no_iff, <- says_yes_iff.
  pose proof (formatSensitiveInfo_no (Eval.l_sensitiveInfo llm)) as Hno.
  rewrite <- Hno.
  destruct (String.eqb (lowerTrimmed (Eval.h_sensitiveInfo human)) "no"
            || String.eqb (lowerTrimmed (Eval.h_sensitiveInfo human)) EmptyString);
    destruct (String.eqb (lowerTrimmed (Eval.h_sensitiveInfo human)) "yes"
              || JS.includes (lowerTrimmed (Eval.h_sensitiveInfo human)) "ssn"
              || JS.includes (lowerTrimmed (Eval.h_sensitiveInfo human)) "dl");
    split; intros; try tauto; try congruence;
    rewrite <- negb_orb, negb_true_iff;
    destruct (String.eqb (lowerTrimmed (Eval.formatSensitiveInfo (Eval.l_sensitiveInfo llm))) "no"
              || String.eqb (lowerTrimmed (Eval.formatSensitiveInfo (Eval.l_sensitiveInfo llm)))
                   EmptyString);
    split; congruence.
Qed.

Lemma compare_sensitive_on_flags_witness :
  Eval.sensitiveMatch
    (Eval.compare
       (Eval.mkHumanReview "https://x.test/a.pdf" "Yes" "Fillable PDF" "SSN and DL#" "ann"
          EmptyString)
       (Eval.mkLLMAnalysis "https://x.test/a.pdf" "Yes" "Fillable PDF"
          (mkSensitiveInfo false false false true false) EmptyString None)) = true.
Proof.
  apply (proj2 (compare_sensitive_on_flags _ _)).
  - vm_compute. intros [H | H]; discriminate H.
  - right; left. reflexivity.
  - vm_compute. intros (_ & _ & _ & H & _). discriminate H.
Defined.

(** ** The reviewers' sheet *)

Lemma cell_trimmed (name : string) (record : Eval.Row) : isTrimmed (Eval.cell name record).
Proof.
  unfold isTrimmed, Eval.cell. destruct (Eval.column name record); [|reflexivity].
  apply trim_idempotent.
Qed.

(** Every review read from the sheet has a non-empty URL that ends in
    ".pdf" (in lower case), all of its fields are trimmed, and it comes from a
    record of the sheet; reviews keep the order of the records, so there are
    never more reviews than records. *)
Theorem parseHumanReviews_result (records : list Eval.Row) :
  (forall r, In r (Eval.parseHumanReviews records) ->
     JS.truthy (Eval.h_url r) = true
     /\ JS.endsWith (Eval.h_url r) ".pdf" = true
     /\ isTrimmed (Eval.h_url r) /\ isTrimmed (Eval.h_isForm r)
     /\ isTrimmed (Eval.h_formType r) /\ isTrimmed (Eval.h_sensitiveInfo r)
     /\ isTrimmed (Eval.h_reviewer r) /\ isTrimmed (Eval.h_notes r)
     /\ exists record, In record records /\ Eval.h_url r = Eval.cell "url" record)
  /\ map Eval.h_url (Eval.parseHumanReviews records)
     = filter (fun url => JS.truthy url && JS.endsWith url ".pdf")
              (map (Eval.cell "url") records)
  /\ List.length (Eval.parseHumanReviews records) <= List.length records.
Proof.
  split; [|split].
  - induction records as [|record rest IH]; intros r Hin; [contradiction|].
    cbn [Eval.parseHumanReviews] in Hin.
    destruct (JS.truthy (Eval.cell "url" record)) eqn:Htruthy; cbn [negb orb] in Hin.
    + destruct (JS.endsWith (Eval.cell "url" record) ".pdf") eqn:Hpdf; cbn [negb] in Hin.
      * destruct Hin as [<- | Hin].
        -- cbn. repeat split; try assumption; try apply cell_trimmed.
           exists record. split; [now left | reflexivity].
        -- destruct (IH r Hin) as (H1 & H2 & H3 & H4 & H5 & H6 & H7 & H8 & record' & Hr & Hu).
           repeat split; try assumption. exists record'. split; [now right | assumption].
      * destruct (IH r Hin) as (H1 & H2 & H3 & H4 & H5 & H6 & H7 & H8 & record' & Hr & Hu).
        repeat split; try assumption. exists record'. split; [now right | assumption].
    + destruct (IH r Hin) as (H1 & H2 & H3 & H4 & H5 & H6 & H7 & H8 & record' & Hr & Hu).
      repeat split; try assumption. exists record'. split; [now right | assumption].
  - induction records as [|record rest IH]; [reflexivity|].
    cbn [Eval.parseHumanReviews map filter].
    destruct (JS.truthy (Eval.cell "url" record)); cbn [negb orb andb]; [|exact IH].
    destruct (JS.endsWith (Eval.cell "url" record) ".pdf"); cbn [negb]; [|exact IH].
    cbn [map Eval.h_url]. now rewrite IH.
  - induction records as [|record rest IH]; [reflexivity|].
    cbn [Eval.parseHumanReviews].
    destruct (negb (JS.truthy (Eval.cell "url" record))
              || negb (JS.endsWith (Eval.cell "url" record) ".pdf")); simpl; lia.
Qed.

Lemma parseHumanReviews_result_witness :
  JS.endsWith
    (Eval.h_url
       (Eval.mkHumanReview "https://x.test/a.pdf" "Yes" EmptyString EmptyString EmptyString
          EmptyString)) ".pdf" = true.
Proof.
  apply (proj1 (parseHumanReviews_result
                  [ [ ("url", "https://x.test/A.PDF") ];
                    [ ("url", " https://x.test/a.pdf "); ("Review: Is this a form", "Yes ") ] ])).
  left. reflexivity.
Defined.

(** ** The evaluation summary *)

Lemma filter_length_mono {A : Type} (p q : A -> bool) (l : list A) :
  (forall x, In x l -> p x = true -> q x = true) ->
  List.length (filter p l) <= List.length (filter q l).
Proof.
  induction l as [|x l IH]; intros Hpq; [reflexivity|].
  simpl. assert (IH' := IH (fun y Hy => Hpq y (or_intror Hy))).
  destruct (p x) eqn:Hp.
  - rewrite (Hpq x (or_introl eq_refl) Hp). simpl. lia.
  - destruct (q x); simpl; lia.
Qed.

(** In the evaluation summary the number of full matches never exceeds the
    number of matches of any single field, and no count exceeds the number
    of documents evaluated. *)
Theorem evaluation_counts (pairs : list (Eval.HumanReview * Eval.LLMAnalysis)) :
  let comparisons := map (fun p => Eval.compare (fst p) (snd p)) pairs in
  Eval.countWhere Eval.allMatch comparisons <= Eval.countWhere Eval.isFormMatch comparisons
  /\ Eval.countWhere Eval.allMatch comparisons <= Eval.countWhere Eval.formTypeMatch comparisons
  /\ Eval.countWhere Eval.allMatch comparisons <= Eval.countWhere Eval.sensitiveMatch comparisons
  /\ Eval.countWhere Eval.isFormMatch comparisons <= List.length pairs
  /\ Eval.countWhere Eval.formTypeMatch comparisons <= List.length pairs
  /\ Eval.countWhere Eval.sensitiveMatch comparisons <= List.length pairs.
Proof.
  intros comparisons. unfold Eval.countWhere.
  assert (Hall : forall c, In c comparisons ->
                   Eval.allMatch c = true ->
                   Eval.isFormMatch c = true /\ Eval.formTypeMatch c = true
                   /\ Eval.sensitiveMatch c = true).
  { intros c Hc. apply in_map_iff in Hc as ([h l] & <- & _). simpl.
    rewrite !andb_true_iff. tauto. }
  assert (Hlen : List.length comparisons = List.length pairs)
    by (unfold comparisons; apply length_map).
  repeat split;
    try (apply filter_length_mono; intros c Hc Hm; now apply (Hall c Hc Hm));
    rewrite <- Hlen; apply List.filter_length_le.
Qed.

(** A comparison row reads back as its 14 cells, one for each header, as
    long as the two match glyphs and the two [isForm] cells, which are written
    as they are, hold no comma, quote or line break. *)
Theorem comparison_row_reads_back (CHECK CROSS : string) (r : Eval.ComparisonResult) :
  plain CHECK -> plain CROSS ->
  plain (Eval.humanIsForm r) -> plain (Eval.llmIsForm r) ->
  csvReadRecord (JS.join "," (Eval.comparisonRow CHECK CROSS r))
  = rawComparisonCells CHECK CROSS r
  /\ List.length (rawComparisonCells CHECK CROSS r)
     = List.length Eval.COMPARISON_HEADERS.
Proof.
  intros Hcheck Hcross Hhuman Hllm. split; [|reflexivity].
  rewrite <- (csv_record_round_trip (rawComparisonCells CHECK CROSS r)) by discriminate.
  f_equal. unfold rawComparisonCells, Eval.comparisonRow. cbn [map].
  assert (Hglyph : forall b, Analyze.escapeField (Eval.glyph CHECK CROSS b)
                             = Eval.glyph CHECK CROSS b).
  { intros []; simpl; now apply escapeField_plain. }
  rewrite !Hglyph, (escapeField_plain _ Hhuman), (escapeField_plain _ Hllm).
  reflexivity.
Qed.

Lemma comparison_row_reads_back_witness :
  csvReadRecord
    (JS.join ","
       (Eval.comparisonRow "v" "x"
          (Eval.compare
             (Eval.mkHumanReview "https://x.test/a,b.pdf" "Yes" "Fillable PDF" "SSN, DL#"
                "ann" ("see " ++ quote ++ "p. 2" ++ quote))
             (Eval.mkLLMAnalysis "https://x.test/a,b.pdf" "Yes" "Fillable PDF"
                (mkSensitiveInfo true true false false false) "A form." None))))
  = rawComparisonCells "v" "x"
      (Eval.compare
         (Eval.mkHumanReview "https://x.test/a,b.pdf" "Yes" "Fillable PDF" "SSN, DL#"
            "ann" ("see " ++ quote ++ "p. 2" ++ quote))
         (Eval.mkLLMAnalysis "https://x.test/a,b.pdf" "Yes" "Fillable PDF"
            (mkSensitiveInfo true true false false false) "A form." None)).
Proof.
  set (r := Eval.compare _ _).
  refine (proj1 (comparison_row_reads_back "v" "x" r _ _ _ _));
    unfold plain, needsQuoting; simpl; intuition discriminate.
Defined.

(** ** The display name and the two extractors *)

Lemma split_pieces (sep : ascii) (s piece : string) :
  In piece (JS.split sep s) -> ~ In sep (list_ascii_of_string piece).
Proof.
  revert piece. induction s as [|c s IH]; intros piece; cbn [JS.split].
  - intros [<- | []]. simpl. tauto.
  - destruct (Ascii.eqb_spec c sep) as [-> | Hne].
    + intros [<- | Hin]; [simpl; tauto | now apply IH].
    + destruct (JS.split sep s) as [|w ws] eqn:Hs.
      * intros [<- | []]. simpl. intros [E | []]. congruence.
      * intros [<- | Hin].
        -- simpl. intros [E | Hw]; [congruence|]. apply (IH w); [now left | assumption].
        -- apply IH. now right.
Qed.

Lemma split_nonempty (sep : ascii) (s : string) : JS.split sep s <> [].
Proof.
  destruct s as [|c s]; cbn [JS.split]; [discriminate|].
  destruct (Ascii.eqb c sep); [discriminate|].
  destruct (JS.split sep s); discriminate.
Qed.

Lemma last_In {A : Type} (l : list A) (d : A) : l <> [] -> In (List.last l d) l.
Proof.
  induction l as [|x l IH]; [congruence|]. intros _.
  destruct l as [|y l]; [now left|].
  right. apply IH. discriminate.
Qed.

Lemma last_cons {A : Type} (x : A) (l : list A) (d : A) :
  l <> [] -> List.last (x :: l) d = List.last l d.
Proof. destruct l; [congruence | reflexivity]. Qed.

Lemma split_single (sep : ascii) (s w : string) : JS.split sep s = [w] -> w = s.
Proof.
  revert w. induction s as [|c s IH]; intros w; cbn [JS.split].
  - now intros [= <-].
  - destruct (Ascii.eqb c sep).
    + intros H. injection H as _ H. now destruct (split_nonempty sep s).
    + destruct (JS.split sep s) as [|v vs] eqn:Hs; [now destruct (split_nonempty sep s)|].
      intros H. injection H as <- ->. f_equal. now apply IH.
Qed.

Lemma endsWith_refl (s : string) : JS.endsWith s s = true.
Proof. destruct s; cbn [JS.endsWith]; now rewrite String.eqb_refl. Qed.

Lemma endsWith_cons (c : ascii) (s p : string) :
  JS.endsWith s p = true -> JS.endsWith (String c s) p = true.
Proof. intros H. cbn [JS.endsWith]. rewrite H. apply orb_true_r. Qed.

Lemma endsWith_char_In (s : string) (c : ascii) :
  JS.endsWith s (String c EmptyString) = true -> In c (list_ascii_of_string s).
Proof.
  induction s as [|a s IH]; cbn [JS.endsWith]; [discriminate|].
  intros H. apply orb_true_iff in H as [H | H].
  - apply String.eqb_eq in H. injection H as -> _. now left.
  - right. now apply IH.
Qed.

(** The last piece of a split is a suffix of the string. *)
Lemma split_last_suffix (sep : ascii) (s : string) :
  JS.endsWith s (List.last (JS.split sep s) EmptyString) = true.
Proof.
  induction s as [|c s IH]; [reflexivity|]. cbn [JS.split].
  destruct (Ascii.eqb c sep).
  - rewrite last_cons by apply split_nonempty. now apply endsWith_cons.
  - destruct (JS.split sep s) as [|w ws] eqn:Hs; [now destruct (split_nonempty sep s)|].
    destruct ws as [|w' ws].
    + apply split_single in Hs. subst w. apply endsWith_refl.
    + rewrite last_cons by discriminate.
      rewrite last_cons in IH by discriminate. now apply endsWith_cons.
Qed.

(** After a trailing separator the last piece is empty. *)
Lemma split_last_empty (sep : ascii) (s : string) :
  JS.endsWith s (String sep EmptyString) = true \/ s = EmptyString ->
  List.last (JS.split sep s) EmptyString = EmptyString.
Proof.
  induction s as [|c s IH]; [reflexivity|].
  intros [H | H]; [|discriminate]. cbn [JS.split].
  cbn [JS.endsWith] in H. apply orb_true_iff in H.
  destruct (Ascii.eqb_spec c sep) as [-> | Hne].
  - rewrite last_cons by apply split_nonempty.
    destruct H as [H | H]; [|apply IH; now left].
    apply String.eqb_eq in H. injection H as ->. reflexivity.
  - destruct H as [H | H]; [apply String.eqb_eq in H; injection H as E _; congruence|].
    destruct (JS.split sep s) as [|w ws] eqn:Hs; [now destruct (split_nonempty sep s)|].
    destruct ws as [|w' ws].
    + exfalso. pose proof (split_single _ _ _ Hs) as ->.
      apply (split_pieces sep s s); [rewrite Hs; now left|].
      now apply endsWith_char_In.
    + rewrite last_cons by discriminate.
      rewrite last_cons in IH by discriminate. apply IH. now left.
Qed.

Lemma split_no_separator (sep : ascii) (s : string) :
  ~ In sep (list_ascii_of_string s) -> JS.split sep s = [s].
Proof.
  induction s as [|c s IH]; intros Hno; [reflexivity|].
  simpl in Hno. cbn [JS.split].
  destruct (Ascii.eqb_spec c sep) as [-> | Hne]; [tauto|].
  rewrite IH by tauto. reflexivity.
Qed.

(** The last piece of a split starts right after the last separator: what
    precedes it in the string is empty or ends with the separator. *)
Lemma split_last_after_separator (sep : ascii) (s : string) :
  exists before,
    s = before ++ List.last (JS.split sep s) EmptyString
    /\ (before = EmptyString \/ JS.endsWith before (String sep EmptyString) = true).
Proof.
  induction s as [|c s (before & Hs & Hbefore)].
  - exists EmptyString. split; [reflexivity | now left].
  - cbn [JS.split]. destruct (Ascii.eqb_spec c sep) as [-> | Hne].
    + rewrite last_cons by apply split_nonempty.
      exists (String sep before). split; [simpl; now rewrite <- Hs|].
      right. destruct Hbefore as [-> | Hends]; [apply endsWith_refl | now apply endsWith_cons].
    + destruct (JS.split sep s) as [|w ws] eqn:Hsplit;
        [now destruct (split_nonempty sep s)|].
      destruct ws as [|w' ws].
      * apply split_single in Hsplit. subst w.
        exists EmptyString. split; [reflexivity | now left].
      * rewrite last_cons by discriminate. rewrite last_cons in Hs by discriminate.
        exists (String c before). split; [cbn [append]; f_equal; exact Hs|].
        right. destruct Hbefore as [-> | Hends]; [|now apply endsWith_cons].
        exfalso. cbn [append] in Hs.
        assert (Hno : ~ In sep (list_ascii_of_string s)).
        { rewrite Hs at 1. apply split_pieces with (s := s).
          rewrite Hsplit. right. apply (last_In (w' :: ws) EmptyString). discriminate. }
        rewrite (split_no_separator sep s Hno) in Hsplit. discriminate Hsplit.
Qed.

(** The display name sent with the upload is never empty and holds no
    slash.  It is the last segment of the URL path: the path is the display
    name preceded by nothing or by text that ends with a slash.  When the path
    is empty or ends in a slash, it is "document.pdf". *)
Theorem displayNameOf_segment (urlPath : string) :
  JS.truthy (Analyze.displayNameOf urlPath) = true
  /\ JS.includes (Analyze.displayNameOf urlPath) "/" = false
  /\ (JS.endsWith urlPath "/" = true \/ urlPath = EmptyString ->
      Analyze.displayNameOf urlPath = "document.pdf")
  /\ (Analyze.displayNameOf urlPath <> "document.pdf" ->
      JS.endsWith urlPath (Analyze.displayNameOf urlPath) = true)
  /\ (~ (JS.endsWith urlPath "/" = true \/ urlPath = EmptyString) ->
      exists before,
        urlPath = before ++ Analyze.displayNameOf urlPath
        /\ (before = EmptyString \/ JS.endsWith before "/" = true)).
Proof.
  unfold Analyze.displayNameOf.
  split; [|split; [|split; [|split]]].
  - destruct (JS.truthy (List.last (JS.split "/" urlPath) EmptyString)) eqn:Ht;
      [exact Ht | reflexivity].
  - destruct (JS.truthy (List.last (JS.split "/" urlPath) EmptyString)) eqn:Ht;
      [|reflexivity].
    destruct (JS.includes _ "/") eqn:E; [|reflexivity].
    apply includes_char in E.
    exfalso. revert E. apply split_pieces with (s := urlPath).
    apply last_In, split_nonempty.
  - intros H. now rewrite (split_last_empty "/" urlPath H).
  - destruct (JS.truthy (List.last (JS.split "/" urlPath) EmptyString)); [|congruence].
    intros _. apply split_last_suffix.
  - intros Hopen.
    destruct (split_last_after_separator "/" urlPath) as (before & Hpath & Hbefore).
    destruct (List.last (JS.split "/" urlPath) EmptyString) as [|c name] eqn:Hlast.
    + exfalso. apply Hopen. rewrite append_empty_r in Hpath. subst before.
      destruct Hbefore as [-> | Hends]; [now right | now left].
    + cbn [JS.truthy]. exists before. split; assumption.
Qed.

Lemma displayNameOf_segment_witness :
  Analyze.displayNameOf "/forms/2024/" = "document.pdf"
  /\ JS.endsWith "/forms/a.pdf" (Analyze.displayNameOf "/forms/a.pdf") = true
  /\ exists before,
       "/forms/a.pdf" = before ++ Analyze.displayNameOf "/forms/a.pdf"
       /\ (before = EmptyString \/ JS.endsWith before "/" = true).
Proof.
  split; [|split].
  - apply (proj1 (proj2 (proj2 (displayNameOf_segment "/forms/2024/")))). now left.
  - apply (proj1 (proj2 (proj2 (proj2 (displayNameOf_segment "/forms/a.pdf"))))).
    vm_compute. discriminate.
  - apply (proj2 (proj2 (proj2 (proj2 (displayNameOf_segment "/forms/a.pdf"))))).
    vm_compute. intros [H | H]; discriminate H.
Defined.

Lemma dropN_app (p rest : string) : Analyze.dropN (String.length p) (p ++ rest) = rest.
Proof. induction p as [|c p IH]; simpl; [now destruct rest | exact IH]. Qed.

Lemma splitAtFirst_unfold (s sub : string) :
  Analyze.splitAtFirst s sub =
  if JS.startsWith s sub then Some (EmptyString, Analyze.dropN (String.length sub) s)
  else match s with
       | EmptyString => None
       | String c s' =>
           match Analyze.splitAtFirst s' sub with
           | Some (before, after) => Some (String c before, after)
           | None => None
           end
       end.
Proof. destruct s; reflexivity. Qed.

Lemma splitAtFirst_spec (s sub before after : string) :
  Analyze.splitAtFirst s sub = Some (before, after) -> s = before ++ sub ++ after.
Proof.
  revert before. induction s as [|c s IH]; intros before; rewrite splitAtFirst_unfold.
  - destruct sub as [|a sub]; simpl; [|discriminate].
    intros H. now injection H as <- <-.
  - destruct (JS.startsWith (String c s) sub) eqn:Hs.
    + apply startsWith_spec in Hs as [rest Hrest]. intros H. injection H as <- <-.
      rewrite Hrest. now rewrite dropN_app.
    + destruct (Analyze.splitAtFirst s sub) as [[b a]|]; [|discriminate].
      intros H. injection H as <- <-. simpl. f_equal. now apply IH.
Qed.

(** For a pattern of one code unit, the text before the first occurrence
    does not hold it. *)
Lemma splitAtFirst_char_first (s : string) (c : ascii) (before after : string) :
  Analyze.splitAtFirst s (String c EmptyString) = Some (before, after) ->
  ~ In c (list_ascii_of_string before).
Proof.
  revert before. induction s as [|a s IH]; intros before; rewrite splitAtFirst_unfold.
  - simpl. discriminate.
  - cbn [JS.startsWith].
    destruct (Ascii.eqb_spec c a) as [<- | Hne].
    + replace (JS.startsWith s EmptyString) with true by (now destruct s).
      simpl. intros H. injection H as <- _. simpl. tauto.
    + simpl. destruct (Analyze.splitAtFirst s (String c EmptyString)) as [[b r]|];
        [|discriminate].
      intros H. injection H as <- <-. simpl. intros [E | Hin]; [congruence|].
      now apply (IH b eq_refl).
Qed.

Lemma splitAtFirst_char_None (s : string) (c : ascii) :
  Analyze.splitAtFirst s (String c EmptyString) = None <->
  ~ In c (list_ascii_of_string s).
Proof.
  induction s as [|a s IH]; rewrite splitAtFirst_unfold.
  - simpl. tauto.
  - cbn [JS.startsWith].
    destruct (Ascii.eqb_spec c a) as [<- | Hne].
    + replace (JS.startsWith s EmptyString) with true by (now destruct s).
      simpl. split; [discriminate | tauto].
    + simpl. destruct (Analyze.splitAtFirst s (String c EmptyString)) as [[b r]|].
      * split; [discriminate|]. intros H. exfalso.
        assert (Hn : ~ In c (list_ascii_of_string s)) by tauto.
        apply IH in Hn. discriminate.
      * split; [|reflexivity]. intros _ [E | Hin]; [congruence|].
        now apply (proj1 IH).
Qed.

Lemma uptoLast_spec (c : ascii) (s t : string) :
  Analyze.uptoLast c s = Some t ->
  exists body rest, t = body ++ String c EmptyString /\ s = t ++ rest
                    /\ ~ In c (list_ascii_of_string rest).
Proof.
  revert t. induction s as [|a s IH]; intros t; simpl; [discriminate|].
  destruct (Analyze.uptoLast c s) as [u|] eqn:Hu.
  - intros H. injection H as <-.
    destruct (IH u eq_refl) as (body & rest & -> & Hs & Hrest).
    exists (String a body), rest. simpl. rewrite Hs at 1. now repeat split.
  - destruct (Ascii.eqb_spec a c) as [-> | Hne]; [|discriminate].
    intros H. injection H as <-. exists EmptyString, s. repeat split.
    clear IH. revert Hu. induction s as [|b s IHs]; simpl; [tauto|].
    destruct (Analyze.uptoLast c s); [discriminate|].
    destruct (Ascii.eqb_spec b c) as [-> | Hb]; [discriminate|].
    intros _ [E | Hin]; [congruence | now apply IHs].
Qed.

Lemma uptoLast_None (c : ascii) (s : string) :
  Analyze.uptoLast c s = None -> ~ In c (list_ascii_of_string s).
Proof.
  induction s as [|b s IHs]; simpl; [tauto|].
  destruct (Analyze.uptoLast c s); [discriminate|].
  destruct (Ascii.eqb_spec b c) as [-> | Hb]; [discriminate|].
  intros _ [E | Hin]; [congruence | now apply IHs].
Qed.

Lemma list_ascii_app (a b : string) :
  list_ascii_of_string (a ++ b) = (list_ascii_of_string a ++ list_ascii_of_string b)%list.
Proof. induction a as [|c a IH]; simpl; [reflexivity | now rewrite IH]. Qed.

(** What follows the first occurrence holds everything that follows any
    occurrence. *)
Lemma after_first_occurrence (c : ascii) (before after before' after' : string) :
  before ++ String c after = before' ++ String c after' ->
  ~ In c (list_ascii_of_string before) ->
  exists middle, after = middle ++ after'.
Proof.
  revert before'. induction before as [|a before IH]; intros before' Heq Hfirst.
  - destruct before' as [|b before']; simpl in Heq.
    + injection Heq as ->. now exists EmptyString.
    + injection Heq as _ ->. now exists (before' ++ String c EmptyString)%string;
        rewrite append_assoc.
  - simpl in Hfirst. destruct before' as [|b before']; simpl in Heq.
    + injection Heq as -> _. tauto.
    + injection Heq as _ Heq. apply (IH before' Heq). tauto.
Qed.

(** The fallback extractor returns the span from the first opening brace to
    the last closing brace after it, and fails exactly when the reply has no
    opening brace with a closing brace somewhere after it. *)
Theorem matchBraces_span (text : string) :
  (forall json, Analyze.matchBraces text = Some json ->
     exists before body after,
       json = "{" ++ body ++ "}" /\ text = before ++ json ++ after
       /\ ~ In "{"%char (list_ascii_of_string before)
       /\ ~ In "}"%char (list_ascii_of_string after))
  /\ (Analyze.matchBraces text = None <->
      ~ exists before body after, text = before ++ "{" ++ body ++ "}" ++ after).
Proof.
  unfold Analyze.matchBraces. split.
  - intros json.
    destruct (Analyze.splitAtFirst text "{") as [[before rest]|] eqn:Hsplit; [|discriminate].
    destruct (Analyze.uptoLast "}" rest) as [t|] eqn:Hlast; [|discriminate].
    intros H. injection H as <-.
    destruct (uptoLast_spec _ _ _ Hlast) as (body & after & -> & Hrest & Hafter).
    exists before, body, after. repeat split.
    + apply splitAtFirst_spec in Hsplit. rewrite Hsplit, Hrest.
      simpl. now rewrite !append_assoc.
    + exact (splitAtFirst_char_first _ _ _ _ Hsplit).
    + exact Hafter.
  - destruct (Analyze.splitAtFirst text "{") as [[before rest]|] eqn:Hsplit.
    + destruct (Analyze.uptoLast "}" rest) as [t|] eqn:Hlast.
      * split; [discriminate|]. intros H. exfalso. apply H.
        destruct (uptoLast_spec _ _ _ Hlast) as (body & after & -> & Hrest & _).
        exists before, body, after.
        apply splitAtFirst_spec in Hsplit. rewrite Hsplit, Hrest.
        simpl. now rewrite !append_assoc.
      * split; [|reflexivity]. intros _ (before' & body & after & Htext).
        pose proof (splitAtFirst_char_first _ _ _ _ Hsplit) as Hfirst.
        apply splitAtFirst_spec in Hsplit. rewrite Hsplit in Htext. simpl in Htext.
        destruct (after_first_occurrence _ _ _ _ _ Htext Hfirst) as [middle Hrest].
        apply (uptoLast_None _ _ Hlast). rewrite Hrest, !list_ascii_app.
        simpl. rewrite !in_app_iff. simpl. tauto.
    + split; [|reflexivity]. intros _ (before' & body & after & Htext).
      apply splitAtFirst_char_None in Hsplit. apply Hsplit.
      rewrite Htext, list_ascii_app. apply in_or_app. right. simpl. now left.
Qed.

Lemma matchBraces_span_witness :
  exists before body after,
    "{c} d}" = "{" ++ body ++ "}" /\ "ab {c} d} e" = before ++ "{c} d}" ++ after
    /\ ~ In "{"%char (list_ascii_of_string before)
    /\ ~ In "}"%char (list_ascii_of_string after).
Proof. apply (proj1 (matchBraces_span "ab {c} d} e") "{c} d}"). reflexivity. Defined.

(** The fence extractor returns trimmed text taken from between a "```json"
    and a later "```" of the reply. *)
Theorem matchFence_inner (text json : string) :
  Analyze.matchFence text = Some json ->
  isTrimmed json
  /\ exists before inner after,
       text = before ++ (Analyze.FENCE ++ "json") ++ inner ++ Analyze.FENCE ++ after
       /\ json = JS.trim inner.
Proof.
  unfold Analyze.matchFence.
  destruct (Analyze.splitAtFirst text (Analyze.FENCE ++ "json")) as [[before rest]|] eqn:H1;
    [|discriminate].
  destruct (Analyze.splitAtFirst rest Analyze.FENCE) as [[inner after]|] eqn:H2;
    [|discriminate].
  intros H. injection H as <-. split; [apply trim_idempotent|].
  exists before, inner, after. split; [|reflexivity].
  apply splitAtFirst_spec in H1, H2. now rewrite H1, H2.
Qed.

Lemma matchFence_inner_witness :
  isTrimmed "{x}".
Proof.
  apply (proj1 (matchFence_inner
                  ("Here: " ++ Analyze.FENCE ++ "json  " ++ newline ++ " {x}  " ++ newline
                   ++ Analyze.FENCE ++ " and more") "{x}" eq_refl)).
Defined.

(** ** The evaluation script's adapter *)

Section EvalAdapter.
Context {NUM : JSNumber}.

(** The evaluation script's normalizer rejects only [null].  Every other
    reply gives a fragment whose form type is truthy: the reply's own value
    when that is truthy, of whatever type, and "N/A" otherwise.  When the
    analyzer's normalizer returns on the same reply, the two agree on
    [isForm], on the flags and on the notes. *)
Theorem eval_normalizeResponse_total (parsed : value) :
  (parsed = JNull ->
   Eval.normalizeResponse parsed
   = Throw "Cannot read properties of null (reading 'isForm')")
  /\ (parsed <> JNull ->
      exists n, Eval.normalizeResponse parsed = Ok n
                /\ Boolean (Some (Eval.n_formType n)) = true
                /\ (Eval.n_isForm n = "Yes" \/ Eval.n_isForm n = "No")
                /\ (forall props v,
                      parsed = JObj props -> lookup "formType" props = Some v ->
                      Boolean (Some v) = true -> Eval.n_formType n = v)
                /\ ((forall props v,
                       parsed = JObj props -> lookup "formType" props = Some v ->
                       Boolean (Some v) = false) ->
                    Eval.n_formType n = JStr "N/A")
                /\ forall f, Analyze.normalizeResponse parsed = Ok f ->
                     Eval.n_isForm n = Analyze.f_isForm f
                     /\ Eval.n_sensitiveInfo n = Analyze.f_sensitiveInfo f
                     /\ Eval.n_notes n = Analyze.f_notes f).
Proof.
  split; [intros ->; reflexivity|]. intros Hnull.
  assert (Hor : forall v, Boolean (Some (Analyze.orElse v (JStr "N/A"))) = true).
  { intros [v|]; [|reflexivity]. unfold Analyze.orElse.
    destruct (Boolean (Some v)) eqn:Hb; [exact Hb | reflexivity]. }
  destruct parsed as [|b|x|s|items|props]; [congruence|..].
  1-4: (eexists; split; [reflexivity|]; simpl;
        split; [reflexivity|]; split; [now right|];
        split; [intros props v H; discriminate H|];
        split; [reflexivity|];
        intros f H; injection H as <-; repeat split).
  eexists. split; [reflexivity|]. simpl.
  split; [apply Hor|].
  split; [destruct (Analyze.isYes (lookup "isForm" props)); auto|].
  split; [|split].
  - intros props' v H Hv Hb. injection H as <-.
    rewrite Hv. unfold Analyze.orElse.
    change (Boolean (Some v) = true) in Hb. now rewrite Hb.
  - intros Hfalsy. unfold Analyze.orElse.
    destruct (lookup "formType" props) as [v|] eqn:Hv; [|reflexivity].
    pose proof (Hfalsy props v eq_refl Hv) as Hb.
    change (Boolean (Some v) = false) in Hb. now rewrite Hb.
  - intros f. unfold Analyze.normalizeResponse. simpl.
    destruct (Analyze.normalizeFormTypeOf (lookup "formType" props)); simpl; [|discriminate].
    intros H. injection H as <-. repeat split.
Qed.

Variable ANALYSIS_PROMPT : string.

(** When the script's [analyzePdf] fails, the record is the initial one with
    the error filled in: [isForm] is "Error", the form type "N/A", no flag is
    set.  Read at its declared type and compared with a review that does not
    itself say "error", it is never an [isForm] match, hence never a full
    match. *)
Theorem eval_analyzePdf_failure (svc : Analyze.Service) (u e : string) :
  snd (Eval.tryBlock ANALYSIS_PROMPT svc u (Eval.initialRecord u)) = Throw e ->
  Eval.analyzePdf ANALYSIS_PROMPT svc u
  = {| Eval.r_url := u;
       Eval.r_isForm := "Error";
       Eval.r_formType := JStr "N/A";
       Eval.r_sensitiveInfo := noSensitiveInfo;
       Eval.r_notes := JStr ("Error: " ++ e);
       Eval.r_error := Some e |}
  /\ exists llm,
       Eval.typed (Eval.analyzePdf ANALYSIS_PROMPT svc u) = Some llm
       /\ forall human,
            JS.toLowerCase (Eval.h_isForm human) <> "error" ->
            Eval.isFormMatch (Eval.compare human llm) = false
            /\ Eval.allMatch (Eval.compare human llm) = false.
Proof.
  intros Hthrows.
  assert (Hrecord : Eval.analyzePdf ANALYSIS_PROMPT svc u
                    = {| Eval.r_url := u;
                         Eval.r_isForm := "Error";
                         Eval.r_formType := JStr "N/A";
                         Eval.r_sensitiveInfo := noSensitiveInfo;
                         Eval.r_notes := JStr ("Error: " ++ e);
                         Eval.r_error := Some e |}).
  { revert Hthrows. unfold Eval.analyzePdf, Eval.tryBlock.
    destruct (Eval.uploadPdfFromUrl svc u) as [file|e0].
    - destruct (Eval.askModel ANALYSIS_PROMPT svc file) as [n|e1].
      + destruct (Analyze.files_delete svc (Analyze.name file)); discriminate.
      + simpl. now intros [= ->].
    - simpl. now intros [= ->]. }
  split; [exact Hrecord|].
  rewrite Hrecord. eexists. split; [reflexivity|].
  intros human Hhuman. unfold Eval.compare; simpl.
  change (String (JS.lowerChar "E") (String (JS.lowerChar "r") (String (JS.lowerChar "r")
            (String (JS.lowerChar "o") (String (JS.lowerChar "r") EmptyString)))))
    with "error".
  apply String.eqb_neq in Hhuman. rewrite Hhuman. split; reflexivity.
Qed.

(** A failed download is such a failure. *)
Lemma eval_tryBlock_download_fails (svc : Analyze.Service) (u : string)
    (response : Analyze.Response) :
  Analyze.fetch svc u = Ok response -> Analyze.ok response = false ->
  snd (Eval.tryBlock ANALYSIS_PROMPT svc u (Eval.initialRecord u))
  = Throw ("Failed to download: " ++ Analyze.stringOfNat (Analyze.status response)
           ++ " " ++ Analyze.statusText response).
Proof.
  intros Hfetch Hok.
  unfold Eval.tryBlock, Eval.uploadPdfFromUrl, Analyze.uploadPdfFromUrl,
    Analyze.uploadAndPoll.
  rewrite Hfetch. cbn [bind]. rewrite Hok. reflexivity.
Qed.

End EvalAdapter.

Lemma eval_normalizeResponse_total_witness :
  exists n, Eval.normalizeResponse (JObj [ ("formType", @JNum milliNumber 3%Z) ]) = Ok n
            /\ Boolean (Some (Eval.n_formType n)) = true
            /\ Eval.n_formType n = @JNum milliNumber 3%Z.
Proof.
  destruct (proj2 (eval_normalizeResponse_total (JObj [ ("formType", @JNum milliNumber 3%Z) ]))
              ltac:(discriminate)) as (n & Hn & Htruthy & _ & Hown & _).
  exists n. split; [exact Hn | split; [exact Htruthy|]].
  apply (Hown [ ("formType", @JNum milliNumber 3%Z) ] (@JNum milliNumber 3%Z));
    reflexivity.
Defined.

Lemma eval_analyzePdf_failure_witness :
  Eval.analyzePdf "prompt" notFoundWorld "https://x.test/a.pdf"
  = {| Eval.r_url := "https://x.test/a.pdf";
       Eval.r_isForm := "Error";
       Eval.r_formType := JStr "N/A";
       Eval.r_sensitiveInfo := noSensitiveInfo;
       Eval.r_notes := JStr "Error: Failed to download: 404 Not Found";
       Eval.r_error := Some "Failed to download: 404 Not Found" |}.
Proof.
  apply (proj1 (eval_analyzePdf_failure "prompt" notFoundWorld "https://x.test/a.pdf"
                  "Failed to download: 404 Not Found"
                  (eval_tryBlock_download_fails "prompt" notFoundWorld "https://x.test/a.pdf"
                     (Analyze.mkResponse false 404 "Not Found" (Ok 0)) eq_refl eq_refl))).
Defined.

(** ** The batch, its report and its summary *)

Lemma count_disjoint {A : Type} (p q : A -> bool) (l : list A) :
  (forall x, In x l -> p x = true -> q x = false) ->
  List.length (filter p l) + List.length (filter q l) <= List.length l.
Proof.
  induction l as [|x l IH]; intros Hpq; [reflexivity|].
  simpl. assert (IH' := IH (fun y Hy => Hpq y (or_intror Hy))).
  destruct (p x) eqn:Hp.
  - rewrite (Hpq x (or_introl eq_refl) Hp). simpl. lia.
  - destruct (q x); simpl; lia.
Qed.

Lemma batchRecords_In {NUM : JSNumber} (world : nat -> Analyze.Service) (prompt : string)
    (urls : list string) (i : nat) (r : Analyze.FormAnalysis) :
  In r (batchRecords world prompt i urls) ->
  exists svc u, r = Analyze.analyzePdf svc prompt u.
Proof.
  revert i. induction urls as [|raw rest IH]; intros i Hin; [contradiction|].
  cbn [batchRecords] in Hin.
  destruct (JS.truthy (JS.trim raw)); [|now apply (IH (S i))].
  destruct Hin as [<- | Hin]; [now eexists; eexists | now apply (IH (S i))].
Qed.

Section BatchReport.
Context {NUM : JSNumber}.
Variables toFixed2 numberToString : number -> string.
Variable below0_7 : number -> bool.
Variable BOM : string.

(** The report of a completed batch can always be written: every record the
    batch returns has string notes, so [escapeField] is only ever applied to
    strings, and the text is the byte-order mark, the header line and one line
    for each record. *)
Theorem completed_batch_has_report (world : nat -> Analyze.Service)
    (prompt modelName : string) (urls : list string) (records : list Analyze.FormAnalysis) :
  Analyze.analyzeAll world prompt urls = Ok records ->
  exists rows,
    Analyze.csvRows toFixed2 numberToString below0_7 modelName records = Some rows
    /\ List.length rows = List.length records
    /\ Analyze.writeResultsCsv toFixed2 numberToString below0_7 BOM records modelName
       = Some (BOM ++ JS.join newline
                       (JS.join "," (map Analyze.escapeField Analyze.HEADERS)
                        :: map (JS.join ",") rows)).
Proof.
  intros Hrun.
  rewrite (proj1 (analyzeAll_outcome world prompt urls)) in Hrun.
  destruct (forallb hasStringNotes (batchRecords world prompt 0 urls)) eqn:Hall;
    [|discriminate].
  injection Hrun as <-.
  assert (Hrows : exists rows,
            Analyze.csvRows toFixed2 numberToString below0_7 modelName
              (batchRecords world prompt 0 urls) = Some rows
            /\ List.length rows = List.length (batchRecords world prompt 0 urls)).
  { induction (batchRecords world prompt 0 urls) as [|r rs IH]; [now exists []|].
    cbn [forallb] in Hall. apply andb_true_iff in Hall as [Hr Hrs].
    destruct (IH Hrs) as (rows & Hrows & Hlen).
    cbn [Analyze.csvRows]. rewrite Hrows.
    unfold Analyze.csvRow, Analyze.notesText. unfold hasStringNotes in Hr.
    destruct (Analyze.notes r); try discriminate Hr.
    eexists. split; [reflexivity|]. simpl. now rewrite Hlen. }
  destruct Hrows as (rows & Hrows & Hlen).
  exists rows. repeat split; [assumption..|].
  unfold Analyze.writeResultsCsv. now rewrite Hrows.
Qed.

(** In the summary of a batch a document is never counted both as an error
    and as a form, nor both as an error and as asking for sensitive data. *)
Theorem summary_counts (world : nat -> Analyze.Service) (prompt : string)
    (urls : list string) (records : list Analyze.FormAnalysis) :
  Analyze.analyzeAll world prompt urls = Ok records ->
  Analyze.errorCount records + Analyze.formsFound records <= List.length records
  /\ Analyze.errorCount records + Analyze.withSensitive records <= List.length records
  /\ List.length records <= List.length urls.
Proof.
  intros Hrun.
  rewrite (proj1 (analyzeAll_outcome world prompt urls)) in Hrun.
  destruct (forallb hasStringNotes (batchRecords world prompt 0 urls)); [|discriminate].
  injection Hrun as <-.
  assert (Hfailed : forall r, In r (batchRecords world prompt 0 urls) ->
                      negb (Analyze.missing (Analyze.error r)) = true ->
                      Analyze.isForm r = EmptyString
                      /\ Analyze.sensitiveInfo r = noSensitiveInfo).
  { intros r Hin Herr.
    destruct (batchRecords_In _ _ _ _ _ Hin) as (svc & u & ->).
    destruct (Analyze.error (Analyze.analyzePdf svc prompt u)) as [e|] eqn:He;
      [|discriminate Herr].
    destruct (analyzePdf_on_failure svc prompt u e (analyzePdf_error_throws _ _ _ _ He))
      as (_ & HisForm & Hflags & _).
    now split. }
  unfold Analyze.errorCount, Analyze.formsFound, Analyze.withSensitive.
  split; [|split].
  - apply count_disjoint. intros r Hin Herr.
    destruct (Hfailed r Hin Herr) as [-> _]. reflexivity.
  - apply count_disjoint. intros r Hin Herr.
    destruct (Hfailed r Hin Herr) as [_ ->]. reflexivity.
  - rewrite <- (length_map Analyze.url), batchRecords_urls.
    rewrite <- (length_map JS.trim urls). apply List.filter_length_le.
Qed.

End BatchReport.

Lemma completed_batch_has_report_witness :
  exists rows,
    @Analyze.csvRows milliNumber Analyze.stringOfZ Analyze.stringOfZ (fun n => Z.ltb n 700)
      "gemini-2.5-flash"
      (batchRecords (fun i => if Nat.eqb i 0 then happyWorld else notFoundWorld) "prompt" 0
         [ "https://x.test/forms/a.pdf"; "https://x.test/a.pdf" ]) = Some rows
    /\ List.length rows = 2.
Proof.
  destruct (@completed_batch_has_report milliNumber Analyze.stringOfZ Analyze.stringOfZ
              (fun n => Z.ltb n 700) EmptyString
              (fun i => if Nat.eqb i 0 then happyWorld else notFoundWorld)
              "prompt" "gemini-2.5-flash"
              [ "https://x.test/forms/a.pdf"; "https://x.test/a.pdf" ] _ eq_refl)
    as (rows & Hrows & Hlen & _).
  exists rows. split; [exact Hrows | exact Hlen].
Defined.

Lemma summary_counts_witness :
  Analyze.errorCount
    (batchRecords (fun i => if Nat.eqb i 0 then happyWorld else notFoundWorld) "prompt" 0
       [ "https://x.test/forms/a.pdf"; "https://x.test/a.pdf" ])
  + Analyze.formsFound
      (batchRecords (fun i => if Nat.eqb i 0 then happyWorld else notFoundWorld) "prompt" 0
         [ "https://x.test/forms/a.pdf"; "https://x.test/a.pdf" ]) <= 2.
Proof.
  apply (proj1 (summary_counts (fun i => if Nat.eqb i 0 then happyWorld else notFoundWorld)
                  "prompt" [ "https://x.test/forms/a.pdf"; "https://x.test/a.pdf" ] _ eq_refl)).
Defined.
